(** * lab2.py: flight-schedule validation, ingestion, persistence and querying

    A shallow embedding of [lab2.py] and of the parts of the Python
    runtime it calls ([str] methods, [float], [datetime.strptime],
    [json.dump] and [json.load]), followed by examples of the embedding
    and by the properties of the validator, the ingestion loop, the
    store and the query matcher.

    Conventions of the embedding.
    - A Python [str] is a [string]; a character is a code point below
      256, so the character classes below are the Unicode ones
      restricted to U+0000..U+00FF.
    - A Python [float] is an IEEE binary64 value, [spec_float] with
      precision 53 and maximal exponent 1024.
    - A call that can raise returns a [result]; a [try]/[except] is a
      [match] on it.
    - The files the program writes and reads back are a finite map
      from files to texts, with the file each path leads to.
    - Where [json.load] gives what the embedding does not hold (a
      character of code point 256 or more, a document nested more than
      500 deep), the outcome is [Beyond] and the embedding follows the
      run no further. *)

From Stdlib Require Import ZArith List Ascii String DecimalString Bool Lia.
From Stdlib Require DecimalFacts DecimalPos.
From Stdlib Require Import Sorting.Permutation Sorting.Sorted.
From Stdlib Require Import Floats.SpecFloat.
From stdpp Require Import gmap strings.

Local Open Scope string_scope.
Local Open Scope list_scope.

(** ** Exceptions *)

(** [Beyond] is no exception of Python. It is the outcome of a call
    whose result the embedding does not hold: a character of code point
    256 or more, which [json.load] reads from a [\u] escape, and a JSON
    document nested more deeply than the embedding reads
    ([Json.max_depth]). What the program does after such a call is not
    modelled; no [try] of the program encloses a call that gives it. *)
Inductive pyexn : Type :=
| ValueError (msg : string)
| TypeError
| OverflowError
| OSError
| Beyond.

Inductive result (A : Type) : Type :=
| Ok (a : A)
| Raise (e : pyexn).
Arguments Ok {A} a.
Arguments Raise {A} e.

Definition is_ok {A} (r : result A) : bool :=
  match r with Ok _ => true | Raise _ => false end.

(** ** Characters *)

Module Char.

Definition code (c : ascii) : N := N_of_ascii c.

Definition between (lo hi : N) (c : ascii) : bool :=
  ((lo <=? code c) && (code c <=? hi))%N.

Definition at_code (n : N) (c : ascii) : bool := (code c =? n)%N.

(** [str.isspace] on one character: TAB..CR, FS..US, SPACE, NEL, NBSP. *)
Definition isspace (c : ascii) : bool :=
  between 9 13 c || between 28 32 c || at_code 133 c || at_code 160 c.

(** Unicode category Nd below 256: the ASCII digits. *)
Definition isdecimal (c : ascii) : bool := between 48 57 c.

(** Characters with a digit value: Nd and the superscripts 2, 3, 1. *)
Definition isdigit (c : ascii) : bool :=
  isdecimal c || at_code 178 c || at_code 179 c || at_code 185 c.

(** Characters with a numeric value: the above and the three vulgar
    fractions. *)
Definition isnumeric (c : ascii) : bool := isdigit c || between 188 190 c.

(** Unicode categories L* below 256. *)
Definition isalpha (c : ascii) : bool :=
  between 65 90 c || between 97 122 c || at_code 170 c || at_code 181 c || at_code 186 c
  || between 192 214 c || between 216 246 c || between 248 255 c.

(** Derived property Uppercase below 256. *)
Definition isupper (c : ascii) : bool :=
  between 65 90 c || between 192 214 c || between 216 222 c.

(** Derived property Lowercase below 256 (the ordinal indicators and the
    micro sign included). *)
Definition islower (c : ascii) : bool :=
  between 97 122 c || at_code 170 c || at_code 181 c || at_code 186 c
  || between 223 246 c || between 248 255 c.

(** Category Lt is empty below 256. *)
Definition istitle (c : ascii) : bool := false.

Definition isalnum (c : ascii) : bool :=
  isalpha c || isdecimal c || isdigit c || isnumeric c.

(** The decimal value of an ASCII digit. *)
Definition digit_value (c : ascii) : Z := Z.of_N (code c) - 48.

End Char.

(** ** Strings: the [str] methods the program uses *)

Module Str.

Fixpoint all (p : ascii -> bool) (s : string) : bool :=
  match s with
  | EmptyString => true
  | String c s' => p c && all p s'
  end.

Definition is_empty (s : string) : bool :=
  match s with EmptyString => true | _ => false end.

(** [s.isalnum()], [s.isalpha()]: every character qualifies and there is
    at least one. *)
Definition isalnum (s : string) : bool := negb (is_empty s) && all Char.isalnum s.
Definition isalpha (s : string) : bool := negb (is_empty s) && all Char.isalpha s.

(** [s.isupper()]: the scan of [unicode_isupper_impl]; a lowercase or
    titlecase character answers False at once, and [cased] records
    whether an uppercase one was seen. *)
Fixpoint isupper_scan (s : string) (cased : bool) : bool :=
  match s with
  | EmptyString => cased
  | String c s' =>
      if Char.islower c || Char.istitle c then false
      else isupper_scan s' (cased || Char.isupper c)
  end.

Definition isupper (s : string) : bool := isupper_scan s false.

(** Removal of the leading and of the trailing characters of a class;
    [s.strip()] removes whitespace on both sides. *)
Fixpoint lstrip_of (p : ascii -> bool) (s : string) : string :=
  match s with
  | EmptyString => EmptyString
  | String c s' => if p c then lstrip_of p s' else s
  end.

Fixpoint rstrip_of (p : ascii -> bool) (s : string) : string :=
  match s with
  | EmptyString => EmptyString
  | String c s' =>
      let r := rstrip_of p s' in
      if is_empty r && p c then EmptyString else String c r
  end.

Definition strip_of (p : ascii -> bool) (s : string) : string :=
  rstrip_of p (lstrip_of p s).

Definition strip (s : string) : string := strip_of Char.isspace s.

(** [s.split(sep)] for a one-character separator: never an empty list. *)
Fixpoint split (sep : ascii) (s : string) : list string :=
  match s with
  | EmptyString => [EmptyString]
  | String c s' =>
      if Ascii.eqb c sep then EmptyString :: split sep s'
      else match split sep s' with
           | f :: fs => String c f :: fs
           | [] => [String c EmptyString]
           end
  end.

(** [sep.join(parts)]. *)
Fixpoint join (sep : string) (parts : list string) : string :=
  match parts with
  | [] => EmptyString
  | [p] => p
  | p :: ps => p +:+ sep +:+ join sep ps
  end.

(** [s.startswith(p)] and [p in s]. *)
Fixpoint startswith (s p : string) {struct p} : bool :=
  match p, s with
  | EmptyString, _ => true
  | String a p', String b s' => Ascii.eqb a b && startswith s' p'
  | String _ _, EmptyString => false
  end.

Fixpoint contains (s p : string) : bool :=
  startswith s p ||
  match s with
  | EmptyString => false
  | String _ s' => contains s' p
  end.

(** [str(n)] for an integer. *)
Definition of_Z (n : Z) : string := DecimalString.NilZero.string_of_int (Z.to_int n).

End Str.

(** [repr(s)] of a [str] (CPython's [unicode_repr]): single quotes unless
    the text has a single quote and no double quote; the quote, the
    backslash, TAB, LF and CR escaped with a backslash; every other
    non-printable character written as [\xhh]. *)

Module Repr.

Definition hex_digit (n : N) : ascii :=
  if (n <? 10)%N then ascii_of_N (48 + n) else ascii_of_N (87 + n).

Definition isprintable (c : ascii) : bool :=
  negb (Char.between 0 31 c || Char.between 127 160 c || Char.at_code 173 c).

Definition has (q : ascii) (s : string) : bool := negb (Str.all (fun c => negb (Ascii.eqb c q)) s).

Definition double_quote : ascii := ascii_of_N 34.

Definition quote_of (s : string) : ascii :=
  if has "'" s && negb (has double_quote s) then double_quote else "'"%char.

Definition escape_char (quote c : ascii) : string :=
  if Ascii.eqb c quote || Ascii.eqb c "\" then String "\" (String c "")
  else if Char.at_code 9 c then "\t"
  else if Char.at_code 10 c then "\n"
  else if Char.at_code 13 c then "\r"
  else if isprintable c then String c ""
  else String "\" (String "x"
         (String (hex_digit (Char.code c / 16)) (String (hex_digit (Char.code c mod 16)) ""))).

Fixpoint escape (quote : ascii) (s : string) : string :=
  match s with
  | EmptyString => EmptyString
  | String c s' => escape_char quote c +:+ escape quote s'
  end.

Definition repr (s : string) : string :=
  let q := quote_of s in String q (escape q s +:+ String q "").

End Repr.

(** ** [datetime.strptime(value, "%Y-%m-%d %H:%M")] *)

(** The regular expressions [_strptime] compiles the format into, and a
    backtracking matcher that returns what [re.match] returns: the first
    match in priority order, anchored at the start only. *)

Module Re.

Inductive re : Type :=
| Cls (p : ascii -> bool)
| Seq (r1 r2 : re)
| Alt (r1 r2 : re)
| Plus (p : ascii -> bool).

(** Greedy [p+]: the longest run first, shorter ones on backtracking. *)
Fixpoint plus {A} (p : ascii -> bool) (s : string)
    (k : string -> string -> option A) : option A :=
  match s with
  | EmptyString => None
  | String c s' =>
      if p c then
        match plus p s' (fun m rest => k (String c m) rest) with
        | Some a => Some a
        | None => k (String c "") s'
        end
      else None
  end.

(** [run r s k]: match [r] at the head of [s]; the continuation receives
    the matched text and the rest, and its failure makes the matcher
    backtrack. *)
Fixpoint run {A} (r : re) (s : string) (k : string -> string -> option A) : option A :=
  match r with
  | Cls p =>
      match s with
      | String c s' => if p c then k (String c "") s' else None
      | EmptyString => None
      end
  | Seq r1 r2 => run r1 s (fun m1 s1 => run r2 s1 (fun m2 s2 => k (m1 +:+ m2) s2))
  | Alt r1 r2 =>
      match run r1 s k with
      | Some a => Some a
      | None => run r2 s k
      end
  | Plus p => plus p s k
  end.

Definition chr (c : ascii) : re := Cls (Ascii.eqb c).
Definition rng (lo hi : ascii) : re := Cls (Char.between (Char.code lo) (Char.code hi)).
(** [\d] and [\s] of a [str] pattern. *)
Definition d : re := Cls Char.isdecimal.
Definition s_plus : re := Plus Char.isspace.

(** [%Y]: [\d\d\d\d] *)
Definition re_Y : re := Seq d (Seq d (Seq d d)).
(** [%m]: [1[0-2]|0[1-9]|[1-9]] *)
Definition re_m : re :=
  Alt (Seq (chr "1") (rng "0" "2")) (Alt (Seq (chr "0") (rng "1" "9")) (rng "1" "9")).
(** [%d]: [3[0-1]|[1-2]\d|0[1-9]|[1-9]| [1-9]] *)
Definition re_d : re :=
  Alt (Seq (chr "3") (rng "0" "1"))
 (Alt (Seq (rng "1" "2") d)
 (Alt (Seq (chr "0") (rng "1" "9"))
 (Alt (rng "1" "9")
      (Seq (chr " ") (rng "1" "9"))))).
(** [%H]: [2[0-3]|[0-1]\d|\d] *)
Definition re_H : re :=
  Alt (Seq (chr "2") (rng "0" "3")) (Alt (Seq (rng "0" "1") d) d).
(** [%M]: [[0-5]\d|\d] *)
Definition re_M : re := Alt (Seq (rng "0" "5") d) d.

Record groups : Type := { g_Y : string; g_m : string; g_d : string; g_H : string; g_M : string }.

(** [format_regex.match(data_string)] for
    [(?P<Y>..)-(?P<m>..)-(?P<d>..)\s+(?P<H>..):(?P<M>..)]:
    the groups and the unmatched rest of the text. *)
Definition match_format (data : string) : option (groups * string) :=
  run re_Y data (fun gY s1 =>
  run (chr "-") s1 (fun _ s2 =>
  run re_m s2 (fun gm s3 =>
  run (chr "-") s3 (fun _ s4 =>
  run re_d s4 (fun gd s5 =>
  run s_plus s5 (fun _ s6 =>
  run re_H s6 (fun gH s7 =>
  run (chr ":") s7 (fun _ s8 =>
  run re_M s8 (fun gM rest =>
    Some ({| g_Y := gY; g_m := gm; g_d := gd; g_H := gH; g_M := gM |}, rest)))))))))).

End Re.

(** [datetime] values built by [strptime] with this format: seconds,
    microseconds and time zone are always absent, so five fields decide
    every comparison. *)
Record datetime : Type := mk_datetime {
  dt_year : Z; dt_month : Z; dt_day : Z; dt_hour : Z; dt_minute : Z
}.

Module Datetime.

Local Open Scope Z_scope.

(** [int(text)] on a matched group: decimal digits, after the leading
    blank the [%d] pattern allows. *)
Fixpoint digits_value (s : string) (acc : Z) : Z :=
  match s with
  | EmptyString => acc
  | String c s' => digits_value s' (10 * acc + Char.digit_value c)
  end.

Definition int_of_group (s : string) : Z := digits_value (Str.strip s) 0.

Definition is_leap (y : Z) : bool :=
  (y mod 4 =? 0) && (negb (y mod 100 =? 0) || (y mod 400 =? 0)).

Definition days_in_month (y m : Z) : Z :=
  if m =? 2 then (if is_leap y then 29 else 28)
  else if (m =? 4) || (m =? 6) || (m =? 9) || (m =? 11) then 30
  else 31.

(** The range checks of the [date] and [datetime] constructors. *)
Definition construct (y m d h mi : Z) : result datetime :=
  if negb ((1 <=? y) && (y <=? 9999)) then
    Raise (ValueError ("year " +:+ Str.of_Z y +:+ " is out of range"))
  else if negb ((1 <=? m) && (m <=? 12)) then
    Raise (ValueError "month must be in 1..12")
  else if negb ((1 <=? d) && (d <=? days_in_month y m)) then
    Raise (ValueError "day is out of range for month")
  else if negb ((0 <=? h) && (h <=? 23)) then
    Raise (ValueError "hour must be in 0..23")
  else if negb ((0 <=? mi) && (mi <=? 59)) then
    Raise (ValueError "minute must be in 0..59")
  else Ok (mk_datetime y m d h mi).

Definition DATE_FORMAT : string := "%Y-%m-%d %H:%M".

(** [datetime.strptime(data, DATE_FORMAT)] on a [str]. *)
Definition strptime (data : string) : result datetime :=
  match Re.match_format data with
  | None =>
      Raise (ValueError ("time data " +:+ Repr.repr data +:+ " does not match format "
                         +:+ Repr.repr DATE_FORMAT))
  | Some (g, rest) =>
      if negb (Str.is_empty rest) then
        Raise (ValueError ("unconverted data remains: " +:+ rest))
      else
        construct (int_of_group (Re.g_Y g)) (int_of_group (Re.g_m g))
                  (int_of_group (Re.g_d g)) (int_of_group (Re.g_H g))
                  (int_of_group (Re.g_M g))
  end.

(** Comparison of naive datetimes: lexicographic on the fields. *)
Definition compare (a b : datetime) : comparison :=
  match dt_year a ?= dt_year b with
  | Eq =>
    match dt_month a ?= dt_month b with
    | Eq =>
      match dt_day a ?= dt_day b with
      | Eq =>
        match dt_hour a ?= dt_hour b with
        | Eq => dt_minute a ?= dt_minute b
        | c => c
        end
      | c => c
      end
    | c => c
    end
  | c => c
  end.

Definition ltb (a b : datetime) : bool :=
  match compare a b with Lt => true | _ => false end.
Definition leb (a b : datetime) : bool :=
  match compare a b with Gt => false | _ => true end.
Definition gtb (a b : datetime) : bool := ltb b a.

End Datetime.

(** lab2.py, line 23: [parse_datetime]. *)
Definition parse_datetime (value : string) : result datetime :=
  Datetime.strptime value.

(** ** [float]: binary64 values and [float(x)] *)

Module Float.

Local Open Scope Z_scope.

Definition prec : Z := 53.
Definition emax : Z := 1024.

Definition zero : spec_float := S754_zero false.
Definition one : spec_float := binary_normalize prec emax 1 0 false.
Definition nan : spec_float := S754_nan.
Definition inf : spec_float := S754_infinity false.

(** The binary64 value nearest to [m * 2^e] (ties to even). *)
Definition round (neg : bool) (m e : Z) : spec_float :=
  binary_normalize prec emax (if neg then - m else m) e neg.

(** The binary64 value nearest to [n / d], for positive [n] and [d]: the
    quotient is taken with at least 57 bits and the remainder folded in
    as a sticky last bit before rounding. *)
Definition round_ratio (neg : bool) (n d : Z) : spec_float :=
  let k := Z.max 0 (56 + Z.log2_up d - Z.log2 n) in
  let q := (n * 2 ^ k) / d in
  let r := (n * 2 ^ k) mod d in
  round neg (2 * q + (if r =? 0 then 0 else 1)) (- k - 1).

(** The correctly rounded value of [m * 10^e], as [strtod] returns it;
    overflow gives an infinity and underflow a zero. *)
Definition of_decimal (neg : bool) (m e : Z) : spec_float :=
  if m =? 0 then S754_zero neg
  else if 0 <=? e then round neg (m * 10 ^ e) 0
  else round_ratio neg m (10 ^ (- e)).

(** [float(n)] for an [int]: nearest value, OverflowError beyond the
    finite range. *)
Definition of_int (n : Z) : result spec_float :=
  match binary_normalize prec emax n 0 false with
  | S754_infinity _ => Raise OverflowError
  | x => Ok x
  end.

(** *** Text to float *)

(** [Py_ISSPACE] and [Py_ISDIGIT] of the C layer. *)
Definition c_isspace (c : ascii) : bool := Char.between 9 13 c || Char.at_code 32 c.
Definition c_isdigit (c : ascii) : bool := Char.between 48 57 c.

(** [_PyUnicode_TransformDecimalAndSpaceToASCII]: an ASCII text is kept;
    otherwise whitespace becomes a blank and the first character that is
    neither ASCII, whitespace nor a decimal digit ends the text with a
    question mark. *)
Fixpoint transform (s : string) : string :=
  match s with
  | EmptyString => EmptyString
  | String c s' =>
      if (Char.code c <? 127)%N then String c (transform s')
      else if Char.isspace c then String " " (transform s')
      else "?"
  end.

Definition to_ascii (s : string) : string :=
  if Str.all (fun c => (Char.code c <? 128)%N) s then s else transform s.

(** [_Py_string_to_number_with_underscores]: an underscore must stand
    between two digits; the text is returned without them. *)
Fixpoint drop_underscores (s : string) (prev : ascii) : option string :=
  match s with
  | EmptyString => if Ascii.eqb prev "_" then None else Some EmptyString
  | String c s' =>
      if Ascii.eqb c "_" then
        if c_isdigit prev then drop_underscores s' c else None
      else if Ascii.eqb prev "_" && negb (c_isdigit c) then None
      else option_map (String c) (drop_underscores s' c)
  end.

Definition without_underscores (s : string) : option string :=
  if Str.all (fun c => negb (Ascii.eqb c "_")) s then Some s
  else drop_underscores s Ascii.zero.

(** The longest prefix of digits and what follows it. *)
Fixpoint span_digits (s : string) : string * string :=
  match s with
  | String c s' =>
      if c_isdigit c then let '(ds, rest) := span_digits s' in (String c ds, rest)
      else (EmptyString, s)
  | EmptyString => (EmptyString, EmptyString)
  end.

Definition digits_value (ds : string) : Z := Datetime.digits_value ds 0.

Definition lower (c : ascii) : ascii :=
  if Char.between 65 90 c then ascii_of_N (Char.code c + 32) else c.

Fixpoint lower_str (s : string) : string :=
  match s with
  | EmptyString => EmptyString
  | String c s' => String (lower c) (lower_str s')
  end.

Definition split_sign (s : string) : bool * string :=
  match s with
  | String "-" s' => (true, s')
  | String "+" s' => (false, s')
  | _ => (false, s)
  end.

(** [_Py_parse_inf_or_nan] on the unsigned text, the whole text being
    consumed. *)
Definition parse_inf_or_nan (neg : bool) (body : string) : option spec_float :=
  let l := lower_str body in
  if String.eqb l "inf" || String.eqb l "infinity" then Some (S754_infinity neg)
  else if String.eqb l "nan" then Some S754_nan
  else None.

(** [_Py_dg_strtod] on the unsigned text, the whole text being consumed:
    digits with an optional point, at least one digit, and an optional
    exponent with at least one digit. *)
Definition parse_decimal (neg : bool) (body : string) : option spec_float :=
  let '(ip, r1) := span_digits body in
  let '(fp, r2) :=
    match r1 with
    | String "." r => span_digits r
    | _ => (EmptyString, r1)
    end in
  if Str.is_empty ip && Str.is_empty fp then None
  else
    let m := digits_value (ip +:+ fp) in
    let scale := - Z.of_nat (String.length fp) in
    match r2 with
    | EmptyString => Some (of_decimal neg m scale)
    | String c r3 =>
        if Ascii.eqb c "e" || Ascii.eqb c "E" then
          let '(eneg, r4) := split_sign r3 in
          let '(ed, r5) := span_digits r4 in
          if Str.is_empty ed || negb (Str.is_empty r5) then None
          else
            let x := digits_value ed in
            Some (of_decimal neg m ((if eneg then - x else x) + scale))
        else None
    end.

Definition could_not_convert (s : string) : pyexn :=
  ValueError ("could not convert string to float: " +:+ Repr.repr s).

(** [float(s)] for a [str]. *)
Definition of_str (s : string) : result spec_float :=
  match without_underscores (to_ascii s) with
  | None => Raise (could_not_convert s)
  | Some t =>
      let '(neg, body) := split_sign (Str.strip_of c_isspace t) in
      match parse_decimal neg body with
      | Some x => Ok x
      | None =>
          match parse_inf_or_nan neg body with
          | Some x => Ok x
          | None => Raise (could_not_convert s)
          end
      end
  end.

End Float.

(** ** [repr(x)] of a [float]: the shortest decimal text that [float]
    reads back as [x] *)

Module FloatRepr.

Local Open Scope Z_scope.

Definition sf_eqb (x y : spec_float) : bool :=
  match x, y with
  | S754_zero a, S754_zero b => Bool.eqb a b
  | S754_infinity a, S754_infinity b => Bool.eqb a b
  | S754_nan, S754_nan => true
  | S754_finite a m e, S754_finite b m' e' => Bool.eqb a b && (m =? m')%positive && (e =? e')
  | _, _ => false
  end.

(** The decimal digits of a natural number, most significant first. *)
Definition digit_char (d : Z) : ascii := ascii_of_N (48 + Z.to_N d).

Fixpoint digits_acc (fuel : nat) (z : Z) (acc : string) : string :=
  match fuel with
  | O => acc
  | S f =>
      let acc' := String (digit_char (z mod 10)) acc in
      if z <? 10 then acc' else digits_acc f (z / 10) acc'
  end.

Definition digits (z : Z) : string := digits_acc (S (Z.to_nat (Z.log2 z))) z "".

Definition ndigits (z : Z) : Z := Z.of_nat (String.length (digits z)).

(** The value as a quotient of two positive integers. *)
Definition ratio (m : positive) (e : Z) : Z * Z :=
  if 0 <=? e then (Zpos m * 2 ^ e, 1) else (Zpos m, 2 ^ (- e)).

(** The quotient divided by [10^E]. *)
Definition scaled (nd : Z * Z) (E : Z) : Z * Z :=
  let '(num, den) := nd in
  if 0 <=? E then (num, den * 10 ^ E) else (num * 10 ^ (- E), den).

(** The position of the decimal point: [10^(decpt-1) <= x < 10^decpt]. *)
Definition decpt_of (nd : Z * Z) : Z :=
  let '(num, den) := nd in
  let g := ndigits num - ndigits den in
  let '(A, B) := scaled nd g in
  if A <? B then g else g + 1.

(** [D * 10^E] without the trailing zeros of [D]. *)
Fixpoint strip_zeros (fuel : nat) (D E : Z) : Z * Z :=
  match fuel with
  | O => (D, E)
  | S f =>
      if (D mod 10 =? 0) && negb (D =? 0) then strip_zeros f (D / 10) (E + 1) else (D, E)
  end.

Definition normal (D E : Z) : Z * Z := strip_zeros (S (Z.to_nat (Z.log2 D))) D E.

(** [float] reads [D * 10^E] back as the value. *)
Definition reads_back (m : positive) (e : Z) (c : Z * Z) : bool :=
  sf_eqb (Float.of_decimal false (fst c) (snd c)) (S754_finite false m e).

(** The [n]-digit decimals just below and just above the value: the one
    that reads back; if both do, the nearer, and the even one when they
    are equally near. *)
Definition candidate (m : positive) (e : Z) (nd : Z * Z) (decpt n : Z) : option (Z * Z) :=
  let E := decpt - n in
  let '(A, B) := scaled nd E in
  let r := A mod B in
  let lo := normal (A / B) E in
  let hi := normal (A / B + 1) E in
  if reads_back m e lo && reads_back m e hi then
    if (B <? 2 * r) || ((2 * r =? B) && Z.odd (A / B)) then Some hi else Some lo
  else if reads_back m e lo then Some lo
  else if reads_back m e hi then Some hi
  else None.

(** The value written out in full. *)
Definition exact (m : positive) (e : Z) : Z * Z :=
  if 0 <=? e then (Zpos m * 2 ^ e, 0) else (Zpos m * 5 ^ (- e), e).

(** The shortest candidate, from [n] digits on. Seventeen digits always
    identify a binary64 value; the value in full closes the search. *)
Fixpoint search (fuel : nat) (m : positive) (e : Z) (nd : Z * Z) (decpt n : Z) : Z * Z :=
  match fuel with
  | O => exact m e
  | S f =>
      match candidate m e nd decpt n with
      | Some c => c
      | None => search f m e nd decpt (n + 1)
      end
  end.

Definition shortest (m : positive) (e : Z) : Z * Z :=
  let nd := ratio m e in search 17 m e nd (decpt_of nd) 1.

Fixpoint zeros (n : nat) : string :=
  match n with O => "" | S k => String "0" (zeros k) end.

Fixpoint take (n : nat) (s : string) : string :=
  match n, s with
  | S k, String c s' => String c (take k s')
  | _, _ => ""
  end.

Fixpoint drop (n : nat) (s : string) : string :=
  match n, s with
  | S k, String c s' => drop k s'
  | _, _ => s
  end.

(** The exponent: a sign and at least two digits. *)
Definition exp_sign (negative : bool) : string := if negative then "-" else "+".

Definition exponent_text (x : Z) : string :=
  exp_sign (x <? 0)
  +:+ (if Z.abs x <? 10 then "0" +:+ digits (Z.abs x) else digits (Z.abs x)).

(** [format_float_short] for the code ['r']: exponent form when the
    point would stand more than 16 places right of, or 4 or more places
    left of, the first digit. *)
(** The digits after the first, behind a point when there are any. *)
Definition fraction_text (fp : string) : string :=
  if Str.is_empty fp then "" else "." +:+ fp.

Definition format (neg : bool) (D E : Z) : string :=
  let ds := digits D in
  let n := Z.of_nat (String.length ds) in
  let decpt := n + E in
  (if neg then "-" else "") +:+
  (if (decpt <=? -4) || (16 <? decpt) then
     take 1 ds +:+ fraction_text (drop 1 ds) +:+ "e" +:+ exponent_text (decpt - 1)
   else if decpt <=? 0 then "0." +:+ zeros (Z.to_nat (- decpt)) +:+ ds
   else if n <=? decpt then ds +:+ zeros (Z.to_nat (decpt - n)) +:+ ".0"
   else take (Z.to_nat decpt) ds +:+ "." +:+ drop (Z.to_nat decpt) ds).

Definition repr (x : spec_float) : string :=
  match x with
  | S754_nan => "nan"
  | S754_infinity s => if s then "-inf" else "inf"
  | S754_zero s => if s then "-0.0" else "0.0"
  | S754_finite s m e => let '(D, E) := shortest m e in format s D E
  end.

End FloatRepr.

(** ** The field validators (lab2.py, lines 15-31) *)

Definition is_alnum_len (value : string) (min_len max_len : nat) : bool :=
  Str.isalnum value
  && (min_len <=? String.length value)%nat && (String.length value <=? max_len)%nat.

Definition is_airport_code (value : string) : bool :=
  (String.length value =? 3)%nat && Str.isupper value && Str.isalpha value.

(** [p <= 0] compares the float with the integer zero. *)
Definition validate_price (value : string) : result spec_float :=
  match Float.of_str value with
  | Raise e => Raise e
  | Ok p =>
      if SFleb p Float.zero then Raise (ValueError "price must be positive")
      else Ok p
  end.

(** [str(e)] of an exception. *)
Definition exn_str (e : pyexn) : string :=
  match e with
  | ValueError msg => msg
  | TypeError => "TypeError"
  | OverflowError => "OverflowError"
  | OSError => "OSError"
  | Beyond => ""
  end.

(** ** The record validator (lab2.py, lines 34-82) *)

(** The dictionary built at lines 75-82. *)
Record flight : Type := mk_flight {
  flight_id : string;
  origin : string;
  destination : string;
  departure_datetime : string;
  arrival_datetime : string;
  price : spec_float
}.

Definition append_if (cond : bool) (errors : list string) (msg : string) : list string :=
  if cond then errors ++ [msg] else errors.

(** Lines 51-61: [try: dt = parse_datetime(s) except: dt = None;
    errors.append(msg)]. *)
Definition try_datetime (s : string) (errors : list string) (msg : string)
  : option datetime * list string :=
  match parse_datetime s with
  | Ok dt => (Some dt, errors)
  | Raise _ => (None, errors ++ [msg])
  end.

(** Lines 66-70: the same for the price, the reason being [str(e)]. *)
Definition try_price (s : string) (errors : list string)
  : option spec_float * list string :=
  match validate_price s with
  | Ok p => (Some p, errors)
  | Raise e => (None, errors ++ [exn_str e])
  end.

(** Lines 41-70 on the six trimmed fields: the parsed price and the
    [errors] list after the last check. *)
Definition check_fields (flight_id origin destination dep_dt_str arr_dt_str price_str : string)
  : option spec_float * list string :=
  let errors := [] in
  let errors := append_if (negb (is_alnum_len flight_id 2 8)) errors "invalid flight_id" in
  let errors := append_if (negb (is_airport_code origin)) errors "invalid origin" in
  let errors := append_if (negb (is_airport_code destination)) errors "invalid destination" in
  let '(dep_dt, errors) := try_datetime dep_dt_str errors "invalid departure_datetime" in
  let '(arr_dt, errors) := try_datetime arr_dt_str errors "invalid arrival_datetime" in
  let errors :=
    match dep_dt, arr_dt with
    | Some d, Some a => append_if (Datetime.leb a d) errors "arrival must be after departure"
    | _, _ => errors
    end in
  try_price price_str errors.

Definition row_errors (flight_id origin destination dep_dt_str arr_dt_str price_str : string)
  : list string :=
  snd (check_fields flight_id origin destination dep_dt_str arr_dt_str price_str).

(** [validate_flight_row(line, line_number)]: the pair (record, reason),
    one of the two being [None]. *)
Definition validate_flight_row (line : string) (line_number : Z)
  : option flight * option string :=
  match Str.split "," (Str.strip line) with
  | [p1; p2; p3; p4; p5; p6] =>
      let flight_id := Str.strip p1 in
      let origin := Str.strip p2 in
      let destination := Str.strip p3 in
      let dep_dt_str := Str.strip p4 in
      let arr_dt_str := Str.strip p5 in
      let price_str := Str.strip p6 in
      let '(price, errors) :=
        check_fields flight_id origin destination dep_dt_str arr_dt_str price_str in
      match errors, price with
      | [], Some price =>
          (Some (mk_flight flight_id origin destination dep_dt_str arr_dt_str price), None)
      | _, _ => (None, Some (Str.join "; " errors))
      end
  | _ => (None, Some "missing required fields")
  end.

(** ** Ingestion (lab2.py, lines 85-119) *)

(** What [open(path)] and the iteration over the file give: the [open]
    call raises, or the iteration yields [src_lines] and then either
    ends or raises ([src_broken]). *)
Inductive source : Type :=
| Unopenable
| Opened (src_lines : list string) (src_broken : bool).

Record filesystem : Type := {
  fs_open : string -> source;
  (** [glob.glob(pattern)], in the order the operating system lists
      the directory *)
  fs_glob : string -> list string
}.

(** The two lists [parse_csv_file] appends to. *)
Record ingest : Type := mk_ingest {
  valid_flights : list flight;
  error_lines : list string
}.

Definition add_flight (f : flight) (st : ingest) : ingest :=
  mk_ingest (valid_flights st ++ [f]) (error_lines st).
Definition add_error (e : string) (st : ingest) : ingest :=
  mk_ingest (valid_flights st) (error_lines st ++ [e]).

(** The f-string [f"Line {line_number}: {s} -> {reason}"]. *)
Definition error_entry (line_number : Z) (s reason : string) : string :=
  "Line " +:+ Str.of_Z line_number +:+ ": " +:+ s +:+ " -> " +:+ reason.

(** Lines 89-102: the body of the loop for one line. *)
Definition process_line (line_number : Z) (line : string) (st : ingest) : ingest :=
  let s := Str.strip line in
  if String.eqb s "" then st
  else if (line_number =? 1)%Z && Str.contains s "flight_id" then st
  else if Str.startswith s "#" then add_error (error_entry line_number s "comment") st
  else
    match validate_flight_row line line_number with
    | (Some f, None) => add_flight f st
    | (_, Some err) =>
        if Str.is_empty err then st else add_error (error_entry line_number s err) st
    | (None, None) => st
    end.

(** [for line_number, line in enumerate(f, start=1)]. *)
Fixpoint read_lines (line_number : Z) (lines : list string) (st : ingest) : ingest :=
  match lines with
  | [] => st
  | line :: rest => read_lines (line_number + 1) rest (process_line line_number line st)
  end.

(** A source on which opening or reading fails, and the lines its
    iteration delivers. *)
Definition source_fails (src : source) : bool :=
  match src with
  | Unopenable => true
  | Opened _ broken => broken
  end.

Definition lines_read (src : source) : list string :=
  match src with
  | Unopenable => []
  | Opened lines _ => lines
  end.

(** The [try] block of [parse_csv_file]: the lists as the block leaves
    them, and how it ends. *)
Definition csv_try (src : source) (st : ingest) : ingest * result unit :=
  match src with
  | Unopenable => (st, Raise OSError)
  | Opened lines broken =>
      (read_lines 1 lines st, if broken then Raise OSError else Ok tt)
  end.

(** [parse_csv_file(path, valid_flights, error_lines)]: [except: pass]
    drops the outcome of the block. *)
Definition parse_csv_file (fs : filesystem) (path : string) (st : ingest) : ingest :=
  fst (csv_try (fs_open fs path) st).

(** [sorted] on file names: insertion into a list ordered by code
    points. *)
Fixpoint insert_sorted (p : string) (l : list string) : list string :=
  match l with
  | [] => [p]
  | q :: l' => if String.leb p q then p :: l else q :: insert_sorted p l'
  end.

Definition sorted (l : list string) : list string := fold_right insert_sorted [] l.

(** [os.path.join(folder, "*.csv")]. *)
Fixpoint ends_with_slash (s : string) : bool :=
  match s with
  | EmptyString => false
  | String c EmptyString => Ascii.eqb c "/"
  | String _ s' => ends_with_slash s'
  end.

Definition path_join (folder name : string) : string :=
  if Str.is_empty folder || ends_with_slash folder then folder +:+ name
  else folder +:+ "/" +:+ name.

(** Truth value of an optional command-line argument. *)
Definition given (arg : option string) : option string :=
  match arg with
  | Some s => if Str.is_empty s then None else Some s
  | None => None
  end.

Definition parse_files (fs : filesystem) (paths : list string) (st : ingest) : ingest :=
  fold_left (fun st p => parse_csv_file fs p st) paths st.

(** The sources in processing order: the explicit file, then the
    directory's [*.csv] files by name. *)
Definition input_paths (fs : filesystem) (csv_file folder : option string) : list string :=
  match given csv_file with Some p => [p] | None => [] end
  ++ match given folder with
     | Some d => sorted (fs_glob fs (path_join d "*.csv"))
     | None => []
     end.

(** [parse_input_sources(csv_file, folder)]. *)
Definition parse_input_sources (fs : filesystem) (csv_file folder : option string) : ingest :=
  parse_files fs (input_paths fs csv_file folder) (mk_ingest [] []).

(** ** JSON values *)

(** A value [json.dump] writes and [json.load] reads. *)
#[local] Unset Elimination Schemes.
Inductive json : Type :=
| JNull
| JBool (b : bool)
| JInt (n : Z)
| JFloat (x : spec_float)
| JStr (s : string)
| JArr (items : list json)
| JObj (members : list (string * json)).
#[local] Set Elimination Schemes.

(** ** [json.dump(obj, f, indent=4)] and [json.load(f)] *)

(** Sequencing of calls that can raise. *)
#[global] Instance result_bind : MBind result := fun A B k r =>
  match r with
  | Ok a => k a
  | Raise e => Raise e
  end.

Module Json.

Definition dq : ascii := ascii_of_N 34.
Definition backslash : ascii := ascii_of_N 92.

(** *** Encoding *)

Definition hex_digit (n : N) : ascii :=
  if (n <? 10)%N then ascii_of_N (48 + n) else ascii_of_N (87 + n).

(** [encode_basestring_ascii]: the two-character escapes of
    [ESCAPE_DCT], and [\u00hh] for every other character outside
    SPACE..TILDE. *)
Definition escape_char (c : ascii) : string :=
  if Ascii.eqb c dq then String backslash (String dq "")
  else if Ascii.eqb c backslash then String backslash (String backslash "")
  else if Char.at_code 10 c then String backslash "n"
  else if Char.at_code 13 c then String backslash "r"
  else if Char.at_code 9 c then String backslash "t"
  else if Char.at_code 8 c then String backslash "b"
  else if Char.at_code 12 c then String backslash "f"
  else if Char.between 32 126 c then String c ""
  else String backslash
         (String "u" (String "0" (String "0"
           (String (hex_digit (Char.code c / 16)) (String (hex_digit (Char.code c mod 16)) ""))))).

Fixpoint escape (s : string) : string :=
  match s with
  | EmptyString => EmptyString
  | String c s' => escape_char c +:+ escape s'
  end.

Definition encode_string (s : string) : string :=
  String dq (escape s +:+ String dq "").

(** [floatstr]: the three constants, else [float.__repr__]. *)
Definition floatstr (x : spec_float) : string :=
  match x with
  | S754_nan => "NaN"
  | S754_infinity false => "Infinity"
  | S754_infinity true => "-Infinity"
  | _ => FloatRepr.repr x
  end.

Fixpoint spaces (n : nat) : string :=
  match n with O => "" | S k => String " " (spaces k) end.

Definition newline : string := String (ascii_of_N 10) "".

(** A line break and the indentation of a nesting level. *)
Definition newline_indent (indent level : nat) : string :=
  newline +:+ spaces (indent * level).

(** [_iterencode]: the chunks joined. *)
Fixpoint encode (indent level : nat) (v : json) : string :=
  match v with
  | JNull => "null"
  | JBool true => "true"
  | JBool false => "false"
  | JInt n => Str.of_Z n
  | JFloat x => floatstr x
  | JStr s => encode_string s
  | JArr [] => "[]"
  | JArr (first :: rest) =>
      let nl := newline_indent indent (S level) in
      "[" +:+ nl +:+ encode indent (S level) first
      +:+ (fix items (l : list json) : string :=
             match l with
             | [] => ""
             | x :: l' => "," +:+ nl +:+ encode indent (S level) x +:+ items l'
             end) rest
      +:+ newline_indent indent level +:+ "]"
  | JObj [] => "{}"
  | JObj ((k, first) :: rest) =>
      let nl := newline_indent indent (S level) in
      "{" +:+ nl +:+ encode_string k +:+ ": " +:+ encode indent (S level) first
      +:+ (fix members (l : list (string * json)) : string :=
             match l with
             | [] => ""
             | (k', x) :: l' =>
                 "," +:+ nl +:+ encode_string k' +:+ ": " +:+ encode indent (S level) x
                 +:+ members l'
             end) rest
      +:+ newline_indent indent level +:+ "}"
  end.

Definition dumps (v : json) : string := encode 4 0 v.

(** *** Decoding *)

Definition is_ws (c : ascii) : bool :=
  Char.at_code 32 c || Char.at_code 9 c || Char.at_code 10 c || Char.at_code 13 c.

Definition skip_ws (s : string) : string := Str.lstrip_of is_ws s.

Definition hex_value (c : ascii) : option N :=
  if Char.between 48 57 c then Some (Char.code c - 48)%N
  else if Char.between 97 102 c then Some (Char.code c - 87)%N
  else if Char.between 65 70 c then Some (Char.code c - 55)%N
  else None.

(** The four hexadecimal digits of a [\u] escape. A code point of 256
    or more, which [json.load] reads, has no character in this
    embedding: the outcome is [Beyond]. *)
Definition decode_u (a b c d : ascii) : result ascii :=
  match hex_value a, hex_value b, hex_value c, hex_value d with
  | Some x, Some y, Some z, Some w =>
      let n := (((x * 16 + y) * 16 + z) * 16 + w)%N in
      if (n <? 256)%N then Ok (ascii_of_N n)
      else Raise Beyond
  | _, _, _, _ => Raise (ValueError "Invalid \uXXXX escape")
  end.

(** The [BACKSLASH] table. *)
Definition unescape (esc : ascii) : option ascii :=
  if Ascii.eqb esc dq then Some dq
  else if Ascii.eqb esc backslash then Some backslash
  else if Ascii.eqb esc "/" then Some "/"%char
  else if Ascii.eqb esc "b" then Some (ascii_of_N 8)
  else if Ascii.eqb esc "f" then Some (ascii_of_N 12)
  else if Ascii.eqb esc "n" then Some (ascii_of_N 10)
  else if Ascii.eqb esc "r" then Some (ascii_of_N 13)
  else if Ascii.eqb esc "t" then Some (ascii_of_N 9)
  else None.

Definition prepend (c : ascii) (r : result (string * string)) : result (string * string) :=
  '(text, rest) ← r; Ok (String c text, rest).

(** [scanstring] in strict mode, after the opening quote: the text and
    what follows the closing quote. *)
Fixpoint scanstring (s : string) : result (string * string) :=
  match s with
  | EmptyString => Raise (ValueError "Unterminated string")
  | String c s' =>
      if Ascii.eqb c dq then Ok (EmptyString, s')
      else if Ascii.eqb c backslash then
        match s' with
        | EmptyString => Raise (ValueError "Unterminated string")
        | String esc s'' =>
            if Ascii.eqb esc "u" then
              match s'' with
              | String h1 (String h2 (String h3 (String h4 rest))) =>
                  match decode_u h1 h2 h3 h4 with
                  | Ok ch => prepend ch (scanstring rest)
                  | Raise e => Raise e
                  end
              | _ => Raise (ValueError "Invalid \uXXXX escape")
              end
            else
              match unescape esc with
              | Some ch => prepend ch (scanstring s'')
              | None => Raise (ValueError "Invalid \escape")
              end
        end
      else if Char.between 0 31 c then Raise (ValueError "Invalid control character")
      else prepend c (scanstring s')
  end.

(** [NUMBER_RE]: an integer part (an optional minus, then a zero or a
    nonzero digit and any digits), an optional fraction (a point and
    digits), an optional exponent (e or E, an optional sign, digits).
    The matcher is the one of the time patterns, with the empty pattern
    and the greedy star. *)
Inductive re : Type :=
| Eps
| Cls (p : ascii -> bool)
| Seq (r1 r2 : re)
| Alt (r1 r2 : re)
| Star (p : ascii -> bool).

Fixpoint star {A} (p : ascii -> bool) (s : string)
    (k : string -> string -> option A) : option A :=
  match s with
  | String c s' =>
      if p c then
        match star p s' (fun m rest => k (String c m) rest) with
        | Some a => Some a
        | None => k EmptyString s
        end
      else k EmptyString s
  | EmptyString => k EmptyString s
  end.

Fixpoint run {A} (r : re) (s : string) (k : string -> string -> option A) : option A :=
  match r with
  | Eps => k EmptyString s
  | Cls p =>
      match s with
      | String c s' => if p c then k (String c "") s' else None
      | EmptyString => None
      end
  | Seq r1 r2 => run r1 s (fun m1 s1 => run r2 s1 (fun m2 s2 => k (m1 +:+ m2) s2))
  | Alt r1 r2 =>
      match run r1 s k with
      | Some a => Some a
      | None => run r2 s k
      end
  | Star p => star p s k
  end.

Definition chr (c : ascii) : re := Cls (Ascii.eqb c).
Definition opt (r : re) : re := Alt r Eps.
Definition digit : re := Cls Char.isdecimal.
Definition digits : re := Seq digit (Star Char.isdecimal).

Definition re_integer : re :=
  Seq (opt (chr "-")) (Alt (chr "0") (Seq (Cls (Char.between 49 57)) (Star Char.isdecimal))).
Definition re_frac : re := opt (Seq (chr ".") digits).
Definition re_exp : re :=
  opt (Seq (Alt (chr "e") (chr "E")) (Seq (opt (Alt (chr "-") (chr "+"))) digits)).

(** [match_number]: the three groups and the rest of the text. *)
Definition match_number (s : string) : option (string * string * string * string) :=
  run re_integer s (fun integer s1 =>
  run re_frac s1 (fun frac s2 =>
  run re_exp s2 (fun exp rest => Some (integer, frac, exp, rest)))).

(** [int(text)] on the integer group; CPython refuses more than 4300
    digits. *)
Definition too_many_digits (n : nat) : pyexn :=
  ValueError ("Exceeds the limit (4300 digits) for integer string conversion: value has "
              +:+ Str.of_Z (Z.of_nat n)
              +:+ " digits; use sys.set_int_max_str_digits() to increase the limit").

Definition int_of_text (s : string) : result Z :=
  let '(negative, ds) :=
    match s with
    | String "-" ds => (true, ds)
    | _ => (false, s)
    end in
  if (4300 <? String.length ds)%nat then Raise (too_many_digits (String.length ds))
  else Ok (if negative then - Float.digits_value ds else Float.digits_value ds)%Z.

Definition number (integer frac exp : string) : result json :=
  if Str.is_empty frac && Str.is_empty exp then n ← int_of_text integer; Ok (JInt n)
  else x ← Float.of_str (integer +:+ frac +:+ exp); Ok (JFloat x).

(** [dict(pairs)]: a later value for a key replaces the earlier one, in
    the earlier one's place. *)
Fixpoint dict_set (k : string) (v : json) (d : list (string * json)) : list (string * json) :=
  match d with
  | [] => [(k, v)]
  | (k', v') :: d' => if String.eqb k k' then (k, v) :: d' else (k', v') :: dict_set k v d'
  end.

Definition dict (pairs : list (string * json)) : list (string * json) :=
  fold_left (fun d kv => dict_set (fst kv) (snd kv) d) pairs [].

Definition expecting (what : string) : pyexn := ValueError ("Expecting " +:+ what).

(** The scanner enters a list or a dictionary by a recursive call and
    raises RecursionError where the recursion limit of the interpreter
    is reached: 1000 by default, less the calls under way. The
    embedding reads the documents nested up to [max_depth] deep, which
    that limit leaves room for, and answers [Beyond] for a deeper
    one. *)
Definition max_depth : nat := 500.

(** [scan_once], [JSONArray] and [JSONObject]; [fuel] bounds the
    number of values, elements and members yet to be read, [room] the
    lists and dictionaries that can yet be entered. *)
Fixpoint scan (fuel room : nat) (s : string) : result (json * string) :=
  match fuel with
  | O => Raise (expecting "value")
  | S f =>
      match s with
      | EmptyString => Raise (expecting "value")
      | String c s' =>
          if Ascii.eqb c dq then
            '(text, rest) ← scanstring s'; Ok (JStr text, rest)
          else if Ascii.eqb c "{" then
            match room with
            | O => Raise Beyond
            | S r =>
                let s1 := skip_ws s' in
                match s1 with
                | String "}" rest => Ok (JObj [], rest)
                | _ =>
                    '(pairs, rest) ← members f r s1 []; Ok (JObj (dict pairs), rest)
                end
            end
          else if Ascii.eqb c "[" then
            match room with
            | O => Raise Beyond
            | S r =>
                let s1 := skip_ws s' in
                match s1 with
                | String "]" rest => Ok (JArr [], rest)
                | _ => '(items, rest) ← elements f r s1 []; Ok (JArr items, rest)
                end
            end
          else if Str.startswith s "null" then Ok (JNull, FloatRepr.drop 4 s)
          else if Str.startswith s "true" then Ok (JBool true, FloatRepr.drop 4 s)
          else if Str.startswith s "false" then Ok (JBool false, FloatRepr.drop 5 s)
          else
            match match_number s with
            | Some (integer, frac, exp, rest) =>
                v ← number integer frac exp; Ok (v, rest)
            | None =>
                if Str.startswith s "NaN" then Ok (JFloat S754_nan, FloatRepr.drop 3 s)
                else if Str.startswith s "Infinity" then
                  Ok (JFloat (S754_infinity false), FloatRepr.drop 8 s)
                else if Str.startswith s "-Infinity" then
                  Ok (JFloat (S754_infinity true), FloatRepr.drop 9 s)
                else Raise (expecting "value")
            end
      end
  end
with elements (fuel room : nat) (s : string) (acc : list json)
    : result (list json * string) :=
  match fuel with
  | O => Raise (expecting "value")
  | S f =>
      '(v, rest) ← scan f room s;
      match skip_ws rest with
      | String "," rest' => elements f room (skip_ws rest') (acc ++ [v])
      | String "]" rest' => Ok (acc ++ [v], rest')
      | _ => Raise (expecting "',' delimiter")
      end
  end
with members (fuel room : nat) (s : string) (acc : list (string * json))
    : result (list (string * json) * string) :=
  match fuel with
  | O => Raise (expecting "value")
  | S f =>
      match s with
      | String c s' =>
          if Ascii.eqb c dq then
            '(key, rest) ← scanstring s';
            match skip_ws rest with
            | String ":" rest1 =>
                '(v, rest2) ← scan f room (skip_ws rest1);
                match skip_ws rest2 with
                | String "," rest3 => members f room (skip_ws rest3) (acc ++ [(key, v)])
                | String "}" rest3 => Ok (acc ++ [(key, v)], rest3)
                | _ => Raise (expecting "',' delimiter")
                end
            | _ => Raise (expecting "':' delimiter")
            end
          else Raise (expecting "property name enclosed in double quotes")
      | EmptyString => Raise (expecting "property name enclosed in double quotes")
      end
  end.

(** [json.loads(text)]: one value, whitespace allowed around it. *)
Definition loads (text : string) : result json :=
  '(v, rest) ← scan (S (String.length text)) max_depth (skip_ws text);
  if Str.is_empty (skip_ws rest) then Ok v else Raise (ValueError "Extra data").

End Json.

(** ** Store persistence (lab2.py, lines 122-135) *)

(** A record as the dictionary of lines 75-82, and the store as the
    list [json.dump] receives. *)
Definition flight_json (f : flight) : json :=
  JObj [("flight_id", JStr (flight_id f));
        ("origin", JStr (origin f));
        ("destination", JStr (destination f));
        ("departure_datetime", JStr (departure_datetime f));
        ("arrival_datetime", JStr (arrival_datetime f));
        ("price", JFloat (price f))].

Definition db_json (flights : list flight) : json := JArr (map flight_json flights).

(** The files the program writes and reads back. A path leads to a
    file ([disk_file]): two spellings of a path, as [errors.txt] and
    [./errors.txt], or two links to a file, lead to the same one.
    [disk_texts] is the text of each file that can be read,
    [disk_refuses] the paths [open(path, "w")] refuses. A write that is
    not refused replaces the text of the file the path leads to. *)
Record disk : Type := mk_disk {
  disk_texts : gmap string string;
  disk_refuses : string -> bool;
  disk_file : string -> string
}.

Definition write_text (path text : string) (d : disk) : result disk :=
  if disk_refuses d path then Raise OSError
  else Ok (mk_disk (<[disk_file d path := text]> (disk_texts d)) (disk_refuses d) (disk_file d)).

Definition read_text (path : string) (d : disk) : result string :=
  match disk_texts d !! disk_file d path with
  | Some text => Ok text
  | None => Raise OSError
  end.

(** [save_db_json(flights, path)]. *)
Definition save_db_json (flights : list flight) (path : string) (d : disk) : result disk :=
  write_text path (Json.dumps (db_json flights)) d.

(** [save_errors_txt(error_lines, path)]: every entry and a line feed. *)
Fixpoint errors_text (error_lines : list string) : string :=
  match error_lines with
  | [] => ""
  | line :: rest => line +:+ Json.newline +:+ errors_text rest
  end.

Definition save_errors_txt (error_lines : list string) (path : string) (d : disk)
  : result disk :=
  write_text path (errors_text error_lines) d.

(** [load_db_json(path)]. *)
Definition load_db_json (path : string) (d : disk) : result json :=
  text ← read_text path d; Json.loads text.

(** ** The query engine (lab2.py, lines 146-175 and 189-191) *)

(** [float(v)]. *)
Definition json_float (v : json) : result spec_float :=
  match v with
  | JFloat x => Ok x
  | JInt n => Float.of_int n
  | JBool b => Ok (if b then Float.one else Float.zero)
  | JStr s => Float.of_str s
  | JNull | JArr _ | JObj _ => Raise TypeError
  end.

(** [parse_datetime(v)]: [strptime] wants a [str]. *)
Definition json_datetime (v : json) : result datetime :=
  match v with
  | JStr s => parse_datetime s
  | _ => Raise TypeError
  end.

(** [field != v] for a record field, which is a [str]. *)
Definition str_ne (field : string) (v : json) : bool :=
  match v with
  | JStr s => negb (String.eqb field s)
  | _ => true
  end.

(** Lines 154-159: the [try] block on the price returns False. *)
Definition price_rejects (f : flight) (v : json) : bool :=
  match Ok (price f), json_float v with
  | Ok a, Ok b => SFltb b a
  | _, _ => true
  end.

(** Lines 161-166. *)
Definition departure_rejects (f : flight) (v : json) : bool :=
  match parse_datetime (departure_datetime f), json_datetime v with
  | Ok a, Ok b => Datetime.ltb a b
  | _, _ => true
  end.

(** Lines 168-173. *)
Definition arrival_rejects (f : flight) (v : json) : bool :=
  match parse_datetime (arrival_datetime f), json_datetime v with
  | Ok a, Ok b => Datetime.gtb a b
  | _, _ => true
  end.

(** [if key in q and rejects(q[key]): return False]. *)
Definition key_rejects (q : gmap string json) (key : string) (rejects : json -> bool) : bool :=
  match q !! key with
  | Some v => rejects v
  | None => false
  end.

Definition flight_matches_query (f : flight) (q : gmap string json) : bool :=
  if key_rejects q "flight_id" (str_ne (flight_id f)) then false
  else if key_rejects q "origin" (str_ne (origin f)) then false
  else if key_rejects q "destination" (str_ne (destination f)) then false
  else if key_rejects q "price" (price_rejects f) then false
  else if key_rejects q "departure_datetime" (departure_rejects f) then false
  else if key_rejects q "arrival_datetime" (arrival_rejects f) then false
  else true.

(** Line 190: the matches of one query, in store order. *)
Definition matches (db : list flight) (q : gmap string json) : list flight :=
  filter (fun f => flight_matches_query f q = true) db.

Definition run_queries (db : list flight) (queries : list (gmap string json))
  : list (gmap string json * list flight) :=
  map (fun q => (q, matches db q)) queries.

(** ** Timestamps written out *)

(** A number written with two and with four digits. *)
Definition pad2 (n : Z) : string :=
  String (FloatRepr.digit_char (n / 10)) (String (FloatRepr.digit_char (n mod 10)) "").

Definition pad4 (n : Z) : string :=
  String (FloatRepr.digit_char (n / 1000))
 (String (FloatRepr.digit_char (n / 100 mod 10))
 (String (FloatRepr.digit_char (n / 10 mod 10))
 (String (FloatRepr.digit_char (n mod 10)) ""))).

(** [YYYY-MM-DD HH:MM]. *)
Definition stamp (y m d h mi : Z) : string :=
  pad4 y +:+ "-" +:+ pad2 m +:+ "-" +:+ pad2 d +:+ " " +:+ pad2 h +:+ ":" +:+ pad2 mi.

(** ** The query run on loaded values (lab2.py, lines 138-197) *)

(** What ends a call early: an exception of the embedding, a
    [KeyError], or [sys.exit]. [Unmodelled] ends nothing in the
    program: it stands for a run that has left the embedding (the
    outcome [Beyond]), of which the embedding says no more. *)
Inductive failure : Type :=
| Uncaught (e : pyexn)
| KeyError (key : string)
| SystemExit (code : Z)
| Unmodelled.

Definition ended (e : pyexn) : failure :=
  match e with
  | Beyond => Unmodelled
  | _ => Uncaught e
  end.

Inductive run (A : Type) : Type :=
| Done (a : A)
| Stop (f : failure).
Arguments Done {A} a.
Arguments Stop {A} f.

#[global] Instance run_bind : MBind run := fun A B k r =>
  match r with
  | Done a => k a
  | Stop f => Stop f
  end.

Definition lift {A} (r : result A) : run A :=
  match r with
  | Ok a => Done a
  | Raise e => Stop (ended e)
  end.

(** [load_queries(path)]: one object stands for a list of one. *)
Definition load_queries (path : string) (d : disk) : result json :=
  text ← read_text path d;
  data ← Json.loads text;
  Ok (match data with
      | JObj _ => JArr [data]
      | _ => data
      end).

(** The store and the queries are whatever [json.load] has read; the
    operations below are Python's on such values. *)
Module Py.

(** A number, [bool] being a kind of [int]. *)
Definition number (v : json) : option (Z + spec_float) :=
  match v with
  | JBool b => Some (inl (if b then 1 else 0)%Z)
  | JInt n => Some (inl n)
  | JFloat x => Some (inr x)
  | _ => None
  end.

(** [x == n] for a float and an integer: the values are compared
    exactly. *)
Definition float_eq_int (x : spec_float) (n : Z) : bool :=
  match x with
  | S754_zero _ => (n =? 0)%Z
  | S754_finite s m e =>
      let v := (if s then Z.neg m else Z.pos m) in
      if (0 <=? e)%Z then (n =? v * 2 ^ e)%Z else (n * 2 ^ (- e) =? v)%Z
  | S754_infinity _ | S754_nan => false
  end.

Definition number_eq (a b : Z + spec_float) : bool :=
  match a, b with
  | inl m, inl n => (m =? n)%Z
  | inl n, inr x | inr x, inl n => float_eq_int x n
  | inr x, inr y => SFeqb x y
  end.

Definition is_nan (v : json) : bool :=
  match v with JFloat S754_nan => true | _ => false end.

Fixpoint assoc (key : string) (members : list (string * json)) : option json :=
  match members with
  | [] => None
  | (k, v) :: rest => if String.eqb key k then Some v else assoc key rest
  end.

(** [a == b]. Inside a list or a dictionary ([nested]) the comparison
    of two items starts with their identity, and every NaN that
    [json.load] returns is one object. *)
Fixpoint eq (nested : bool) (a b : json) : bool :=
  match a, b with
  | JNull, JNull => true
  | JStr s, JStr t => String.eqb s t
  | JArr l1, JArr l2 =>
      (fix items (l1 l2 : list json) : bool :=
         match l1, l2 with
         | [], [] => true
         | x :: l1', y :: l2' => eq true x y && items l1' l2'
         | _, _ => false
         end) l1 l2
  | JObj m1, JObj m2 =>
      (length m1 =? length m2)%nat
      && (fix members (m : list (string * json)) : bool :=
            match m with
            | [] => true
            | (k, v) :: m' =>
                match assoc k m2 with
                | Some w => eq true v w && members m'
                | None => false
                end
            end) m1
  | _, _ =>
      match number a, number b with
      | Some x, Some y => (nested && is_nan a && is_nan b) || number_eq x y
      | _, _ => false
      end
  end.

Definition ne (a b : json) : bool := negb (eq false a b).

(** [key in v]. *)
Definition contains (v : json) (key : string) : run bool :=
  match v with
  | JObj members => Done (match assoc key members with Some _ => true | None => false end)
  | JArr items => Done (existsb (fun item => eq true item (JStr key)) items)
  | JStr s => Done (Str.contains s key)
  | JNull | JBool _ | JInt _ | JFloat _ => Stop (Uncaught TypeError)
  end.

(** [v[key]] for a [str] key. *)
Definition subscript (v : json) (key : string) : run json :=
  match v with
  | JObj members =>
      match assoc key members with
      | Some x => Done x
      | None => Stop (KeyError key)
      end
  | _ => Stop (Uncaught TypeError)
  end.

(** [for x in v]. *)
Fixpoint characters (s : string) : list json :=
  match s with
  | EmptyString => []
  | String c s' => JStr (String c "") :: characters s'
  end.

Definition iterate (v : json) : run (list json) :=
  match v with
  | JArr items => Done items
  | JObj members => Done (map (fun kv => JStr (fst kv)) members)
  | JStr s => Done (characters s)
  | JNull | JBool _ | JInt _ | JFloat _ => Stop (Uncaught TypeError)
  end.

End Py.

Module Dyn.

(** Lines 147-152: the test [key in q and flight[key] != q[key]]. *)
Definition text_rejects (flight q : json) (key : string) : run bool :=
  match Py.contains q key with
  | Stop f => Stop f
  | Done false => Done false
  | Done true =>
      a ← Py.subscript flight key;
      b ← Py.subscript q key;
      Done (Py.ne a b)
  end.

(** Lines 155-159, 162-166 and 169-173: the body of a [try] whose
    [except] returns False. *)
Definition guarded {A} (convert : json -> result A) (exceeds : A -> A -> bool)
    (flight q : json) (key : string) : bool :=
  match Py.subscript flight key, Py.subscript q key with
  | Done a, Done b =>
      match convert a, convert b with
      | Ok x, Ok y => exceeds x y
      | _, _ => true
      end
  | _, _ => true
  end.

Definition bound_rejects {A} (convert : json -> result A) (exceeds : A -> A -> bool)
    (flight q : json) (key : string) : run bool :=
  match Py.contains q key with
  | Stop f => Stop f
  | Done false => Done false
  | Done true => Done (guarded convert exceeds flight q key)
  end.

(** [if rejects: return False], then the rest of the body. *)
Definition unless (rejects : run bool) (rest : run bool) : run bool :=
  match rejects with
  | Stop f => Stop f
  | Done true => Done false
  | Done false => rest
  end.

(** [flight_matches_query(flight, q)] on loaded values. *)
Definition flight_matches_query (flight q : json) : run bool :=
  unless (text_rejects flight q "flight_id")
 (unless (text_rejects flight q "origin")
 (unless (text_rejects flight q "destination")
 (unless (bound_rejects json_float (fun x y => SFltb y x) flight q "price")
 (unless (bound_rejects json_datetime Datetime.ltb flight q "departure_datetime")
 (unless (bound_rejects json_datetime Datetime.gtb flight q "arrival_datetime")
 (Done true)))))).

(** Line 190: [[f for f in db if flight_matches_query(f, q)]]. *)
Fixpoint select (items : list json) (q : json) : run (list json) :=
  match items with
  | [] => Done []
  | f :: rest =>
      m ← flight_matches_query f q;
      ms ← select rest q;
      Done (if m : bool then f :: ms else ms)
  end.

Definition matches (db q : json) : run (list json) :=
  items ← Py.iterate db; select items q.

(** Lines 189-191: one dictionary per query. *)
Definition response (q : json) (ms : list json) : json :=
  JObj [("query", q); ("matches", JArr ms)].

Fixpoint answer (db : json) (queries : list json) : run (list json) :=
  match queries with
  | [] => Done []
  | q :: rest =>
      ms ← matches db q;
      rs ← answer db rest;
      Done (response q ms :: rs)
  end.

Definition run_queries (db queries : json) : run json :=
  qs ← Py.iterate queries;
  rs ← answer db qs;
  Done (JArr rs).

End Dyn.

(** [build_response_filename()]: [now] is what [datetime.now()]
    returns, a year of four digits. *)
Definition strftime_stamp (now : datetime) : string :=
  pad4 (dt_year now) +:+ pad2 (dt_month now) +:+ pad2 (dt_day now) +:+ "_"
  +:+ pad2 (dt_hour now) +:+ pad2 (dt_minute now).

Definition build_response_filename (now : datetime)
    (student_id first_name last_name : string) : string :=
  "response_" +:+ student_id +:+ first_name +:+ last_name +:+ "_"
  +:+ strftime_stamp now +:+ ".json".

Definition default_response_filename (now : datetime) : string :=
  build_response_filename now "241ADB088" "Challa" "Navaneeth_Reddy".

(** [run_queries_and_save(db, query_path, out_path)]. *)
Definition run_queries_and_save (db : json) (query_path : string) (out_path : option string)
    (now : datetime) (d : disk) : run disk :=
  queries ← lift (load_queries query_path d);
  results ← Dyn.run_queries db queries;
  let out_path :=
    match out_path with
    | Some p => p
    | None => default_response_filename now
    end in
  lift (write_text out_path (Json.dumps results) d).

(** ** The command (lab2.py, lines 200-239) *)

Definition DEFAULT_DB_JSON : string := "db.json".
Definition DEFAULT_ERRORS_TXT : string := "errors.txt".

(** What [parse_args] returns for the five options of
    [build_arg_parser]: the text given, or [None]. *)
Record namespace : Type := mk_namespace {
  ns_input : option string;
  ns_directory : option string;
  ns_output : option string;
  ns_json_db : option string;
  ns_query : option string
}.

(** What the command acts on: the files and the lines printed. *)
Record world : Type := mk_world {
  w_disk : disk;
  w_stdout : list string
}.

Definition print (line : string) (w : world) : world :=
  mk_world (w_disk w) (w_stdout w ++ [line]).

Definition with_disk (d : disk) (w : world) : world := mk_world d (w_stdout w).

(** Lines 231-235, [db] and [used_csv] being set. *)
Definition queries_step (args : namespace) (db : json) (used_csv : bool) (now : datetime)
    (w : world) : world * option failure :=
  match given (ns_query args) with
  | Some query_path =>
      match run_queries_and_save db query_path None now (w_disk w) with
      | Done d => (with_disk d w, None)
      | Stop f => (w, Some f)
      end
  | None =>
      (if used_csv then w else print "Loaded JSON DB; no queries executed." w, None)
  end.

(** [main()] after [parse_args]: the world it leaves, and the failure
    that ended it, if one did. *)
Definition main (args : namespace) (fs : filesystem) (now : datetime) (w : world)
  : world * option failure :=
  match given (ns_json_db args) with
  | Some path =>
      match load_db_json path (w_disk w) with
      | Ok db => queries_step args db false now w
      | Raise e => (w, Some (ended e))
      end
  | None =>
      match given (ns_input args), given (ns_directory args) with
      | None, None => (print "ERROR: provide -i, -d, or -j" w, Some (SystemExit 1))
      | _, _ =>
          let st := parse_input_sources fs (ns_input args) (ns_directory args) in
          let out_json :=
            match given (ns_output args) with
            | Some path => path
            | None => DEFAULT_DB_JSON
            end in
          match save_db_json (valid_flights st) out_json (w_disk w) with
          | Raise e => (w, Some (ended e))
          | Ok d1 =>
              match save_errors_txt (error_lines st) DEFAULT_ERRORS_TXT d1 with
              | Raise e => (with_disk d1 w, Some (ended e))
              | Ok d2 =>
                  queries_step args (db_json (valid_flights st)) true now (with_disk d2 w)
              end
          end
      end
  end.

(** Lines 238-239: the module run under the name [name]. *)
Definition module_body (name : string) (args : namespace) (fs : filesystem) (now : datetime)
    (w : world) : world * option failure :=
  if String.eqb name "_main_" then main args fs now w else (w, None).

(** * Examples *)

Example strip_example : Str.strip ("  AB12 " +:+ String (ascii_of_N 9) (String (ascii_of_N 10) "")) = "AB12".
Proof. reflexivity. Qed.
Example split_example : Str.split "," "a,,b," = ["a"; ""; "b"; ""].
Proof. reflexivity. Qed.
Example join_example : Str.join "; " ["x"; "y"; "z"] = "x; y; z".
Proof. reflexivity. Qed.
Example of_Z_example : Str.of_Z 12 = "12" /\ Str.of_Z 0 = "0".
Proof. split; reflexivity. Qed.
Example repr_example : Repr.repr "abc" = "'abc'" /\ Repr.repr "it's" = String Repr.double_quote ("it's" +:+ String Repr.double_quote "").
Proof. split; reflexivity. Qed.
Example match_format_example :
  Re.match_format "2024-1-05  8:07xyz"
  = Some ({| Re.g_Y := "2024"; Re.g_m := "1"; Re.g_d := "05"; Re.g_H := "8"; Re.g_M := "07" |}, "xyz").
Proof. reflexivity. Qed.
Example parse_datetime_plain :
  parse_datetime "2024-01-01 08:00" = Ok (mk_datetime 2024 1 1 8 0).
Proof. reflexivity. Qed.
Example parse_datetime_short_fields :
  parse_datetime "2024-1-1 8:5" = Ok (mk_datetime 2024 1 1 8 5).
Proof. reflexivity. Qed.
Example parse_datetime_bad_day :
  is_ok (parse_datetime "2023-02-29 08:00") = false
  /\ is_ok (parse_datetime "2024-02-29 08:00") = true.
Proof. split; reflexivity. Qed.
Example parse_datetime_trailing :
  parse_datetime "2024-01-01 08:000" = Raise (ValueError "unconverted data remains: 0").
Proof. reflexivity. Qed.
Example parse_datetime_hour_24 : is_ok (parse_datetime "2024-01-01 24:00") = false.
Proof. reflexivity. Qed.
Example float_of_100 : Float.of_str "100" = Ok (S754_finite false 7036874417766400 (-46)).
Proof. vm_compute. reflexivity. Qed.
Example float_of_tenth : Float.of_str "0.1" = Ok (S754_finite false 7205759403792794 (-56)).
Proof. vm_compute. reflexivity. Qed.
Example float_of_exp : Float.of_str " 1_0.5e+1 " = Float.of_str "105".
Proof. vm_compute. reflexivity. Qed.
Example float_of_nan : Float.of_str "nan" = Ok S754_nan /\ Float.of_str "-Infinity" = Ok (S754_infinity true).
Proof. split; vm_compute; reflexivity. Qed.
Example float_of_huge : Float.of_str "1e400" = Ok (S754_infinity false) /\ Float.of_str "1e-400" = Ok (S754_zero false).
Proof. split; vm_compute; reflexivity. Qed.
Example float_of_junk :
  Float.of_str "abc" = Raise (ValueError "could not convert string to float: 'abc'")
  /\ is_ok (Float.of_str "1e") = false /\ is_ok (Float.of_str ".") = false
  /\ is_ok (Float.of_str "1__0") = false /\ is_ok (Float.of_str "0x10") = false
  /\ is_ok (Float.of_str "") = false.
Proof. repeat split; vm_compute; reflexivity. Qed.
Example float_of_max :
  Float.of_str "1.7976931348623157e308" = Ok (S754_finite false 9007199254740991 971)
  /\ Float.of_str "5e-324" = Ok (S754_finite false 1 (-1074))
  /\ Float.of_str "2.2250738585072014e-308" = Ok (S754_finite false 4503599627370496 (-1074)).
Proof. repeat split; vm_compute; reflexivity. Qed.
Example validate_accepts :
  validate_flight_row "AB12,JFK,LAX,2024-01-01 08:00,2024-01-01 10:00,100" 1
  = (Some (mk_flight "AB12" "JFK" "LAX" "2024-01-01 08:00" "2024-01-01 10:00"
             (S754_finite false 7036874417766400 (-46))), None).
Proof. vm_compute. reflexivity. Qed.
Example validate_rejects_order :
  validate_flight_row "AB12,JFK,LAX,2024-01-01 10:00,2024-01-01 08:00,100" 1
  = (None, Some "arrival must be after departure").
Proof. vm_compute. reflexivity. Qed.
Example validate_collects :
  validate_flight_row "A,jfk,LAX,2024-13-01 10:00,2024-01-01 08:00,-5" 7
  = (None, Some "invalid flight_id; invalid origin; invalid departure_datetime; price must be positive").
Proof. vm_compute. reflexivity. Qed.
Example validate_short :
  validate_flight_row "AB12,JFK,LAX,2024-01-01 08:00,2024-01-01 10:00" 1
  = (None, Some "missing required fields").
Proof. vm_compute. reflexivity. Qed.

(** [repr] of a [float]. *)
Example float_repr_values :
  FloatRepr.repr (S754_finite false 7036874417766400 (-46)) = "100.0"
  /\ FloatRepr.repr (S754_finite false 7205759403792794 (-56)) = "0.1"
  /\ FloatRepr.repr (S754_finite true 6755399441055744 (-51)) = "-3.0"
  /\ FloatRepr.repr (S754_zero true) = "-0.0"
  /\ FloatRepr.repr S754_nan = "nan".
Proof. repeat split; vm_compute; reflexivity. Qed.

(** [repr(float(text))]. *)
Definition repr_of_text (text : string) : result string :=
  match Float.of_str text with
  | Ok x => Ok (FloatRepr.repr x)
  | Raise e => Raise e
  end.

Example float_repr_forms :
  repr_of_text "1e22" = Ok "1e+22"
  /\ repr_of_text "1e16" = Ok "1e+16"
  /\ repr_of_text "1e15" = Ok "1000000000000000.0"
  /\ repr_of_text "0.0001" = Ok "0.0001"
  /\ repr_of_text "0.00001" = Ok "1e-05"
  /\ repr_of_text "2.50" = Ok "2.5"
  /\ repr_of_text "123456789.125" = Ok "123456789.125"
  /\ repr_of_text "0.33333333333333331" = Ok "0.3333333333333333".
Proof. repeat split; vm_compute; reflexivity. Qed.

(** JSON texts are written below with an apostrophe for every double
    quote. *)
Fixpoint quoted (s : string) : string :=
  match s with
  | EmptyString => EmptyString
  | String c s' => String (if Ascii.eqb c "'" then Json.dq else c) (quoted s')
  end.

Definition example_flight : flight :=
  mk_flight "AB12" "JFK" "LAX" "2024-01-01 08:00" "2024-01-01 10:00"
    (S754_finite false 7036874417766400 (-46)).

Example dumps_store :
  Json.dumps (db_json [example_flight])
  = quoted (Str.join Json.newline
      ["[";
       "    {";
       "        'flight_id': 'AB12',";
       "        'origin': 'JFK',";
       "        'destination': 'LAX',";
       "        'departure_datetime': '2024-01-01 08:00',";
       "        'arrival_datetime': '2024-01-01 10:00',";
       "        'price': 100.0";
       "    }";
       "]"]).
Proof. vm_compute. reflexivity. Qed.

Example dumps_values :
  Json.dumps (JArr []) = "[]"
  /\ Json.dumps (JStr (String (ascii_of_N 233) (String Json.dq (String (ascii_of_N 10) ""))))
     = quoted "'\u00e9\'\n'"
  /\ Json.dumps (JFloat S754_nan) = "NaN"
  /\ Json.dumps (JFloat (S754_infinity true)) = "-Infinity"
  /\ Json.dumps (JInt (-12)) = "-12".
Proof. repeat split; vm_compute; reflexivity. Qed.

Example loads_values :
  Json.loads (quoted "[{'price': 150, 'origin': 'JFK'}, 1.5e2, null, true, 'aA', -0]")
  = Ok (JArr [JObj [("price", JInt 150); ("origin", JStr "JFK")];
              JFloat (S754_finite false 5277655813324800 (-45));
              JNull; JBool true; JStr "aA"; JInt 0])
  /\ Json.loads (quoted "{'a': 1, 'b': 2, 'a': 3}") = Ok (JObj [("a", JInt 3); ("b", JInt 2)])
  /\ Json.loads "[NaN, -Infinity]" = Ok (JArr [JFloat S754_nan; JFloat (S754_infinity true)]).
Proof. repeat split; vm_compute; reflexivity. Qed.

Example loads_rejects :
  is_ok (Json.loads "[1,]") = false
  /\ Json.loads (quoted "{'a': 1} x") = Raise (ValueError "Extra data")
  /\ Json.loads "01" = Raise (ValueError "Extra data")
  /\ is_ok (Json.loads "{a: 1}") = false
  /\ is_ok (Json.loads "") = false.
Proof. repeat split; vm_compute; reflexivity. Qed.

(** Outside the embedding: a [\u] escape above U+00FF, which
    [json.load] reads as the character, and a nesting of 501 lists. *)
Fixpoint nested (n : nat) (inner : string) : string :=
  match n with
  | O => inner
  | S n' => "[" +:+ nested n' inner +:+ "]"
  end.

Example loads_beyond :
  Json.loads (quoted "{'origin': '\u4e2d'}") = Raise Beyond
  /\ Json.loads (quoted "{'origin': '\u00e9'}")
     = Ok (JObj [("origin", JStr (String (ascii_of_N 233) ""))])
  /\ Json.loads (nested 501 "") = Raise Beyond
  /\ is_ok (Json.loads (nested 500 "")) = true
  /\ Json.loads (nested 501 "?") = Raise Beyond
  /\ Json.loads (nested 500 "?") = Raise (Json.expecting "value").
Proof. repeat split; vm_compute; reflexivity. Qed.

Example load_missing_file : load_db_json "db.json" (mk_disk ∅ (fun _ => false) (fun path => path)) = Raise OSError.
Proof. reflexivity. Qed.

(** Queries on a record of price 100: at most 150 matches, at most 50
    does not; a price that is no number matches nothing. *)
Example query_price :
  flight_matches_query example_flight {["price" := JInt 150]} = true
  /\ flight_matches_query example_flight {["price" := JInt 50]} = false
  /\ flight_matches_query example_flight {["price" := JStr "cheap"]} = false
  /\ flight_matches_query example_flight ∅ = true.
Proof. repeat split; vm_compute; reflexivity. Qed.

Example query_bounds :
  flight_matches_query example_flight
    (<["departure_datetime" := JStr "2024-01-01 08:00"]> {["arrival_datetime" := JStr "2024-01-01 10:00"]})
  = true
  /\ flight_matches_query example_flight {["departure_datetime" := JStr "2024-01-01 08:01"]} = false
  /\ flight_matches_query example_flight {["arrival_datetime" := JStr "2024-01-01 09:59"]} = false
  /\ flight_matches_query example_flight {["origin" := JStr "jfk"]} = false.
Proof. repeat split; vm_compute; reflexivity. Qed.

(** A run of the command on one source and the query file [{}]: the
    files it leaves, and the response. *)
Definition example_run : world * option failure :=
  main (mk_namespace (Some "a.csv") None None None (Some "q.json"))
    {| fs_open := fun _ => Opened ["AB12,JFK,LAX,2024-01-01 08:00,2024-01-01 10:00,100"] false;
       fs_glob := fun _ => [] |}
    (mk_datetime 2024 1 1 8 0)
    (mk_world (mk_disk {["q.json" := "{}"]} (fun _ => false) (fun path => path)) []).

Example main_response :
  snd example_run = None
  /\ w_stdout (fst example_run) = []
  /\ disk_texts (w_disk (fst example_run))
       !! "response_241ADB088ChallaNavaneeth_Reddy_20240101_0800.json"
     = Some (quoted (Str.join Json.newline
         ["[";
          "    {";
          "        'query': {},";
          "        'matches': [";
          "            {";
          "                'flight_id': 'AB12',";
          "                'origin': 'JFK',";
          "                'destination': 'LAX',";
          "                'departure_datetime': '2024-01-01 08:00',";
          "                'arrival_datetime': '2024-01-01 10:00',";
          "                'price': 100.0";
          "            }";
          "        ]";
          "    }";
          "]"]))
  /\ disk_texts (w_disk (fst example_run)) !! "errors.txt" = Some "".
Proof. repeat split; vm_compute; reflexivity. Qed.

(** Two spellings of one path: with [-o ./errors.txt] the error report
    is written over the database, and the path reads the report, which
    is no JSON document. *)
Definition without_dot (path : string) : string :=
  if Str.startswith path "./" then FloatRepr.drop 2 path else path.

Definition overwriting_run : world * option failure :=
  main (mk_namespace (Some "a.csv") None (Some "./errors.txt") None None)
    {| fs_open := fun _ => Opened ["AB12,JFK,LAX,2024-01-01 08:00,2024-01-01 10:00,100";
                                   "# note"] false;
       fs_glob := fun _ => [] |}
    (mk_datetime 2024 1 1 8 0)
    (mk_world (mk_disk ∅ (fun _ => false) without_dot) []).

Example report_replaces_database :
  snd overwriting_run = None
  /\ read_text "./errors.txt" (w_disk (fst overwriting_run))
     = Ok ("Line 2: # note -> comment" +:+ Json.newline)
  /\ read_text "errors.txt" (w_disk (fst overwriting_run))
     = Ok ("Line 2: # note -> comment" +:+ Json.newline)
  /\ load_db_json "./errors.txt" (w_disk (fst overwriting_run))
     = Raise (Json.expecting "value").
Proof. repeat split; vm_compute; reflexivity. Qed.

(** Python's [==] and [in] on loaded values. *)
Example py_eq_values :
  Py.eq false (JInt 1) (JFloat Float.one) = true
  /\ Py.eq false (JBool true) (JInt 1) = true
  /\ Py.eq false (JFloat S754_nan) (JFloat S754_nan) = false
  /\ Py.eq false (JArr [JFloat S754_nan]) (JArr [JFloat S754_nan]) = true
  /\ Py.eq false (JStr "1") (JInt 1) = false
  /\ Py.eq false (JObj [("a", JInt 1); ("b", JNull)]) (JObj [("b", JNull); ("a", JInt 1)]) = true
  /\ Py.contains (JArr [JStr "flight_id"]) "flight_id" = Done true
  /\ Py.contains (JStr "abc") "b" = Done true
  /\ Py.contains (JInt 1) "b" = Stop (Uncaught TypeError)
  /\ Py.subscript (JObj []) "k" = Stop (KeyError "k")
  /\ Py.subscript (JArr [JInt 1]) "k" = Stop (Uncaught TypeError).
Proof. repeat split; vm_compute; reflexivity. Qed.

(** * Properties *)

(** ** Trimming and splitting *)

Module StrFacts.
Import Str.

Definition on_head (f : string -> string) (l : list string) : list string :=
  match l with
  | [] => []
  | x :: l' => f x :: l'
  end.

Fixpoint on_last (f : string -> string) (l : list string) : list string :=
  match l with
  | [] => []
  | [x] => [f x]
  | x :: l' => x :: on_last f l'
  end.

Section Strip.
Variable p : ascii -> bool.

Lemma is_empty_true s : is_empty s = true -> s = "".
Proof. destruct s; simpl; congruence. Qed.

Lemma rstrip_of_empty s : is_empty (rstrip_of p s) = all p s.
Proof.
  induction s as [|c s IH]; simpl; [reflexivity|].
  rewrite <- IH.
  destruct (is_empty (rstrip_of p s)); destruct (p c); reflexivity.
Qed.

Lemma lstrip_of_all s : all p s = true -> lstrip_of p s = "".
Proof.
  induction s as [|c s IH]; simpl; [reflexivity|].
  destruct (p c); simpl; [exact IH | discriminate].
Qed.

Lemma lstrip_of_idem s : lstrip_of p (lstrip_of p s) = lstrip_of p s.
Proof.
  induction s as [|c s IH]; simpl; [reflexivity|].
  destruct (p c) eqn:E; [exact IH | simpl; rewrite E; reflexivity].
Qed.

Lemma rstrip_of_idem s : rstrip_of p (rstrip_of p s) = rstrip_of p s.
Proof.
  induction s as [|c s IH]; simpl; [reflexivity|].
  destruct (is_empty (rstrip_of p s) && p c) eqn:E; simpl; [reflexivity|].
  rewrite IH, E. reflexivity.
Qed.

Lemma strip_commute s : lstrip_of p (rstrip_of p s) = rstrip_of p (lstrip_of p s).
Proof.
  induction s as [|c s IH]; simpl; [reflexivity|].
  destruct (p c) eqn:E.
  - rewrite andb_true_r.
    destruct (is_empty (rstrip_of p s)) eqn:R; simpl.
    + rewrite rstrip_of_empty in R. rewrite (lstrip_of_all _ R). reflexivity.
    + rewrite E. exact IH.
  - rewrite andb_false_r. simpl. rewrite E, andb_false_r. reflexivity.
Qed.

Lemma strip_of_lstrip s : strip_of p (lstrip_of p s) = strip_of p s.
Proof. unfold strip_of. rewrite lstrip_of_idem. reflexivity. Qed.

Lemma strip_of_rstrip s : strip_of p (rstrip_of p s) = strip_of p s.
Proof. unfold strip_of. rewrite strip_commute, rstrip_of_idem. reflexivity. Qed.

Lemma strip_of_idem s : strip_of p (strip_of p s) = strip_of p s.
Proof. unfold strip_of at 2. rewrite strip_of_rstrip, strip_of_lstrip. reflexivity. Qed.

Variable sep : ascii.
Hypothesis sep_kept : p sep = false.

Lemma eqb_sep_false c : p c = true -> Ascii.eqb c sep = false.
Proof.
  intros Hc. destruct (Ascii.eqb c sep) eqn:E; [|reflexivity].
  apply Ascii.eqb_eq in E. subst c. congruence.
Qed.

Lemma split_not_nil s : split sep s <> [].
Proof.
  destruct s as [|c s]; simpl; [discriminate|].
  destruct (Ascii.eqb c sep); [discriminate|].
  destruct (split sep s); discriminate.
Qed.

Lemma split_all s : all p s = true -> split sep s = [s].
Proof.
  induction s as [|c s IH]; simpl; [reflexivity|].
  intros H. apply andb_true_iff in H as [Hc Hs].
  rewrite (eqb_sep_false _ Hc), (IH Hs). reflexivity.
Qed.

Lemma split_single s f : split sep s = [f] -> f = s.
Proof.
  revert f. induction s as [|c s IH]; simpl; intros f H.
  - congruence.
  - destruct (Ascii.eqb c sep).
    + injection H as _ H. exfalso. exact (split_not_nil _ H).
    + destruct (split sep s) as [|g gs] eqn:S; [exfalso; exact (split_not_nil _ S)|].
      injection H as <- ->. rewrite (IH g eq_refl). reflexivity.
Qed.

Lemma split_lstrip s : split sep (lstrip_of p s) = on_head (lstrip_of p) (split sep s).
Proof.
  induction s as [|c s IH]; simpl; [reflexivity|].
  destruct (p c) eqn:E.
  - rewrite (eqb_sep_false _ E), IH.
    destruct (split sep s) as [|f fs] eqn:S; simpl.
    + exfalso. exact (split_not_nil _ S).
    + rewrite E. reflexivity.
  - simpl. destruct (Ascii.eqb c sep); simpl; [reflexivity|].
    destruct (split sep s) as [|f fs] eqn:S; simpl; rewrite E; reflexivity.
Qed.

Lemma split_rstrip s : split sep (rstrip_of p s) = on_last (rstrip_of p) (split sep s).
Proof.
  induction s as [|c s IH]; simpl; [reflexivity|].
  destruct (is_empty (rstrip_of p s) && p c) eqn:E.
  - apply andb_true_iff in E as [R Hc].
    rewrite rstrip_of_empty in R.
    rewrite (eqb_sep_false _ Hc), (split_all _ R). simpl.
    rewrite <- rstrip_of_empty in R. rewrite R, Hc. reflexivity.
  - simpl. destruct (Ascii.eqb c sep) eqn:C.
    + rewrite IH. destruct (split sep s) eqn:S; [exfalso; exact (split_not_nil _ S)|].
      reflexivity.
    + rewrite IH. destruct (split sep s) as [|f fs] eqn:S; [exfalso; exact (split_not_nil _ S)|].
      destruct fs as [|g fs]; simpl.
      * rewrite (split_single _ _ S), E. reflexivity.
      * destruct fs; reflexivity.
Qed.

Lemma length_on_head f l : length (on_head f l) = length l.
Proof. destruct l; reflexivity. Qed.

Lemma length_on_last f l : length (on_last f l) = length l.
Proof.
  induction l as [|x l IH]; [reflexivity|].
  destruct l; [reflexivity|]. simpl in *. rewrite IH. reflexivity.
Qed.

Lemma map_strip_on_head l :
  map (strip_of p) (on_head (lstrip_of p) l) = map (strip_of p) l.
Proof. destruct l; simpl; [reflexivity|]. rewrite strip_of_lstrip. reflexivity. Qed.

Lemma map_strip_on_last l :
  map (strip_of p) (on_last (rstrip_of p) l) = map (strip_of p) l.
Proof.
  induction l as [|x l IH]; [reflexivity|].
  destruct l as [|y l]; simpl.
  - rewrite strip_of_rstrip. reflexivity.
  - simpl in IH. rewrite IH. reflexivity.
Qed.

(** Trimming the whole line first changes neither the number of fields
    nor the trimmed fields. *)
Lemma split_strip_length s :
  length (split sep (strip_of p s)) = length (split sep s).
Proof.
  unfold strip_of. rewrite split_rstrip, length_on_last, split_lstrip, length_on_head.
  reflexivity.
Qed.

Lemma split_strip_fields s :
  map (strip_of p) (split sep (strip_of p s)) = map (strip_of p) (split sep s).
Proof.
  unfold strip_of at 2.
  rewrite split_rstrip, map_strip_on_last, split_lstrip, map_strip_on_head.
  reflexivity.
Qed.

End Strip.

Lemma comma_not_space : Char.isspace "," = false.
Proof. reflexivity. Qed.

End StrFacts.

(** ** Character classes and the field validators *)

Module FieldFacts.

Ltac by_cases_on_char c := destruct c as [[] [] [] [] [] [] [] []]; vm_compute; try reflexivity; try discriminate.

Lemma upper_not_lower c : Char.isupper c = true -> Char.islower c || Char.istitle c = false.
Proof. by_cases_on_char c. Qed.

Lemma alpha_cased c :
  Char.isalpha c = true -> Char.islower c || Char.istitle c = false -> Char.isupper c = true.
Proof. by_cases_on_char c. Qed.

(** What the claims call an alphanumeric text of 2 to 8 characters and a
    code of 3 uppercase letters. *)
Definition alphanumeric_2_8 (s : string) : Prop :=
  Str.all Char.isalnum s = true /\ (2 <= String.length s <= 8)%nat.

Definition upper_letter (c : ascii) : bool := Char.isupper c && Char.isalpha c.

Definition three_upper_letters (s : string) : Prop :=
  String.length s = 3%nat /\ Str.all upper_letter s = true.

Lemma is_alnum_len_spec s : is_alnum_len s 2 8 = true <-> alphanumeric_2_8 s.
Proof.
  unfold is_alnum_len, alphanumeric_2_8, Str.isalnum.
  rewrite !andb_true_iff, Nat.leb_le, Nat.leb_le, negb_true_iff.
  split.
  - intros [[[_ H] H2] H8]. auto.
  - intros [H [H2 H8]]. repeat split; auto.
    destruct s; simpl in *; [lia | reflexivity].
Qed.

Lemma isupper_scan_upper s cased :
  Str.all upper_letter s = true ->
  Str.isupper_scan s cased = cased || negb (Str.is_empty s).
Proof.
  revert cased. induction s as [|c s IH]; simpl; intros cased H.
  - rewrite orb_false_r. reflexivity.
  - apply andb_true_iff in H as [Hc Hs].
    apply andb_true_iff in Hc as [Hu _].
    rewrite (upper_not_lower _ Hu), (IH _ Hs), Hu.
    destruct cased, (Str.is_empty s); reflexivity.
Qed.

Lemma isupper_scan_no_lower s cased :
  Str.isupper_scan s cased = true ->
  Str.all (fun c => negb (Char.islower c || Char.istitle c)) s = true.
Proof.
  revert cased. induction s as [|c s IH]; simpl; intros cased H; [reflexivity|].
  destruct (Char.islower c || Char.istitle c); [discriminate|].
  simpl. exact (IH _ H).
Qed.

Lemma all_and p q s : Str.all p s = true -> Str.all q s = true ->
  Str.all (fun c => p c && q c) s = true.
Proof.
  induction s as [|c s IH]; simpl; [reflexivity|].
  rewrite !andb_true_iff. intros [Hp Hps] [Hq Hqs]. auto.
Qed.

Lemma all_impl (p q : ascii -> bool) s :
  (forall c, p c = true -> q c = true) -> Str.all p s = true -> Str.all q s = true.
Proof.
  intros Hpq. induction s as [|c s IH]; simpl; [reflexivity|].
  rewrite !andb_true_iff. intros [Hp Hps]. auto.
Qed.

Lemma is_airport_code_spec s : is_airport_code s = true <-> three_upper_letters s.
Proof.
  unfold is_airport_code, three_upper_letters, Str.isupper, Str.isalpha.
  rewrite !andb_true_iff, Nat.eqb_eq, negb_true_iff.
  split.
  - intros [[Hlen Hup] [_ Hal]]. split; [exact Hlen|].
    apply isupper_scan_no_lower in Hup.
    pose proof (all_and _ _ _ Hal Hup) as H.
    revert H. apply all_impl. intros c Hc.
    apply andb_true_iff in Hc as [Ha Hl]. apply negb_true_iff in Hl.
    unfold upper_letter. rewrite Ha, (alpha_cased _ Ha Hl). reflexivity.
  - intros [Hlen H].
    assert (E : Str.is_empty s = false) by (destruct s; simpl in *; [lia | reflexivity]).
    repeat split; auto.
    + rewrite (isupper_scan_upper _ _ H), E. reflexivity.
    + revert H. apply all_impl. intros c Hc. apply andb_true_iff in Hc. tauto.
Qed.

End FieldFacts.

(** ** Floats and instants *)

Module OrderFacts.

Lemma positive_not_le_zero p : SFltb Float.zero p = true -> SFleb p Float.zero = false.
Proof. destruct p as [s|s| |s m e]; try destruct s; cbv; congruence. Qed.

Lemma not_le_zero_cases p :
  SFleb p Float.zero = false -> p = S754_nan \/ SFltb Float.zero p = true.
Proof. destruct p as [s|s| |s m e]; try destruct s; cbv; auto; discriminate. Qed.

Lemma compare_antisym a b : Datetime.compare b a = CompOpp (Datetime.compare a b).
Proof.
  unfold Datetime.compare.
  rewrite (Z.compare_antisym (dt_year a)), (Z.compare_antisym (dt_month a)),
    (Z.compare_antisym (dt_day a)), (Z.compare_antisym (dt_hour a)),
    (Z.compare_antisym (dt_minute a)).
  destruct (dt_year a ?= dt_year b)%Z; simpl; try reflexivity.
  destruct (dt_month a ?= dt_month b)%Z; simpl; try reflexivity.
  destruct (dt_day a ?= dt_day b)%Z; simpl; try reflexivity.
  destruct (dt_hour a ?= dt_hour b)%Z; simpl; reflexivity.
Qed.

(** [arr <= dep] is the negation of [dep < arr]. *)
Lemma leb_ltb a b : Datetime.leb a b = negb (Datetime.ltb b a).
Proof.
  unfold Datetime.leb, Datetime.ltb. rewrite (compare_antisym a b).
  destruct (Datetime.compare a b); reflexivity.
Qed.

End OrderFacts.

(** ** The record validator *)

(** The fields of a raw line as the claims speak of them: split on the
    comma, each one trimmed. *)
Definition trimmed_fields (line : string) : list string :=
  map Str.strip (Str.split "," line).

Definition ARRIVAL_REASON : string := "arrival must be after departure".

Module RowFacts.

Lemma fields_of_stripped line :
  map Str.strip (Str.split "," (Str.strip line)) = trimmed_fields line.
Proof. apply StrFacts.split_strip_fields. reflexivity. Qed.

Lemma count_of_stripped line :
  length (Str.split "," (Str.strip line)) = length (Str.split "," line).
Proof. apply StrFacts.split_strip_length. reflexivity. Qed.

(** The validator on a line of six fields, in terms of the trimmed
    fields. *)
Lemma validate_six line n a b c d e f :
  trimmed_fields line = [a; b; c; d; e; f] ->
  validate_flight_row line n =
    match check_fields a b c d e f with
    | (Some p, []) => (Some (mk_flight a b c d e p), None)
    | (_, errors) => (None, Some (Str.join "; " errors))
    end.
Proof.
  intros H. rewrite <- fields_of_stripped in H.
  unfold validate_flight_row.
  destruct (Str.split "," (Str.strip line)) as [|p1 [|p2 [|p3 [|p4 [|p5 [|p6 [|p7 l]]]]]]];
    try discriminate H.
  simpl in H. injection H as <- <- <- <- <- <-.
  destruct (check_fields _ _ _ _ _ _) as [[p|] [|e es]]; reflexivity.
Qed.

Lemma validate_not_six line n :
  length (Str.split "," line) <> 6%nat ->
  validate_flight_row line n = (None, Some "missing required fields").
Proof.
  intros H. rewrite <- count_of_stripped in H.
  unfold validate_flight_row.
  destruct (Str.split "," (Str.strip line)) as [|p1 [|p2 [|p3 [|p4 [|p5 [|p6 [|p7 l]]]]]]];
    try reflexivity.
  exfalso. apply H. reflexivity.
Qed.

(** The price comes back exactly when [validate_price] succeeds, and a
    failure always leaves a reason. *)
Lemma check_fields_price a b c d e f :
  match validate_price f with
  | Ok p => fst (check_fields a b c d e f) = Some p
  | Raise _ => fst (check_fields a b c d e f) = None /\ snd (check_fields a b c d e f) <> []
  end.
Proof.
  unfold check_fields, try_datetime, try_price.
  destruct (parse_datetime d), (parse_datetime e), (validate_price f); simpl;
    try reflexivity;
    (split; [reflexivity | intros E; apply app_eq_nil in E; destruct E; discriminate]).
Qed.

End RowFacts.

(** C1. A raw line whose six comma-separated fields, once trimmed, are an
    alphanumeric identifier of 2 to 8 characters, two codes of 3
    uppercase letters, two timestamps that [strptime] accepts for the
    fixed format, and a price that [float] reads as a number above zero,
    the arrival being strictly after the departure, is accepted: the
    validator returns the record of the trimmed texts with the parsed
    price, and no reason. *)
Theorem C1_valid_row_accepted line n fid o d dep arr pr dep_dt arr_dt p :
  trimmed_fields line = [fid; o; d; dep; arr; pr] ->
  FieldFacts.alphanumeric_2_8 fid ->
  FieldFacts.three_upper_letters o ->
  FieldFacts.three_upper_letters d ->
  parse_datetime dep = Ok dep_dt ->
  parse_datetime arr = Ok arr_dt ->
  Float.of_str pr = Ok p ->
  SFltb Float.zero p = true ->
  Datetime.ltb dep_dt arr_dt = true ->
  validate_flight_row line n = (Some (mk_flight fid o d dep arr p), None).
Proof.
  intros Hf Hid Ho Hd Hdep Harr Hp Hpos Hlt.
  rewrite (RowFacts.validate_six _ _ _ _ _ _ _ _ Hf).
  apply FieldFacts.is_alnum_len_spec in Hid.
  apply FieldFacts.is_airport_code_spec in Ho, Hd.
  unfold check_fields, try_datetime, try_price, validate_price, append_if.
  rewrite Hid, Ho, Hd, Hdep, Harr, Hp. simpl.
  rewrite OrderFacts.leb_ltb, Hlt. simpl.
  rewrite (OrderFacts.positive_not_le_zero _ Hpos). reflexivity.
Qed.

Lemma C1_witness :
  validate_flight_row "AB12,JFK,LAX,2024-01-01 08:00,2024-01-01 10:00,100" 1
  = (Some (mk_flight "AB12" "JFK" "LAX" "2024-01-01 08:00" "2024-01-01 10:00"
             (S754_finite false 7036874417766400 (-46))), None).
Proof.
  apply (C1_valid_row_accepted _ 1 "AB12" "JFK" "LAX" "2024-01-01 08:00" "2024-01-01 10:00" "100"
           (mk_datetime 2024 1 1 8 0) (mk_datetime 2024 1 1 10 0)).
  - reflexivity.
  - split; [reflexivity | simpl; lia].
  - split; reflexivity.
  - split; reflexivity.
  - reflexivity.
  - reflexivity.
  - vm_compute. reflexivity.
  - reflexivity.
  - reflexivity.
Defined.

(** C3. A raw line that does not split on the comma into exactly six
    fields is rejected with the single reason "missing required fields",
    whatever the fields hold. *)
Theorem C3_wrong_field_count line n :
  length (Str.split "," line) <> 6%nat ->
  validate_flight_row line n = (None, Some "missing required fields").
Proof.
  intros H. rewrite <- RowFacts.count_of_stripped in H.
  unfold validate_flight_row.
  destruct (Str.split "," (Str.strip line)) as [|p1 [|p2 [|p3 [|p4 [|p5 [|p6 [|p7 l]]]]]]];
    try reflexivity.
  exfalso. apply H. reflexivity.
Qed.

Lemma C3_witness :
  validate_flight_row "AB12,JFK,LAX,2024-01-01 08:00,2024-01-01 10:00" 3
    = (None, Some "missing required fields")
  /\ validate_flight_row "AB12,JFK,LAX,2024-01-01 08:00,2024-01-01 10:00,100,extra" 4
    = (None, Some "missing required fields").
Proof.
  split; apply C3_wrong_field_count; simpl; lia.
Defined.

Module ReasonFacts.

Lemma in_append_if r c errs m :
  In r (append_if c errs m) <-> In r errs \/ (c = true /\ r = m).
Proof.
  unfold append_if. destruct c; [rewrite in_app_iff; simpl|]; intuition congruence.
Qed.

(** Every reason the validator can collect, with the check that adds
    it: no check is skipped after an earlier one has failed. *)
Lemma in_row_errors r a b c d e f :
  In r (row_errors a b c d e f) <->
    (is_alnum_len a 2 8 = false /\ r = "invalid flight_id")
    \/ (is_airport_code b = false /\ r = "invalid origin")
    \/ (is_airport_code c = false /\ r = "invalid destination")
    \/ (is_ok (parse_datetime d) = false /\ r = "invalid departure_datetime")
    \/ (is_ok (parse_datetime e) = false /\ r = "invalid arrival_datetime")
    \/ (match parse_datetime d, parse_datetime e with
        | Ok dep_dt, Ok arr_dt => Datetime.leb arr_dt dep_dt = true
        | _, _ => False
        end /\ r = ARRIVAL_REASON)
    \/ match validate_price f with
       | Raise ex => r = exn_str ex
       | Ok _ => False
       end.
Proof.
  unfold row_errors, check_fields, try_datetime, try_price.
  destruct (parse_datetime d) as [dd|ed]; destruct (parse_datetime e) as [ad|ea];
    destruct (validate_price f) as [x|ex]; cbn [fst snd is_ok];
    repeat first [rewrite in_app_iff | rewrite in_append_if];
    rewrite !negb_true_iff; cbn [In]; unfold ARRIVAL_REASON;
    intuition congruence.
Qed.

Lemma of_str_raise s ex : Float.of_str s = Raise ex -> ex = Float.could_not_convert s.
Proof.
  unfold Float.of_str.
  destruct (Float.without_underscores _); [|congruence].
  destruct (Float.split_sign _).
  destruct (Float.parse_decimal _ _); [discriminate|].
  destruct (Float.parse_inf_or_nan _ _); [discriminate | congruence].
Qed.

(** The reasons [validate_price] can give. *)
Lemma validate_price_raise s ex :
  validate_price s = Raise ex ->
  ex = ValueError "price must be positive" \/ ex = Float.could_not_convert s.
Proof.
  unfold validate_price. destruct (Float.of_str s) as [p|e0] eqn:E.
  - destruct (SFleb p Float.zero); [left; congruence | discriminate].
  - intros H. right. injection H as <-. exact (of_str_raise _ _ E).
Qed.

Lemma price_reason_not_arrival s ex :
  validate_price s = Raise ex -> exn_str ex <> ARRIVAL_REASON.
Proof.
  intros H. destruct (validate_price_raise _ _ H) as [-> | ->]; discriminate.
Qed.

End ReasonFacts.

(** C4. On a line of six fields the reasons the validator collects
    contain "arrival must be after departure" exactly when both
    timestamps parse and the arrival is not after the departure; the
    reason returned is those reasons joined by "; ". *)
Theorem C4_arrival_reason line n fid o d dep arr pr :
  trimmed_fields line = [fid; o; d; dep; arr; pr] ->
  let errors := row_errors fid o d dep arr pr in
  snd (validate_flight_row line n)
    = match errors with [] => None | _ => Some (Str.join "; " errors) end
  /\ (In ARRIVAL_REASON errors <->
      exists dep_dt arr_dt,
        parse_datetime dep = Ok dep_dt /\ parse_datetime arr = Ok arr_dt
        /\ Datetime.leb arr_dt dep_dt = true).
Proof.
  intros Hf errors. split.
  - rewrite (RowFacts.validate_six _ _ _ _ _ _ _ _ Hf).
    pose proof (RowFacts.check_fields_price fid o d dep arr pr) as Hp.
    subst errors. unfold row_errors.
    destruct (check_fields fid o d dep arr pr) as [price errs]. simpl in *.
    destruct (validate_price pr).
    + subst price. destruct errs; reflexivity.
    + destruct Hp as [-> Hne]. destruct errs; [congruence | reflexivity].
  - subst errors. rewrite ReasonFacts.in_row_errors. split.
    + intros [[_ H]|[[_ H]|[[_ H]|[[_ H]|[[_ H]|[[H _]|H]]]]]]; try discriminate H.
      * destruct (parse_datetime dep) as [dd|]; [|contradiction].
        destruct (parse_datetime arr) as [ad|]; [|contradiction]. eauto.
      * destruct (validate_price pr) as [|ex] eqn:Hex; [contradiction|]. symmetry in H.
        exfalso. exact (ReasonFacts.price_reason_not_arrival _ _ Hex H).
    + intros (dd & ad & -> & -> & Hle). do 5 right. left. split; [exact Hle | reflexivity].
Qed.

Lemma C4_witness :
  snd (validate_flight_row "AB12,JFK,LAX,2024-01-01 10:00,2024-01-01 08:00,100" 1)
    = Some ARRIVAL_REASON
  /\ In ARRIVAL_REASON
       (row_errors "AB12" "JFK" "LAX" "2024-01-01 10:00" "2024-01-01 08:00" "100").
Proof.
  destruct (C4_arrival_reason "AB12,JFK,LAX,2024-01-01 10:00,2024-01-01 08:00,100" 1
              "AB12" "JFK" "LAX" "2024-01-01 10:00" "2024-01-01 08:00" "100" eq_refl)
    as [Hsnd Hin].
  split.
  - rewrite Hsnd. vm_compute. reflexivity.
  - apply Hin. exists (mk_datetime 2024 1 1 10 0), (mk_datetime 2024 1 1 8 0).
    repeat split; reflexivity.
Defined.

(** What holds of every record the validator returns: each check of
    lines 43-70 has passed. For the price this is the test the code
    makes, [p <= 0] being false. *)
Lemma validate_flight_row_sound line n r reason :
  validate_flight_row line n = (Some r, reason) ->
  reason = None
  /\ trimmed_fields line
     = [flight_id r; origin r; destination r; departure_datetime r; arrival_datetime r;
        Str.strip (nth 5 (Str.split "," line) "")]
  /\ FieldFacts.alphanumeric_2_8 (flight_id r)
  /\ FieldFacts.three_upper_letters (origin r)
  /\ FieldFacts.three_upper_letters (destination r)
  /\ (exists dep_dt arr_dt,
        parse_datetime (departure_datetime r) = Ok dep_dt
        /\ parse_datetime (arrival_datetime r) = Ok arr_dt
        /\ Datetime.ltb dep_dt arr_dt = true)
  /\ SFleb (price r) Float.zero = false.
Proof.
  intros H.
  destruct (Nat.eq_dec (length (Str.split "," line)) 6) as [Hlen|Hlen];
    [|rewrite (RowFacts.validate_not_six _ _ Hlen) in H; discriminate].
  assert (Hf : exists a b c d e f, trimmed_fields line = [a; b; c; d; e; f]
                /\ f = Str.strip (nth 5 (Str.split "," line) "")).
  { unfold trimmed_fields.
    destruct (Str.split "," line) as [|p1 [|p2 [|p3 [|p4 [|p5 [|p6 [|p7 l]]]]]]];
      try discriminate Hlen.
    simpl. eauto 10. }
  destruct Hf as (a & b & c & d & e & f & Hf & Hlast).
  rewrite (RowFacts.validate_six _ _ _ _ _ _ _ _ Hf) in H.
  pose proof (fun x => ReasonFacts.in_row_errors x a b c d e f) as Hin.
  pose proof (RowFacts.check_fields_price a b c d e f) as Hp.
  unfold row_errors in Hin.
  destruct (check_fields a b c d e f) as [[p|] [|e0 es]]; try discriminate H.
  injection H as <- <-. simpl in *.
  assert (Hno : forall x, ~ _) by (intros x Hx; apply (Hin x) in Hx; exact Hx).
  clear Hin.
  split; [reflexivity|]. split; [rewrite <- Hlast; exact Hf|].
  split; [|split; [|split; [|split]]].
  - apply FieldFacts.is_alnum_len_spec.
    destruct (is_alnum_len a 2 8) eqn:E; [reflexivity|].
    exfalso. apply (Hno "invalid flight_id"). left. auto.
  - apply FieldFacts.is_airport_code_spec.
    destruct (is_airport_code b) eqn:E; [reflexivity|].
    exfalso. apply (Hno "invalid origin"). right. left. auto.
  - apply FieldFacts.is_airport_code_spec.
    destruct (is_airport_code c) eqn:E; [reflexivity|].
    exfalso. apply (Hno "invalid destination"). do 2 right. left. auto.
  - destruct (parse_datetime d) as [dd|] eqn:Ed.
    2:{ exfalso. apply (Hno "invalid departure_datetime").
        do 3 right. left. auto. }
    destruct (parse_datetime e) as [ad|] eqn:Ea.
    2:{ exfalso. apply (Hno "invalid arrival_datetime").
        do 4 right. left. auto. }
    exists dd, ad. repeat split.
    destruct (Datetime.ltb dd ad) eqn:El; [reflexivity|].
    exfalso. apply (Hno ARRIVAL_REASON).
    do 5 right. left. rewrite OrderFacts.leb_ltb, El. auto.
  - unfold validate_price in Hp. destruct (Float.of_str f) as [y|]; [|destruct Hp; discriminate].
    destruct (SFleb y Float.zero) eqn:El; [destruct Hp; discriminate|].
    injection Hp as <-. exact El.
Qed.

(** C5. The validator returns a record for a line whose price text is
    "nan": [float] reads it as the NaN value, for which [p <= 0] is false,
    although it is not above zero. *)
Theorem C5_nan_price_accepted :
  validate_flight_row "AB12,JFK,LAX,2024-01-01 08:00,2024-01-01 10:00,nan" 1
    = (Some (mk_flight "AB12" "JFK" "LAX" "2024-01-01 08:00" "2024-01-01 10:00" Float.nan), None)
  /\ validate_price "nan" = Ok Float.nan
  /\ SFltb Float.zero Float.nan = false.
Proof. repeat split; vm_compute; reflexivity. Qed.

(** C10. The validator's result does not depend on the line number it
    is given. *)
Theorem C10_line_number_irrelevant line n1 n2 :
  validate_flight_row line n1 = validate_flight_row line n2.
Proof.
  unfold validate_flight_row.
  destruct (Str.split "," (Str.strip line)) as [|p1 l]; reflexivity.
Qed.

(** ** Ingestion *)

Module IngestFacts.

Lemma startswith_hash_nonempty s : Str.startswith s "#" = true -> String.eqb s "" = false.
Proof. destruct s; [discriminate | reflexivity]. Qed.

Lemma parse_files_app fs l1 l2 st :
  parse_files fs (l1 ++ l2) st = parse_files fs l2 (parse_files fs l1 st).
Proof. unfold parse_files. apply fold_left_app. Qed.

Lemma parse_files_cons fs p l st :
  parse_files fs (p :: l) st = parse_files fs l (parse_csv_file fs p st).
Proof. reflexivity. Qed.

(** The file system of the example: one file, whose first line is a
    valid row and whose second read fails. *)
Definition breaks_after_one_row : filesystem :=
  {| fs_open := fun _ =>
       Opened ["AB12,JFK,LAX,2024-01-01 08:00,2024-01-01 10:00,100"] true;
     fs_glob := fun _ => [] |}.

(** The lines after a first part of a source are numbered on from
    it. *)
Lemma read_lines_split before : forall n after st,
  read_lines n (before ++ after) st
  = read_lines (n + Z.of_nat (length before)) after (read_lines n before st).
Proof.
  induction before as [|line rest IH]; intros n after st.
  - cbn [app length read_lines]. rewrite Z.add_0_r. reflexivity.
  - cbn [app read_lines]. rewrite IH. f_equal. cbn [length]. lia.
Qed.

(** The file system of the second example: one file of two lines, the
    same header line twice. *)
Definition header_then_comment : filesystem :=
  {| fs_open := fun _ =>
       Opened ["# flight_id,origin,destination"; "# flight_id,origin,destination"] false;
     fs_glob := fun _ => [] |}.

End IngestFacts.

(** C8, as stated, fails: a source whose reading fails after a valid row
    has already contributed that row. *)
Lemma C8_read_failure_keeps_rows :
  source_fails (fs_open IngestFacts.breaks_after_one_row "a.csv") = true
  /\ snd (csv_try (fs_open IngestFacts.breaks_after_one_row "a.csv") (mk_ingest [] []))
     = Raise OSError
  /\ parse_csv_file IngestFacts.breaks_after_one_row "a.csv" (mk_ingest [] [])
     = mk_ingest [mk_flight "AB12" "JFK" "LAX" "2024-01-01 08:00" "2024-01-01 10:00"
                    (S754_finite false 7036874417766400 (-46))] [].
Proof. repeat split; vm_compute; reflexivity. Qed.

(** C8, amended. A source that cannot be opened contributes no record
    and no error entry; a source whose reading fails contributes what
    the lines read before the failure contribute. Either way the failure
    is dropped and the sources after it are processed. *)
Theorem C8_failed_source fs before p after st :
  source_fails (fs_open fs p) = true ->
  (fs_open fs p = Unopenable ->
     parse_csv_file fs p st = st
     /\ parse_files fs (before ++ p :: after) st = parse_files fs (before ++ after) st)
  /\ parse_csv_file fs p st = read_lines 1 (lines_read (fs_open fs p)) st
  /\ parse_files fs (before ++ p :: after) st
     = parse_files fs after
         (read_lines 1 (lines_read (fs_open fs p)) (parse_files fs before st)).
Proof.
  intros Hfail.
  assert (Hp : forall s, parse_csv_file fs p s = read_lines 1 (lines_read (fs_open fs p)) s).
  { intros s. unfold parse_csv_file. destruct (fs_open fs p); reflexivity. }
  split; [|split].
  - intros Hopen. split.
    + rewrite Hp, Hopen. reflexivity.
    + rewrite !IngestFacts.parse_files_app, IngestFacts.parse_files_cons, Hp, Hopen.
      reflexivity.
  - apply Hp.
  - rewrite IngestFacts.parse_files_app, IngestFacts.parse_files_cons, Hp. reflexivity.
Qed.

Lemma C8_witness :
  parse_files IngestFacts.breaks_after_one_row ["a.csv"; "b.csv"] (mk_ingest [] [])
  = parse_files IngestFacts.breaks_after_one_row ["b.csv"]
      (read_lines 1 ["AB12,JFK,LAX,2024-01-01 08:00,2024-01-01 10:00,100"] (mk_ingest [] [])).
Proof.
  apply (C8_failed_source IngestFacts.breaks_after_one_row [] "a.csv" ["b.csv"]).
  reflexivity.
Defined.

(** C9. The first line of a source that, trimmed, begins with "#" and
    contains "flight_id" is skipped as a header: the lists are those of
    the lines after it, so nothing is recorded for it and it is not
    validated. A line beginning with "#" that is not the first line of
    its source, the lines being counted from 1, or that does not
    contain "flight_id", is recorded as a comment under its number. *)
Theorem C9_header_before_comment fs path before line after broken st :
  fs_open fs path = Opened (before ++ line :: after) broken ->
  Str.startswith (Str.strip line) "#" = true ->
  (before = [] /\ Str.contains (Str.strip line) "flight_id" = true ->
     parse_csv_file fs path st = read_lines 2 after st)
  /\ (~ (before = [] /\ Str.contains (Str.strip line) "flight_id" = true) ->
      parse_csv_file fs path st
      = read_lines (Z.of_nat (length before) + 2) after
          (add_error ("Line " +:+ Str.of_Z (Z.of_nat (length before) + 1) +:+ ": "
                      +:+ Str.strip line +:+ " -> comment")
             (read_lines 1 before st))).
Proof.
  intros Hopen Hhash. unfold parse_csv_file. rewrite Hopen. cbn [csv_try fst].
  rewrite IngestFacts.read_lines_split. cbn [read_lines].
  replace (1 + Z.of_nat (length before) + 1)%Z with (Z.of_nat (length before) + 2)%Z by lia.
  replace (1 + Z.of_nat (length before))%Z with (Z.of_nat (length before) + 1)%Z by lia.
  unfold process_line.
  rewrite (IngestFacts.startswith_hash_nonempty _ Hhash), Hhash.
  split.
  - intros [-> Hc]. rewrite Hc. reflexivity.
  - intros Hnot.
    destruct ((Z.of_nat (length before) + 1 =? 1)%Z
              && Str.contains (Str.strip line) "flight_id") eqn:E; [|reflexivity].
    apply andb_true_iff in E as [En Hc]. apply Z.eqb_eq in En.
    destruct before; [tauto | cbn [length] in En; lia].
Qed.

Lemma C9_witness :
  parse_csv_file IngestFacts.header_then_comment "a.csv" (mk_ingest [] [])
  = read_lines 2 ["# flight_id,origin,destination"] (mk_ingest [] [])
  /\ parse_csv_file IngestFacts.header_then_comment "a.csv" (mk_ingest [] [])
     = read_lines (Z.of_nat (length ["# flight_id,origin,destination"]) + 2) []
         (add_error "Line 2: # flight_id,origin,destination -> comment"
            (read_lines 1 ["# flight_id,origin,destination"] (mk_ingest [] []))).
Proof.
  split.
  - apply (C9_header_before_comment IngestFacts.header_then_comment "a.csv" []
             "# flight_id,origin,destination" ["# flight_id,origin,destination"] false);
      [reflexivity | reflexivity | split; reflexivity].
  - apply (C9_header_before_comment IngestFacts.header_then_comment "a.csv"
             ["# flight_id,origin,destination"] "# flight_id,origin,destination" [] false
             (mk_ingest [] []));
      [reflexivity | reflexivity | intros [H _]; discriminate H].
Defined.

(** ** The query engine *)

(** The check each recognized key stands for; a key that is present
    must pass its check. *)
Definition text_check (field : string) (v : json) : Prop := v = JStr field.

Definition price_check (f : flight) (v : json) : Prop :=
  exists bound, json_float v = Ok bound /\ SFltb bound (price f) = false.

Definition departure_check (f : flight) (v : json) : Prop :=
  exists dt bound,
    parse_datetime (departure_datetime f) = Ok dt /\ json_datetime v = Ok bound
    /\ Datetime.ltb dt bound = false.

Definition arrival_check (f : flight) (v : json) : Prop :=
  exists dt bound,
    parse_datetime (arrival_datetime f) = Ok dt /\ json_datetime v = Ok bound
    /\ Datetime.gtb dt bound = false.

Definition present_passes (q : gmap string json) (key : string) (check : json -> Prop) : Prop :=
  forall v, q !! key = Some v -> check v.

Module QueryFacts.

Lemma key_passes q key rejects (check : json -> Prop) :
  (forall v, rejects v = false <-> check v) ->
  key_rejects q key rejects = false <-> present_passes q key check.
Proof.
  intros H. unfold key_rejects, present_passes.
  destruct (q !! key) as [v|].
  - rewrite H. split; [intros Hc w [= <-]; exact Hc | auto].
  - split; [discriminate | reflexivity].
Qed.

Lemma str_ne_spec field v : str_ne field v = false <-> text_check field v.
Proof.
  unfold str_ne, text_check. destruct v; try (split; discriminate).
  rewrite negb_false_iff, String.eqb_eq. split; congruence.
Qed.

Lemma price_rejects_spec f v : price_rejects f v = false <-> price_check f v.
Proof.
  unfold price_rejects, price_check. destruct (json_float v) as [b|e].
  - split; [eauto | intros (b' & [= <-] & H); exact H].
  - split; [discriminate | intros (b' & H & _); discriminate].
Qed.

Lemma departure_rejects_spec f v : departure_rejects f v = false <-> departure_check f v.
Proof.
  unfold departure_rejects, departure_check.
  destruct (parse_datetime (departure_datetime f)) as [a|]; destruct (json_datetime v) as [b|];
    split; try discriminate; eauto;
    intros (a' & b' & Ha & Hb & H); congruence.
Qed.

Lemma arrival_rejects_spec f v : arrival_rejects f v = false <-> arrival_check f v.
Proof.
  unfold arrival_rejects, arrival_check.
  destruct (parse_datetime (arrival_datetime f)) as [a|]; destruct (json_datetime v) as [b|];
    split; try discriminate; eauto;
    intros (a' & b' & Ha & Hb & H); congruence.
Qed.

Lemma key_rejects_insert_ne q k v key rejects :
  k <> key -> key_rejects (<[k:=v]> q) key rejects = key_rejects q key rejects.
Proof. intros H. unfold key_rejects. rewrite lookup_insert_ne; [reflexivity | exact H]. Qed.

Lemma key_rejects_insert_fresh q k v key rejects :
  q !! k = None ->
  key_rejects q key rejects = true -> key_rejects (<[k:=v]> q) key rejects = true.
Proof.
  intros Hk. destruct (decide (k = key)) as [->|Hne].
  - unfold key_rejects at 1. rewrite Hk. discriminate.
  - rewrite (key_rejects_insert_ne _ _ _ _ _ Hne). auto.
Qed.

(** A query with one more key matches no record the shorter one
    rejects. *)
Lemma matches_insert_fresh f q k v :
  q !! k = None ->
  flight_matches_query f (<[k:=v]> q) = true -> flight_matches_query f q = true.
Proof.
  intros Hk. unfold flight_matches_query.
  assert (Hkeep : forall key r,
             key_rejects (<[k:=v]> q) key r = false -> key_rejects q key r = false).
  { intros key r H. destruct (key_rejects q key r) eqn:E; [|reflexivity].
    rewrite (key_rejects_insert_fresh _ _ v _ _ Hk E) in H. discriminate. }
  repeat match goal with
  | |- context [key_rejects (<[k:=v]> q) ?key ?r] =>
      let E := fresh "E" in
      destruct (key_rejects (<[k:=v]> q) key r) eqn:E;
      [ discriminate | rewrite (Hkeep _ _ E) ]
  end.
  reflexivity.
Qed.

End QueryFacts.

(** C2. A record matches a query exactly when every recognized key the
    query holds passes its check: the three texts equal the query's
    value; the query's price converts to a number that the record's
    price does not exceed; the record's departure is not before, and
    its arrival not after, the query's timestamp, both sides parsing.
    The matcher always answers: a value that does not convert makes
    the record a non-match. *)
Theorem C2_match_iff_all_checks (f : flight) (q : gmap string json) :
  flight_matches_query f q = true <->
    present_passes q "flight_id" (text_check (flight_id f))
    /\ present_passes q "origin" (text_check (origin f))
    /\ present_passes q "destination" (text_check (destination f))
    /\ present_passes q "price" (price_check f)
    /\ present_passes q "departure_datetime" (departure_check f)
    /\ present_passes q "arrival_datetime" (arrival_check f).
Proof.
  rewrite <- (QueryFacts.key_passes q "flight_id" _ _ (QueryFacts.str_ne_spec (flight_id f))).
  rewrite <- (QueryFacts.key_passes q "origin" _ _ (QueryFacts.str_ne_spec (origin f))).
  rewrite <- (QueryFacts.key_passes q "destination" _ _ (QueryFacts.str_ne_spec (destination f))).
  rewrite <- (QueryFacts.key_passes q "price" _ _ (QueryFacts.price_rejects_spec f)).
  rewrite <- (QueryFacts.key_passes q "departure_datetime" _ _ (QueryFacts.departure_rejects_spec f)).
  rewrite <- (QueryFacts.key_passes q "arrival_datetime" _ _ (QueryFacts.arrival_rejects_spec f)).
  unfold flight_matches_query.
  destruct (key_rejects q "flight_id" _), (key_rejects q "origin" _),
    (key_rejects q "destination" _), (key_rejects q "price" _),
    (key_rejects q "departure_datetime" _), (key_rejects q "arrival_datetime" _);
    intuition congruence.
Qed.

(** C6. Adding a key the query does not hold yet can only remove
    matches: the matches of the longer query are, in store order, among
    those of the shorter one. *)
Theorem C6_extra_key_shrinks (db : list flight) (q : gmap string json) k v :
  q !! k = None ->
  sublist (matches db (<[k:=v]> q)) (matches db q)
  /\ matches db (<[k:=v]> q) ⊆ matches db q.
Proof.
  intros Hk.
  assert (Hsub : sublist (matches db (<[k:=v]> q)) (matches db q)).
  { unfold matches. induction db as [|f db IH]; [constructor|].
    rewrite !filter_cons.
    destruct (decide (flight_matches_query f (<[k:=v]> q) = true)) as [Hm|Hm].
    - rewrite decide_True by exact (QueryFacts.matches_insert_fresh _ _ _ _ Hk Hm).
      apply sublist_skip, IH.
    - destruct (decide (flight_matches_query f q = true)).
      + apply sublist_cons, IH.
      + exact IH. }
  split; [exact Hsub | exact (sublist_subseteq _ _ Hsub)].
Qed.

Lemma C6_witness :
  matches [mk_flight "AB12" "JFK" "LAX" "2024-01-01 08:00" "2024-01-01 10:00" Float.one]
          (<["price" := JStr "free"]> {["origin" := JStr "JFK"]})
  ⊆ matches [mk_flight "AB12" "JFK" "LAX" "2024-01-01 08:00" "2024-01-01 10:00" Float.one]
            {["origin" := JStr "JFK"]}.
Proof.
  apply (C6_extra_key_shrinks _ {["origin" := JStr "JFK"]} "price" (JStr "free")).
  reflexivity.
Defined.

(** ** The store: what is saved is what is loaded *)

(** *** Rounding: scaling and canonical values *)

Module RoundFacts.
Local Open Scope Z_scope.

Section Rounding.
Variables prec emax : Z.

Definition exact_record (m : Z) : shr_record := Build_shr_record m false false.

(** The mantissa record and exponent after alignment and the first
    shift of [binary_round], for the target exponent [t]. *)
Definition settle (M E t : Z) : shr_record :=
  Nat.iter (Z.to_nat (t - E)) shr_1 (exact_record (M * 2 ^ Z.max 0 (E - t))).

(** What [binary_round_aux] does after its first shift. *)
Definition finish (sx : bool) (st : shr_record * Z) : spec_float :=
  let '(mrs', e') := st in
  let '(mrs'', e'') :=
    shr_fexp prec emax (round_nearest_even (shr_m mrs') (loc_of_shr_record mrs')) e' loc_Exact in
  match shr_m mrs'' with
  | Z0 => S754_zero sx
  | Zpos m => if e'' <=? emax - prec then S754_finite sx m e'' else S754_infinity sx
  | Zneg _ => S754_nan
  end.

Lemma iter_pos_nat {A} (f : A -> A) p x : SpecFloat.iter_pos f p x = Nat.iter (Pos.to_nat p) f x.
Proof.
  revert x. induction p as [p IH|p IH|]; intros x; cbn [SpecFloat.iter_pos].
  - rewrite !IH, Pos2Nat.inj_xI.
    replace (S (2 * Pos.to_nat p))%nat with (Pos.to_nat p + (Pos.to_nat p + 1))%nat by lia.
    rewrite !Nat.iter_add. reflexivity.
  - rewrite !IH, Pos2Nat.inj_xO.
    replace (2 * Pos.to_nat p)%nat with (Pos.to_nat p + Pos.to_nat p)%nat by lia.
    rewrite Nat.iter_add. reflexivity.
  - reflexivity.
Qed.

Lemma shr_as_iter mrs e n :
  shr mrs e n = (Nat.iter (Z.to_nat n) shr_1 mrs, e + Z.max 0 n).
Proof.
  unfold shr. destruct n as [|p|p]; simpl.
  - rewrite Z.add_0_r. reflexivity.
  - rewrite iter_pos_nat. reflexivity.
  - rewrite Z.add_0_r. reflexivity.
Qed.

Lemma shr_1_double M : 0 < M -> shr_1 (exact_record (2 * M)) = exact_record M.
Proof. destruct M; try lia. reflexivity. Qed.

Lemma shr_exact (j : nat) M :
  0 < M -> Nat.iter j shr_1 (exact_record (M * 2 ^ Z.of_nat j)) = exact_record M.
Proof.
  intros HM. induction j as [|j IH].
  - simpl. rewrite Z.mul_1_r. reflexivity.
  - rewrite Nat.iter_succ_r, Nat2Z.inj_succ, Z.pow_succ_r by lia.
    replace (M * (2 * 2 ^ Z.of_nat j)) with (2 * (M * 2 ^ Z.of_nat j)) by ring.
    rewrite shr_1_double by (apply Z.mul_pos_pos; [lia | apply Z.pow_pos_nonneg; lia]).
    exact IH.
Qed.

Lemma digits2_size p : digits2_pos p = Pos.size p.
Proof. induction p; simpl; congruence. Qed.

Lemma Zdigits2_log2 M : 0 < M -> Zdigits2 M = Z.log2 M + 1.
Proof.
  destruct M as [|p|p]; try lia. intros _. simpl. rewrite digits2_size.
  destruct p; simpl; lia.
Qed.

Lemma Zdigits2_shift M j : 0 < M -> 0 <= j -> Zdigits2 (M * 2 ^ j) = Zdigits2 M + j.
Proof.
  intros HM Hj.
  rewrite !Zdigits2_log2 by (try apply Z.mul_pos_pos; try apply Z.pow_pos_nonneg; lia).
  rewrite Z.log2_mul_pow2 by lia. lia.
Qed.

Lemma iter_xO mx d : Zpos (Pos.iter xO mx d) = Zpos mx * 2 ^ Zpos d.
Proof.
  revert mx. induction d as [|d IH] using Pos.peano_ind; intros mx.
  - simpl. lia.
  - rewrite Pos.iter_succ, Pos2Z.inj_xO, IH, Pos2Z.inj_succ, Z.pow_succ_r by lia. ring.
Qed.

(** [binary_round] through [settle] and [finish]. *)
Lemma binary_round_settle sx mx ex :
  binary_round prec emax sx mx ex
  = finish sx (settle (Zpos mx) ex (fexp prec emax (Zdigits2 (Zpos mx) + ex)),
               fexp prec emax (Zdigits2 (Zpos mx) + ex)).
Proof.
  unfold binary_round, shl_align.
  change (Zpos (digits2_pos mx)) with (Zdigits2 (Zpos mx)).
  remember (fexp prec emax (Zdigits2 (Zpos mx) + ex)) as t eqn:Et.
  unfold settle.
  destruct (t - ex) as [|p|p] eqn:E.
  - assert (Hex : ex = t) by lia.
    unfold binary_round_aux, shr_fexp. rewrite <- Et, E.
    cbn [shr Z.to_nat Nat.iter shr_record_of_loc].
    replace (Z.max 0 (ex - t)) with 0 by lia. rewrite Z.mul_1_r.
    rewrite Hex. reflexivity.
  - unfold binary_round_aux, shr_fexp. rewrite <- Et, E.
    rewrite shr_as_iter. cbn [shr_record_of_loc].
    replace (Z.max 0 (ex - t)) with 0 by lia. rewrite Z.mul_1_r.
    replace (ex + Z.max 0 (Zpos p)) with t by lia. reflexivity.
  - unfold binary_round_aux, shr_fexp.
    rewrite iter_xO.
    rewrite Zdigits2_shift by lia.
    replace (Zdigits2 (Zpos mx) + Zpos p + t) with (Zdigits2 (Zpos mx) + ex) by lia.
    rewrite <- Et, Z.sub_diag. cbn [shr Z.to_nat Nat.iter shr_record_of_loc].
    replace (Z.max 0 (ex - t)) with (Zpos p) by lia. reflexivity.
Qed.

Lemma settle_shift M E t j :
  0 < M -> 0 <= j -> settle (M * 2 ^ j) (E - j) t = settle M E t.
Proof.
  intros HM Hj. unfold settle.
  destruct (Z_le_gt_dec t (E - j)) as [H1|H1].
  - (* no right shift on either side *)
    replace (Z.to_nat (t - (E - j))) with 0%nat by lia.
    replace (Z.to_nat (t - E)) with 0%nat by lia. simpl.
    rewrite !Z.max_r by lia. rewrite <- Z.mul_assoc, <- Z.pow_add_r by lia.
    do 3 f_equal. lia.
  - destruct (Z_le_gt_dec t E) as [H2|H2].
    + replace (Z.to_nat (t - E)) with 0%nat by lia. simpl.
      rewrite Z.max_l by lia. rewrite Z.mul_1_r.
      rewrite (Z.max_r 0 (E - t)) by lia.
      replace (M * 2 ^ j) with ((M * 2 ^ (E - t)) * 2 ^ Z.of_nat (Z.to_nat (t - (E - j)))).
      * apply shr_exact. apply Z.mul_pos_pos; [lia | apply Z.pow_pos_nonneg; lia].
      * rewrite Z2Nat.id by lia. rewrite <- Z.mul_assoc, <- Z.pow_add_r by lia.
        do 2 f_equal. lia.
    + rewrite !Z.max_l by lia. rewrite !Z.mul_1_r.
      replace (Z.to_nat (t - (E - j))) with (Z.to_nat (t - E) + Z.to_nat j)%nat by lia.
      rewrite Nat.iter_add.
      replace (M * 2 ^ j) with (M * 2 ^ Z.of_nat (Z.to_nat j)) by (rewrite Z2Nat.id by lia; reflexivity).
      rewrite shr_exact by lia. reflexivity.
Qed.

(** Rounding sees the value, not the way it is written: a mantissa
    with [j] more low zero bits and an exponent [j] lower rounds the
    same. *)
Lemma binary_normalize_shift M E j sz :
  0 < M -> 0 <= j ->
  binary_normalize prec emax (M * 2 ^ j) (E - j) sz = binary_normalize prec emax M E sz.
Proof.
  intros HM Hj.
  assert (HP : 0 < M * 2 ^ j) by (apply Z.mul_pos_pos; [lia | apply Z.pow_pos_nonneg; lia]).
  destruct M as [|mx|mx]; try lia.
  destruct (Zpos mx * 2 ^ j) as [|my|my] eqn:EM; try lia.
  unfold binary_normalize.
  rewrite !binary_round_settle. rewrite <- EM.
  rewrite Zdigits2_shift by lia.
  replace (Zdigits2 (Zpos mx) + j + (E - j)) with (Zdigits2 (Zpos mx) + E) by lia.
  rewrite settle_shift by lia. reflexivity.
Qed.

(** A canonical mantissa and exponent are left as they are. *)
Lemma binary_round_canonical sx m e :
  bounded prec emax m e = true -> binary_round prec emax sx m e = S754_finite sx m e.
Proof.
  unfold bounded, canonical_mantissa. intros H.
  apply andb_true_iff in H as [Hc He]. apply Z.eqb_eq in Hc.
  rewrite binary_round_settle. cbn [Zdigits2]. rewrite Hc.
  unfold settle. rewrite Z.sub_diag.
  change (Z.to_nat 0) with 0%nat. change (Z.max 0 0) with 0.
  unfold Nat.iter. cbn [nat_rect]. rewrite Z.mul_1_r.
  unfold finish, exact_record. cbn [shr_m loc_of_shr_record round_nearest_even].
  unfold shr_fexp. cbn [Zdigits2]. rewrite Hc, Z.sub_diag.
  cbn [shr shr_record_of_loc shr_m]. rewrite He. reflexivity.
Qed.

(** The sign only labels the result. *)
Definition with_sign (s : bool) (x : spec_float) : spec_float :=
  match x with
  | S754_zero _ => S754_zero s
  | S754_infinity _ => S754_infinity s
  | S754_nan => S754_nan
  | S754_finite _ m e => S754_finite s m e
  end.

Lemma binary_round_sign sx mx ex :
  binary_round prec emax sx mx ex = with_sign sx (binary_round prec emax false mx ex).
Proof.
  rewrite !binary_round_settle. unfold finish.
  destruct (shr_fexp _ _ _ _ _) as [mrs e]. destruct (shr_m mrs); try reflexivity.
  destruct (e <=? emax - prec); reflexivity.
Qed.

End Rounding.

End RoundFacts.

(** *** The text of a float, read by [float] *)

Module TextFacts.
Import FloatRepr.
Local Open Scope Z_scope.
#[local] Arguments String.append !s1 s2 : simpl nomatch.

Lemma app_assoc (a b c : string) : (a +:+ b) +:+ c = a +:+ b +:+ c.
Proof. induction a as [|x a IH]; simpl; [reflexivity | f_equal; exact IH]. Qed.

Lemma app_empty_r (a : string) : a +:+ "" = a.
Proof. induction a as [|x a IH]; simpl; [reflexivity | f_equal; exact IH]. Qed.

Lemma length_app (a b : string) :
  String.length (a +:+ b) = (String.length a + String.length b)%nat.
Proof. induction a as [|x a IH]; simpl; [reflexivity | f_equal; exact IH]. Qed.

Lemma all_app p (a b : string) : Str.all p (a +:+ b) = Str.all p a && Str.all p b.
Proof.
  induction a as [|x a IH]; simpl; [reflexivity|].
  rewrite IH, andb_assoc. reflexivity.
Qed.

(** The value of a run of digits read after the value [a]. *)
Lemma digits_value_app s1 s2 a :
  Datetime.digits_value (s1 +:+ s2) a = Datetime.digits_value s2 (Datetime.digits_value s1 a).
Proof. revert a. induction s1 as [|c s1 IH]; intros a; simpl; [reflexivity | apply IH]. Qed.

Lemma digit_char_value d : 0 <= d < 10 -> Char.digit_value (digit_char d) = d.
Proof.
  intros H. assert (E : d = 0 \/ d = 1 \/ d = 2 \/ d = 3 \/ d = 4 \/ d = 5 \/ d = 6 \/ d = 7
                        \/ d = 8 \/ d = 9) by lia.
  repeat (destruct E as [-> | E]; [reflexivity|]). subst d. reflexivity.
Qed.

Lemma digit_char_isdigit d : 0 <= d < 10 -> Float.c_isdigit (digit_char d) = true.
Proof.
  intros H. assert (E : d = 0 \/ d = 1 \/ d = 2 \/ d = 3 \/ d = 4 \/ d = 5 \/ d = 6 \/ d = 7
                        \/ d = 8 \/ d = 9) by lia.
  repeat (destruct E as [-> | E]; [reflexivity|]). subst d. reflexivity.
Qed.

(** What a text of digits is: its characters, its value, its first
    character. *)
Record digit_text (dz : string) (z : Z) : Prop := {
  dt_digits : Str.all Float.c_isdigit dz = true;
  dt_nonempty : dz <> "";
  dt_value : forall a, Datetime.digits_value dz a = a * 10 ^ Z.of_nat (String.length dz) + z;
  dt_head : 0 < z -> exists c rest, dz = String c rest /\ Char.between 49 57 c = true
}.

Lemma one_digit_text z : 0 <= z < 10 -> digit_text (String (digit_char z) "") z.
Proof.
  intros Hz. split.
  - simpl. rewrite digit_char_isdigit by lia. reflexivity.
  - discriminate.
  - intros a. cbn [Datetime.digits_value String.length].
    rewrite digit_char_value by lia. change (10 ^ Z.of_nat 1) with 10. lia.
  - intros Hpos. exists (digit_char z), "". split; [reflexivity|].
    assert (Ez : z = 1 \/ z = 2 \/ z = 3 \/ z = 4 \/ z = 5 \/ z = 6 \/ z = 7
                  \/ z = 8 \/ z = 9) by lia.
    repeat (destruct Ez as [-> | Ez]; [reflexivity|]). subst z. reflexivity.
Qed.

Lemma digits_acc_step f z acc :
  digits_acc (S f) z acc
  = if z <? 10 then String (digit_char (z mod 10)) acc
    else digits_acc f (z / 10) (String (digit_char (z mod 10)) acc).
Proof. reflexivity. Qed.

Lemma digits_acc_spec f z acc :
  0 <= z < 2 ^ Z.of_nat (S f) ->
  exists dz, digits_acc (S f) z acc = dz +:+ acc /\ digit_text dz z.
Proof.
  revert z acc. induction f as [|f IH]; intros z acc Hz;
    rewrite digits_acc_step; destruct (z <? 10) eqn:E10.
  1, 3: apply Z.ltb_lt in E10; exists (String (digit_char (z mod 10)) "");
        rewrite Z.mod_small by lia; split; [reflexivity | apply one_digit_text; lia].
  - apply Z.ltb_ge in E10. change (2 ^ Z.of_nat 1) with 2 in Hz. lia.
  - apply Z.ltb_ge in E10.
    assert (Hq : 0 <= z / 10 < 2 ^ Z.of_nat (S f)).
    { split; [apply Z.div_pos; lia|].
      apply Z.div_lt_upper_bound; [lia|].
      rewrite (Nat2Z.inj_succ (S f)), Z.pow_succ_r in Hz by lia. lia. }
    destruct (IH (z / 10) (String (digit_char (z mod 10)) acc) Hq) as (dz & Hdz & Hspec).
    exists (dz +:+ String (digit_char (z mod 10)) ""). split.
    + rewrite Hdz, app_assoc. reflexivity.
    + pose proof (Z.mod_pos_bound z 10 ltac:(lia)) as Hm.
      destruct Hspec as [Hd Hne Hv Hh]. split.
      * rewrite all_app, Hd. simpl. rewrite digit_char_isdigit by lia. reflexivity.
      * destruct dz; [congruence | discriminate].
      * intros a. rewrite digits_value_app, Hv. cbn [Datetime.digits_value].
        rewrite digit_char_value by lia. rewrite length_app. cbn [String.length].
        rewrite Nat2Z.inj_add, Z.pow_add_r by lia. change (10 ^ Z.of_nat 1) with 10.
        pose proof (Z.div_mod z 10 ltac:(lia)). lia.
      * intros _. destruct (Hh ltac:(apply Z.div_str_pos; lia)) as (c & rest & -> & Hc).
        exists c, (rest +:+ String (digit_char (z mod 10)) ""). split; [reflexivity | exact Hc].
Qed.

Lemma digits_spec z : 0 <= z -> digit_text (digits z) z.
Proof.
  intros Hz. unfold digits.
  destruct (digits_acc_spec (Z.to_nat (Z.log2 z)) z "") as (dz & Hdz & Hspec).
  - split; [exact Hz|].
    rewrite Nat2Z.inj_succ, Z2Nat.id by apply Z.log2_nonneg.
    destruct (Z.eq_dec z 0) as [->|Hnz]; [reflexivity|].
    apply Z.log2_spec. lia.
  - rewrite Hdz, app_empty_r. exact Hspec.
Qed.

(** *** Reading plain decimal texts *)

Ltac by_cases_on_char c :=
  destruct c as [[] [] [] [] [] [] [] []]; vm_compute; try reflexivity; try discriminate.

Definition stops (rest : string) : Prop :=
  match rest with
  | EmptyString => True
  | String c _ => Float.c_isdigit c = false
  end.

Lemma span_digits_app ds rest :
  Str.all Float.c_isdigit ds = true -> stops rest ->
  Float.span_digits (ds +:+ rest) = (ds, rest).
Proof.
  intros Hd Hr. induction ds as [|c ds IH]; cbn [String.append Float.span_digits Str.all] in *.
  - destruct rest as [|c rest]; [reflexivity|]. cbn [stops Float.span_digits] in *.
    rewrite Hr. reflexivity.
  - apply andb_true_iff in Hd as [Hc Hd]. rewrite Hc, (IH Hd). reflexivity.
Qed.

Lemma span_digits_all ds :
  Str.all Float.c_isdigit ds = true -> Float.span_digits ds = (ds, "").
Proof.
  intros Hd. rewrite <- (app_empty_r ds) at 1. apply span_digits_app; [exact Hd | exact I].
Qed.

(** The characters of a float text. *)
Definition plain (c : ascii) : bool :=
  Float.c_isdigit c || Ascii.eqb c "." || Ascii.eqb c "e" || Ascii.eqb c "+" || Ascii.eqb c "-".

Lemma plain_ascii c : plain c = true -> (Char.code c <? 128)%N = true.
Proof. by_cases_on_char c. Qed.

Lemma plain_not_underscore c : plain c = true -> negb (Ascii.eqb c "_") = true.
Proof. by_cases_on_char c. Qed.

Lemma plain_not_space c : plain c = true -> negb (Float.c_isspace c) = true.
Proof. by_cases_on_char c. Qed.

Lemma digit_plain c : Float.c_isdigit c = true -> plain c = true.
Proof. unfold plain. intros ->. reflexivity. Qed.

Lemma all_mono (p q : ascii -> bool) s :
  (forall c, p c = true -> q c = true) -> Str.all p s = true -> Str.all q s = true.
Proof.
  intros Hpq. induction s as [|c s IH]; simpl; [reflexivity|].
  rewrite !andb_true_iff. intros [Hp Hps]. auto.
Qed.

Lemma lstrip_of_none p s : Str.all (fun c => negb (p c)) s = true -> Str.lstrip_of p s = s.
Proof.
  destruct s as [|c s]; simpl; [reflexivity|].
  intros H. apply andb_true_iff in H as [Hc _]. apply negb_true_iff in Hc.
  rewrite Hc. reflexivity.
Qed.

Lemma rstrip_of_none p s : Str.all (fun c => negb (p c)) s = true -> Str.rstrip_of p s = s.
Proof.
  induction s as [|c s IH]; simpl; [reflexivity|].
  intros H. apply andb_true_iff in H as [Hc Hs]. apply negb_true_iff in Hc.
  rewrite (IH Hs), Hc, andb_false_r. reflexivity.
Qed.

(** [float] finds nothing to prepare in a plain text. *)
Lemma of_str_plain s :
  Str.all plain s = true ->
  Float.of_str s =
    let '(neg, body) := Float.split_sign s in
    match Float.parse_decimal neg body with
    | Some x => Ok x
    | None =>
        match Float.parse_inf_or_nan neg body with
        | Some x => Ok x
        | None => Raise (Float.could_not_convert s)
        end
    end.
Proof.
  intros H. unfold Float.of_str, Float.to_ascii, Float.without_underscores, Str.strip_of.
  rewrite (all_mono _ _ _ plain_ascii H).
  rewrite (all_mono _ _ _ plain_not_underscore H).
  rewrite (lstrip_of_none _ _ (all_mono _ _ _ plain_not_space H)).
  rewrite (rstrip_of_none _ _ (all_mono _ _ _ plain_not_space H)).
  reflexivity.
Qed.

Definition sign_text (neg : bool) : string := if neg then "-" else "".

Lemma split_sign_text neg body :
  (exists c rest, body = String c rest /\ Float.c_isdigit c = true) ->
  Float.split_sign (sign_text neg +:+ body) = (neg, body).
Proof.
  intros (c & rest & -> & Hc). destruct neg; [reflexivity|].
  simpl. revert Hc. by_cases_on_char c.
Qed.

Definition exp_mark (c : ascii) : bool := Ascii.eqb c "e" || Ascii.eqb c "E".

(** Digits, a point, digits. *)
Lemma parse_point neg ip fp :
  Str.all Float.c_isdigit ip = true -> Str.all Float.c_isdigit fp = true ->
  ip <> "" \/ fp <> "" ->
  Float.parse_decimal neg (ip +:+ "." +:+ fp)
  = Some (Float.of_decimal neg (Float.digits_value (ip +:+ fp)) (- Z.of_nat (String.length fp))).
Proof.
  intros Hi Hf Hne. unfold Float.parse_decimal.
  rewrite (span_digits_app ip ("." +:+ fp) Hi) by reflexivity.
  change ("." +:+ fp) with (String "." fp). cbv iota beta.
  rewrite (span_digits_all fp Hf).
  destruct (Str.is_empty ip && Str.is_empty fp) eqn:E; [|reflexivity].
  apply andb_true_iff in E as [E1 E2].
  destruct ip, fp; try discriminate. destruct Hne; congruence.
Qed.

(** A sign and digits after the exponent mark. *)
Definition signed (eneg : bool) (x : Z) : Z := if eneg then - x else x.

Lemma split_sign_exponent (eneg : bool) ed :
  (exists c rest, ed = String c rest /\ Float.c_isdigit c = true) ->
  Float.split_sign (exp_sign eneg +:+ ed) = (eneg, ed).
Proof. intros _. destruct eneg; reflexivity. Qed.

Lemma digit_head ds :
  Str.all Float.c_isdigit ds = true -> ds <> "" ->
  exists c rest, ds = String c rest /\ Float.c_isdigit c = true.
Proof.
  destruct ds as [|c ds]; [congruence|]. cbn [Str.all]. intros H _.
  apply andb_true_iff in H as [Hc _]. eauto.
Qed.

Lemma parse_exponent neg ip fp (eneg : bool) ed :
  Str.all Float.c_isdigit ip = true -> Str.all Float.c_isdigit fp = true ->
  Str.all Float.c_isdigit ed = true -> ip <> "" -> ed <> "" ->
  Float.parse_decimal neg
    (ip +:+ fraction_text fp +:+ "e" +:+ exp_sign eneg +:+ ed)
  = Some (Float.of_decimal neg (Float.digits_value (ip +:+ fp))
            (signed eneg (Float.digits_value ed) - Z.of_nat (String.length fp))).
Proof.
  intros Hi Hf He Hine Hene.
  pose proof (split_sign_exponent eneg ed (digit_head ed He Hene)) as Hsign.
  set (tail := exp_sign eneg +:+ ed) in *.
  assert (Hip : Str.is_empty ip = false) by (destruct ip; [congruence | reflexivity]).
  assert (Hed : Str.is_empty ed = false) by (destruct ed; [congruence | reflexivity]).
  unfold Float.parse_decimal, fraction_text.
  destruct fp as [|c fp].
  - cbn [Str.is_empty].
    assert (Htext : ip +:+ EmptyString +:+ String "e" EmptyString +:+ tail = ip +:+ String "e" tail)
      by reflexivity.
    rewrite Htext, (span_digits_app ip _ Hi) by reflexivity.
    cbv iota beta. cbn [Str.is_empty]. rewrite Hip. cbn [andb].
    assert (Hmark : Ascii.eqb "e" "e" || Ascii.eqb "e" "E" = true) by reflexivity.
    rewrite Hmark, Hsign, (span_digits_all ed He), Hed. cbn [orb negb Str.is_empty].
    rewrite app_empty_r. cbn [String.length Z.of_nat]. rewrite Z.sub_0_r, Z.add_0_r.
    reflexivity.
  - cbn [Str.is_empty].
    assert (Htext : ip +:+ (String "." EmptyString +:+ String c fp)
                       +:+ String "e" EmptyString +:+ tail
                    = ip +:+ String "." (String c fp +:+ String "e" tail)) by reflexivity.
    rewrite Htext, (span_digits_app ip _ Hi) by reflexivity.
    cbv iota beta.
    rewrite (span_digits_app (String c fp) _ Hf) by reflexivity.
    cbn [Str.is_empty]. rewrite andb_false_r.
    assert (Hmark : Ascii.eqb "e" "e" || Ascii.eqb "e" "E" = true) by reflexivity.
    rewrite Hmark, Hsign, (span_digits_all ed He), Hed. cbn [orb negb Str.is_empty].
    reflexivity.
Qed.

(** *** The text of a float is read back as written *)

Lemma take_drop k s : take k s +:+ drop k s = s.
Proof.
  revert s. induction k as [|k IH]; intros s; [reflexivity|].
  destruct s as [|c s]; [reflexivity|]. cbn [take drop String.append]. rewrite IH. reflexivity.
Qed.

Lemma length_drop k s : String.length (drop k s) = (String.length s - k)%nat.
Proof.
  revert s. induction k as [|k IH]; intros s; [simpl; lia|].
  destruct s as [|c s]; [reflexivity|]. cbn [drop String.length]. rewrite IH. lia.
Qed.

Lemma all_take p k s : Str.all p s = true -> Str.all p (take k s) = true.
Proof.
  revert s. induction k as [|k IH]; intros s H; [reflexivity|].
  destruct s as [|c s]; [reflexivity|]. cbn [take Str.all] in *.
  apply andb_true_iff in H as [Hc Hs]. rewrite Hc, (IH _ Hs). reflexivity.
Qed.

Lemma all_drop p k s : Str.all p s = true -> Str.all p (drop k s) = true.
Proof.
  revert s. induction k as [|k IH]; intros s H; [exact H|].
  destruct s as [|c s]; [reflexivity|]. cbn [drop Str.all] in *.
  apply andb_true_iff in H as [_ Hs]. exact (IH _ Hs).
Qed.

Lemma all_zeros k : Str.all Float.c_isdigit (zeros k) = true.
Proof. induction k as [|k IH]; [reflexivity|]. cbn [zeros Str.all]. rewrite IH. reflexivity. Qed.

Lemma length_zeros k : String.length (zeros k) = k.
Proof. induction k as [|k IH]; [reflexivity|]. cbn [zeros String.length]. rewrite IH. reflexivity. Qed.

Lemma value_zeros k a : Datetime.digits_value (zeros k) a = a * 10 ^ Z.of_nat k.
Proof.
  revert a. induction k as [|k IH]; intros a.
  - simpl. lia.
  - cbn [zeros Datetime.digits_value]. rewrite IH, Nat2Z.inj_succ, Z.pow_succ_r by lia.
    change (Char.digit_value "0") with 0. ring.
Qed.

Lemma take_head k c s : take (S k) (String c s) = String c (take k s).
Proof. reflexivity. Qed.

(** The exponent text: a sign and the digits of the magnitude. *)
Lemma exponent_text_spec x :
  exists ed, exponent_text x = exp_sign (x <? 0) +:+ ed
    /\ Str.all Float.c_isdigit ed = true /\ ed <> ""
    /\ signed (x <? 0) (Float.digits_value ed) = x.
Proof.
  destruct (digits_spec (Z.abs x) (Z.abs_nonneg x)) as [Hd Hne Hv _].
  unfold exponent_text.
  exists (if Z.abs x <? 10 then "0" +:+ digits (Z.abs x) else digits (Z.abs x)).
  split; [reflexivity|].
  assert (Hval : Float.digits_value
                   (if Z.abs x <? 10 then "0" +:+ digits (Z.abs x) else digits (Z.abs x))
                 = Z.abs x).
  { unfold Float.digits_value. destruct (Z.abs x <? 10).
    - change ("0" +:+ digits (Z.abs x)) with (String "0" (digits (Z.abs x))).
      cbn [Datetime.digits_value]. change (10 * 0 + Char.digit_value "0") with 0.
      rewrite Hv. lia.
    - rewrite Hv. lia. }
  split; [|split].
  - destruct (Z.abs x <? 10); [|exact Hd].
    change ("0" +:+ digits (Z.abs x)) with (String "0" (digits (Z.abs x))).
    cbn [Str.all]. rewrite Hd. reflexivity.
  - destruct (Z.abs x <? 10); [discriminate | exact Hne].
  - rewrite Hval. unfold signed. destruct (x <? 0) eqn:E.
    + apply Z.ltb_lt in E. lia.
    + apply Z.ltb_ge in E. lia.
Qed.

(** The mantissa and decimal exponent [float] computes from the text of
    [D * 10^E]: the text itself, except that an integer is written with
    a final [.0]. *)
Definition read_as (D E : Z) : Z * Z :=
  let n := Z.of_nat (String.length (digits D)) in
  let decpt := n + E in
  if (decpt <=? -4) || (16 <? decpt) then (D, E)
  else if decpt <=? 0 then (D, E)
  else if n <=? decpt then (D * 10 ^ (E + 1), -1)
  else (D, E).

Lemma of_str_body neg body x :
  Str.all plain body = true ->
  (exists c rest, body = String c rest /\ Float.c_isdigit c = true) ->
  Float.parse_decimal neg body = Some x ->
  Float.of_str (sign_text neg +:+ body) = Ok x.
Proof.
  intros Hplain Hhead Hparse.
  rewrite of_str_plain.
  - rewrite (split_sign_text neg body Hhead), Hparse. reflexivity.
  - rewrite all_app, Hplain. destruct neg; reflexivity.
Qed.

Lemma digits_plain ds : Str.all Float.c_isdigit ds = true -> Str.all plain ds = true.
Proof. apply all_mono, digit_plain. Qed.

Lemma head_of_take k ds :
  (0 < k)%nat -> (exists c rest, ds = String c rest /\ Float.c_isdigit c = true) ->
  exists c rest, take k ds = String c rest /\ Float.c_isdigit c = true.
Proof.
  intros Hk (c & rest & -> & Hc). destruct k as [|k]; [lia|].
  exists c, (take k rest). split; [reflexivity | exact Hc].
Qed.

Lemma head_of_app a b :
  (exists c rest, a = String c rest /\ Float.c_isdigit c = true) ->
  exists c rest, a +:+ b = String c rest /\ Float.c_isdigit c = true.
Proof. intros (c & rest & -> & Hc). exists c, (rest +:+ b). split; [reflexivity | exact Hc]. Qed.

Lemma is_empty_drop k s : Str.is_empty (drop k s) = (String.length s <=? k)%nat.
Proof.
  revert s. induction k as [|k IH]; intros s.
  - destruct s; reflexivity.
  - destruct s as [|c s]; [reflexivity|]. cbn [drop String.length]. rewrite IH. reflexivity.
Qed.

Theorem of_str_format neg D E :
  0 < D ->
  Float.of_str (format neg D E)
  = Ok (Float.of_decimal neg (fst (read_as D E)) (snd (read_as D E))).
Proof.
  intros HD.
  destruct (digits_spec D ltac:(lia)) as [Hd Hne Hv Hh].
  pose proof (digit_head _ Hd Hne) as Hhead.
  unfold format, read_as.
  set (ds := digits D) in *. set (n := Z.of_nat (String.length ds)).
  assert (Hn : 0 < n).
  { subst n. destruct ds; [congruence|]. cbn [String.length]. lia. }
  assert (HvD : Datetime.digits_value ds 0 = D) by (rewrite Hv; lia).
  change (if neg then "-" else "")%string with (sign_text neg).
  destruct ((n + E <=? -4) || (16 <? n + E)) eqn:Eexp; [|destruct (n + E <=? 0) eqn:E0;
    [|destruct (n <=? n + E) eqn:En]]; cbn [fst snd].
  - (* exponent form *)
    destruct (exponent_text_spec (n + E - 1)) as (ed & -> & Hed & Hedne & Hedv).
    apply of_str_body.
    + rewrite !all_app, (digits_plain _ (all_take _ 1 _ Hd)), (digits_plain _ Hed).
      unfold fraction_text.
      destruct (Str.is_empty (drop 1 ds)); [|rewrite all_app, (digits_plain _ (all_drop _ 1 _ Hd))];
        destruct (n + E - 1 <? 0); reflexivity.
    + apply head_of_app, head_of_take; [lia | exact Hhead].
    + rewrite parse_exponent; try assumption.
      * rewrite take_drop, Hedv, length_drop. unfold Float.digits_value. rewrite HvD.
        do 2 f_equal. subst n. lia.
      * apply all_take, Hd.
      * apply all_drop, Hd.
      * destruct Hhead as (c & rest & Hds & _). rewrite Hds. discriminate.
  - (* a fraction below one *)
    apply Z.leb_le in E0.
    change ("0." +:+ zeros (Z.to_nat (- (n + E))) +:+ ds)
      with ("0" +:+ "." +:+ (zeros (Z.to_nat (- (n + E))) +:+ ds)).
    apply of_str_body.
    + change ("0" +:+ "." +:+ ?x) with (String "0" (String "." x)).
      cbn [Str.all].
      rewrite all_app, (digits_plain _ (all_zeros _)), (digits_plain _ Hd). reflexivity.
    + exists "0"%char, ("." +:+ zeros (Z.to_nat (- (n + E))) +:+ ds). split; reflexivity.
    + rewrite parse_point.
      * unfold Float.digits_value.
        change ("0" +:+ ?x) with (String "0" x). cbn [Datetime.digits_value].
        rewrite digits_value_app, value_zeros. change (10 * 0 + Char.digit_value "0") with 0.
        rewrite Z.mul_0_l, HvD, length_app, length_zeros.
        do 2 f_equal. subst n. lia.
      * reflexivity.
      * rewrite all_app, all_zeros, Hd. reflexivity.
      * left. discriminate.
  - (* an integer *)
    apply Z.leb_le in En. apply Z.leb_gt in E0.
    assert (Htext : ds +:+ zeros (Z.to_nat (n + E - n)) +:+ ".0"
                    = (ds +:+ zeros (Z.to_nat (n + E - n))) +:+ "." +:+ "0")
      by (rewrite app_assoc; reflexivity).
    rewrite Htext.
    apply of_str_body.
    + rewrite !all_app, (digits_plain _ Hd), (digits_plain _ (all_zeros _)). reflexivity.
    + apply head_of_app, head_of_app, Hhead.
    + rewrite parse_point.
      * unfold Float.digits_value.
        rewrite !digits_value_app, value_zeros, HvD.
        cbn [Datetime.digits_value String.length]. change (Char.digit_value "0") with 0.
        rewrite Z2Nat.id by lia.
        replace (n + E - n) with E by lia. rewrite Z.pow_add_r by lia.
        f_equal. f_equal. ring.
      * rewrite all_app, Hd, all_zeros. reflexivity.
      * reflexivity.
      * right. discriminate.
  - (* digits on both sides of the point *)
    apply Z.leb_gt in En. apply Z.leb_gt in E0.
    apply of_str_body.
    + rewrite !all_app, (digits_plain _ (all_take _ _ _ Hd)), (digits_plain _ (all_drop _ _ _ Hd)).
      reflexivity.
    + apply head_of_app, head_of_take; [lia | exact Hhead].
    + rewrite parse_point.
      * rewrite take_drop, length_drop. unfold Float.digits_value. rewrite HvD.
        do 2 f_equal. subst n. lia.
      * apply all_take, Hd.
      * apply all_drop, Hd.
      * left. destruct (head_of_take (Z.to_nat (n + E)) ds ltac:(lia) Hhead) as (c & rest & -> & _).
        discriminate.
Qed.

End TextFacts.

(** *** [float(repr(x))] is [x] *)

Module ReprFacts.
Import FloatRepr RoundFacts TextFacts.
Local Open Scope Z_scope.

Lemma round_sign neg M e :
  0 <= M -> Float.round neg M e = with_sign neg (Float.round false M e).
Proof.
  intros HM. unfold Float.round, binary_normalize.
  destruct M as [|p|p]; try lia.
  - destruct neg; reflexivity.
  - destruct neg; cbn [Z.opp]; apply binary_round_sign.
Qed.

Lemma round_shift M j :
  0 < M -> 0 <= j -> Float.round false (M * 2 ^ j) (- j) = Float.round false M 0.
Proof.
  intros HM Hj. unfold Float.round.
  exact (binary_normalize_shift Float.prec Float.emax M 0 j false HM Hj).
Qed.

(** The quotient of [N * d] by [d] rounds as [N]. *)
Lemma round_ratio_exact neg N d :
  0 < N -> 0 < d -> Float.round_ratio neg (N * d) d = Float.round neg N 0.
Proof.
  intros HN Hd. unfold Float.round_ratio.
  set (k := Z.max 0 (56 + Z.log2_up d - Z.log2 (N * d))).
  assert (Hk : 0 <= k) by (subst k; lia).
  replace (N * d * 2 ^ k) with (N * 2 ^ k * d) by ring.
  rewrite Z.div_mul, Z.mod_mul by lia. cbn [Z.eqb].
  rewrite Z.add_0_r.
  assert (HP : 0 < N * 2 ^ k) by (apply Z.mul_pos_pos; [lia | apply Z.pow_pos_nonneg; lia]).
  rewrite (round_sign neg) by lia. rewrite (round_sign neg N) by lia. f_equal.
  replace (2 * (N * 2 ^ k)) with (N * 2 ^ (k + 1)) by (rewrite Z.pow_add_r by lia; ring).
  replace (- k - 1) with (- (k + 1)) by lia.
  apply round_shift; lia.
Qed.

Lemma of_decimal_sign neg D E :
  0 < D -> Float.of_decimal neg D E = with_sign neg (Float.of_decimal false D E).
Proof.
  intros HD. unfold Float.of_decimal.
  destruct (D =? 0) eqn:E0; [apply Z.eqb_eq in E0; lia|].
  destruct (0 <=? E) eqn:EE.
  - apply round_sign. apply Z.leb_le in EE.
    apply Z.mul_nonneg_nonneg; [lia | apply Z.pow_nonneg; lia].
  - apply Z.leb_gt in EE. unfold Float.round_ratio.
    set (d := 10 ^ (- E)). set (k := Z.max 0 _).
    assert (Hd : 0 < d) by (apply Z.pow_pos_nonneg; lia).
    assert (Hq : 0 <= D * 2 ^ k / d).
    { apply Z.div_pos; [|lia]. apply Z.mul_nonneg_nonneg; [lia | apply Z.pow_nonneg; lia]. }
    apply round_sign. destruct (D * 2 ^ k mod d =? 0); lia.
Qed.

(** An integer written with a final [.0] is read as the integer. *)
Lemma of_decimal_point_zero neg D E :
  0 < D -> 0 <= E ->
  Float.of_decimal neg (D * 10 ^ (E + 1)) (-1) = Float.of_decimal neg D E.
Proof.
  intros HD HE. unfold Float.of_decimal.
  assert (HN : 0 < D * 10 ^ E) by (apply Z.mul_pos_pos; [lia | apply Z.pow_pos_nonneg; lia]).
  assert (HN' : 0 < D * 10 ^ (E + 1)) by (apply Z.mul_pos_pos; [lia | apply Z.pow_pos_nonneg; lia]).
  destruct (D * 10 ^ (E + 1) =? 0) eqn:E1; [apply Z.eqb_eq in E1; lia|].
  destruct (D =? 0) eqn:E2; [apply Z.eqb_eq in E2; lia|].
  change (0 <=? -1) with false. cbv iota.
  replace (0 <=? E) with true by (symmetry; apply Z.leb_le; lia).
  change (10 ^ (- -1)) with 10.
  replace (D * 10 ^ (E + 1)) with (D * 10 ^ E * 10) by (rewrite Z.pow_add_r by lia; ring).
  apply round_ratio_exact; lia.
Qed.

Lemma read_as_same neg D E :
  0 < D ->
  Float.of_decimal neg (fst (read_as D E)) (snd (read_as D E)) = Float.of_decimal neg D E.
Proof.
  intros HD. unfold read_as.
  set (n := Z.of_nat (String.length (digits D))).
  destruct ((n + E <=? -4) || (16 <? n + E)); [reflexivity|].
  destruct (n + E <=? 0); [reflexivity|].
  destruct (n <=? n + E) eqn:En; [|reflexivity].
  apply Z.leb_le in En. cbn [fst snd]. apply of_decimal_point_zero; lia.
Qed.

(** The value written out in full is read back. *)
Lemma canonical_size m e : bounded Float.prec Float.emax m e = true -> Z.log2 (Zpos m) <= 52.
Proof.
  unfold bounded, canonical_mantissa, fexp, Float.prec. intros H.
  apply andb_true_iff in H as [Hc _]. apply Z.eqb_eq in Hc.
  pose proof (Zdigits2_log2 (Zpos m) ltac:(lia)) as Hl. cbn [Zdigits2] in Hl.
  lia.
Qed.

Lemma exact_reads_back m e :
  bounded Float.prec Float.emax m e = true ->
  Float.of_decimal false (fst (exact m e)) (snd (exact m e)) = S754_finite false m e.
Proof.
  intros Hb. pose proof (canonical_size m e Hb) as Hsize.
  assert (Hfin : Float.round false (Zpos m * 2 ^ 0) e = S754_finite false m e).
  { rewrite Z.mul_1_r. unfold Float.round, binary_normalize.
    apply binary_round_canonical, Hb. }
  unfold exact, Float.of_decimal. destruct (0 <=? e) eqn:Ee; cbn [fst snd].
  - apply Z.leb_le in Ee.
    assert (HP : 0 < Zpos m * 2 ^ e) by (apply Z.mul_pos_pos; [lia | apply Z.pow_pos_nonneg; lia]).
    destruct (Zpos m * 2 ^ e =? 0) eqn:E0; [apply Z.eqb_eq in E0; lia|].
    change (0 <=? 0) with true. cbv iota. rewrite Z.mul_1_r.
    rewrite <- Hfin, Z.mul_1_r. unfold Float.round.
    replace 0 with (e - e) at 1 by lia.
    apply binary_normalize_shift; lia.
  - apply Z.leb_gt in Ee. set (a := - e). assert (Ha : 0 < a) by (subst a; lia).
    assert (H5 : 0 < 5 ^ a) by (apply Z.pow_pos_nonneg; lia).
    assert (HP : 0 < Zpos m * 5 ^ a) by (apply Z.mul_pos_pos; lia).
    destruct (Zpos m * 5 ^ a =? 0) eqn:E0; [apply Z.eqb_eq in E0; lia|].
    replace (0 <=? e) with false by (symmetry; apply Z.leb_gt; lia).
    unfold Float.round_ratio.
    set (k := Z.max 0 (56 + Z.log2_up (10 ^ a) - Z.log2 (Zpos m * 5 ^ a))).
    assert (H10 : 10 ^ a = 5 ^ a * 2 ^ a) by (rewrite <- Z.pow_mul_l; reflexivity).
    assert (Hk : a <= k).
    { subst k.
      pose proof (Z.log2_mul_above (Zpos m) (5 ^ a) ltac:(lia) ltac:(lia)) as Hm.
      pose proof (Z.le_log2_log2_up (10 ^ a)) as Hup.
      rewrite H10 in Hup at 1. rewrite Z.log2_mul_pow2 in Hup by lia. lia. }
    replace (Zpos m * 5 ^ a * 2 ^ k) with (Zpos m * 2 ^ (k - a) * 10 ^ a).
    2:{ rewrite H10. replace k with ((k - a) + a) at 2 by lia.
        rewrite Z.pow_add_r by lia. ring. }
    assert (H10p : 0 < 10 ^ a) by (apply Z.pow_pos_nonneg; lia).
    rewrite Z.div_mul, Z.mod_mul by lia. cbn [Z.eqb]. rewrite Z.add_0_r.
    rewrite <- Hfin, Z.mul_1_r. unfold Float.round.
    replace (2 * (Zpos m * 2 ^ (k - a))) with (Zpos m * 2 ^ (k - a + 1))
      by (rewrite Z.pow_add_r by lia; ring).
    replace (- k - 1) with (e - (k - a + 1)) by lia.
    apply binary_normalize_shift; lia.
Qed.

Lemma sf_eqb_eq x y : sf_eqb x y = true -> x = y.
Proof.
  destruct x as [a|a| |a m e], y as [b|b| |b m' e']; cbn [sf_eqb]; try discriminate.
  - intros H. apply Bool.eqb_prop in H. congruence.
  - intros H. apply Bool.eqb_prop in H. congruence.
  - reflexivity.
  - intros H. apply andb_true_iff in H as [H He]. apply andb_true_iff in H as [Hs Hm].
    apply Bool.eqb_prop in Hs. apply Pos.eqb_eq in Hm. apply Z.eqb_eq in He. congruence.
Qed.

Lemma strip_zeros_nonneg fuel D E : 0 <= D -> 0 <= fst (strip_zeros fuel D E).
Proof.
  revert D E. induction fuel as [|f IH]; intros D E HD; [exact HD|].
  cbn [strip_zeros]. destruct ((D mod 10 =? 0) && negb (D =? 0)); [|exact HD].
  apply IH, Z.div_pos; lia.
Qed.

Lemma scaled_positive m e E :
  0 <= fst (scaled (ratio m e) E) /\ 0 < snd (scaled (ratio m e) E).
Proof.
  assert (Hp : forall b x, 0 < b -> 0 < b ^ Z.max 0 x) by (intros; apply Z.pow_pos_nonneg; lia).
  unfold ratio, scaled.
  destruct (0 <=? e) eqn:Ee; destruct (0 <=? E) eqn:EE; cbn [fst snd];
    try apply Z.leb_le in Ee; try apply Z.leb_le in EE;
    try apply Z.leb_gt in Ee; try apply Z.leb_gt in EE;
    split; repeat first [apply Z.mul_pos_pos | apply Z.mul_nonneg_nonneg
                        | apply Z.pow_pos_nonneg | apply Z.pow_nonneg | lia].
Qed.

(** Whatever the search settles on is a positive mantissa that reads
    back as the value. *)
Definition settled (m : positive) (e : Z) (c : Z * Z) : Prop :=
  0 <= fst c /\ Float.of_decimal false (fst c) (snd c) = S754_finite false m e.

Lemma candidate_settled m e decpt n c :
  candidate m e (ratio m e) decpt n = Some c -> settled m e c.
Proof.
  unfold candidate.
  pose proof (scaled_positive m e (decpt - n)) as [HA HB].
  destruct (scaled (ratio m e) (decpt - n)) as [A B]. cbn [fst snd] in HA, HB.
  assert (Hq : 0 <= A / B) by (apply Z.div_pos; lia).
  set (lo := normal (A / B) (decpt - n)). set (hi := normal (A / B + 1) (decpt - n)).
  assert (Hlo : 0 <= fst lo) by (apply strip_zeros_nonneg; lia).
  assert (Hhi : 0 <= fst hi) by (apply strip_zeros_nonneg; lia).
  unfold reads_back.
  destruct (sf_eqb (Float.of_decimal false (fst lo) (snd lo)) _) eqn:El;
    destruct (sf_eqb (Float.of_decimal false (fst hi) (snd hi)) _) eqn:Eh;
    cbn [andb]; try discriminate.
  - destruct ((B <? 2 * (A mod B)) || _); intros [= <-]; split; auto using sf_eqb_eq.
  - intros [= <-]. split; auto using sf_eqb_eq.
  - intros [= <-]. split; auto using sf_eqb_eq.
Qed.

Lemma exact_settled m e :
  bounded Float.prec Float.emax m e = true -> settled m e (exact m e).
Proof.
  intros Hb. split; [|apply exact_reads_back, Hb].
  unfold exact. destruct (0 <=? e); cbn [fst];
    apply Z.mul_nonneg_nonneg; try apply Z.pow_nonneg; lia.
Qed.

Lemma search_settled fuel m e decpt n :
  bounded Float.prec Float.emax m e = true ->
  settled m e (search fuel m e (ratio m e) decpt n).
Proof.
  intros Hb. revert n. induction fuel as [|f IH]; intros n; cbn [search].
  - apply exact_settled, Hb.
  - destruct (candidate m e (ratio m e) decpt n) as [c|] eqn:Ec.
    + exact (candidate_settled _ _ _ _ _ Ec).
    + apply IH.
Qed.

Lemma settled_positive m e c : settled m e c -> 0 < fst c.
Proof.
  intros [Hn Hr]. destruct (Z.eq_dec (fst c) 0) as [E0|]; [|lia].
  rewrite E0 in Hr. discriminate Hr.
Qed.

(** [float(repr(x)) == x], bit for bit, for every binary64 value. *)
Theorem repr_reads_back x :
  valid_binary Float.prec Float.emax x = true -> Float.of_str (repr x) = Ok x.
Proof.
  destruct x as [s|s| |s m e]; cbn [valid_binary repr].
  - intros _. destruct s; vm_compute; reflexivity.
  - intros _. destruct s; vm_compute; reflexivity.
  - intros _. vm_compute. reflexivity.
  - intros Hb. unfold shortest.
    pose proof (search_settled 17 m e (decpt_of (ratio m e)) 1 Hb) as Hs.
    destruct (search 17 m e (ratio m e) (decpt_of (ratio m e)) 1) as [D E].
    pose proof (settled_positive _ _ _ Hs) as HD. destruct Hs as [_ Hr]. cbn [fst snd] in *.
    rewrite of_str_format, read_as_same, of_decimal_sign, Hr by exact HD. reflexivity.
Qed.

End ReprFacts.

(** *** The JSON scanner on the encoder's output *)

Module JsonFacts.
Import Json TextFacts.
#[local] Arguments String.append !s1 s2 : simpl nomatch.

(** *** Strings *)

Lemma scan_escape_char c tail :
  scanstring (escape_char c +:+ tail) = prepend c (scanstring tail).
Proof. destruct c as [[] [] [] [] [] [] [] []]; reflexivity. Qed.

Lemma scanstring_escape s rest :
  scanstring (escape s +:+ String dq rest) = Ok (s, rest).
Proof.
  induction s as [|c s IH]; [reflexivity|].
  cbn [escape]. rewrite app_assoc, scan_escape_char, IH. reflexivity.
Qed.

Lemma encode_string_app s tail :
  encode_string s +:+ tail = String dq (escape s +:+ String dq tail).
Proof. unfold encode_string. cbn [String.append]. rewrite app_assoc. reflexivity. Qed.

(** *** Whitespace *)

Lemma skip_ws_spaces n t : skip_ws (spaces n +:+ t) = skip_ws t.
Proof. induction n as [|n IH]; [reflexivity | exact IH]. Qed.

Lemma skip_ws_newline_indent i l t :
  skip_ws (newline_indent i l +:+ t) = skip_ws t.
Proof.
  unfold newline_indent. rewrite app_assoc.
  change (skip_ws (newline +:+ ?x)) with (skip_ws x).
  apply skip_ws_spaces.
Qed.

Lemma skip_ws_none c t : is_ws c = false -> skip_ws (String c t) = String c t.
Proof. intros H. unfold skip_ws. cbn [Str.lstrip_of]. rewrite H. reflexivity. Qed.

(** *** Numbers *)

Definition digit_stop (rest : string) : Prop :=
  match rest with
  | EmptyString => True
  | String c _ => Char.isdecimal c = false
  end.

Lemma star_digits {A} ds rest (k : string -> string -> option A) a :
  Str.all Char.isdecimal ds = true -> digit_stop rest ->
  k ds rest = Some a -> star Char.isdecimal (ds +:+ rest) k = Some a.
Proof.
  revert k. induction ds as [|c ds IH]; intros k Hd Hr Hk.
  - cbn [String.append]. destruct rest as [|c rest]; [exact Hk|].
    cbn [star digit_stop] in *. rewrite Hr. exact Hk.
  - cbn [Str.all] in Hd. apply andb_true_iff in Hd as [Hc Hd].
    cbn [String.append star]. rewrite Hc.
    rewrite (IH (fun m r => k (String c m) r) Hd Hr Hk). reflexivity.
Qed.

Lemma run_digits {A} ds rest (k : string -> string -> option A) a :
  Str.all Char.isdecimal ds = true -> ds <> "" -> digit_stop rest ->
  k ds rest = Some a -> run digits (ds +:+ rest) k = Some a.
Proof.
  intros Hd Hne Hr Hk. destruct ds as [|c ds]; [congruence|].
  cbn [Str.all] in Hd. apply andb_true_iff in Hd as [Hc Hd].
  unfold digits, digit. cbn [run String.append]. rewrite Hc.
  apply star_digits; assumption.
Qed.

(** The parts of a number text. *)
Definition int_text (ip : string) : Prop :=
  ip = "0" \/ exists c r, ip = String c r /\ Char.between 49 57 c = true
                         /\ Str.all Char.isdecimal r = true.

Definition exp_text (ex : string) : Prop :=
  ex = "" \/ exists eneg ed, ex = String "e" (FloatRepr.exp_sign eneg +:+ ed)
                            /\ Str.all Char.isdecimal ed = true /\ ed <> "".

Definition number_stop (rest : string) : Prop :=
  match rest with
  | EmptyString => True
  | String c _ =>
      Char.isdecimal c || Ascii.eqb c "." || Ascii.eqb c "e" || Ascii.eqb c "E" = false
  end.

Lemma number_stop_digit rest : number_stop rest -> digit_stop rest.
Proof.
  destruct rest as [|c rest]; [auto|]. cbn [number_stop digit_stop].
  destruct (Char.isdecimal c); [discriminate | reflexivity].
Qed.

Lemma run_exp {A} ex rest (k : string -> string -> option A) a :
  exp_text ex -> number_stop rest ->
  k ex rest = Some a -> run re_exp (ex +:+ rest) k = Some a.
Proof.
  intros [-> | (eneg & ed & -> & Hd & Hne)] Hr Hk.
  - cbn [String.append]. unfold re_exp, opt. cbn [run].
    destruct rest as [|c rest]; [exact Hk|]. cbn [number_stop] in Hr.
    unfold chr. cbn [run].
    replace (Ascii.eqb "e" c) with false; [replace (Ascii.eqb "E" c) with false; [exact Hk|]|].
    + symmetry. rewrite Ascii.eqb_sym. destruct (Ascii.eqb c "E"); [|reflexivity].
      rewrite !orb_true_r in Hr. discriminate.
    + symmetry. rewrite Ascii.eqb_sym. destruct (Ascii.eqb c "e"); [|reflexivity].
      rewrite orb_true_r in Hr. discriminate.
  - unfold re_exp, opt. cbn [run String.append]. unfold chr at 1. cbn [run].
    change (Ascii.eqb "e" "e") with true. cbv iota.
    assert (Hrun : forall k', k' ed rest = Some a -> run digits (ed +:+ rest) k' = Some a).
    { intros k' Hk'. apply run_digits; auto using number_stop_digit. }
    destruct eneg; unfold FloatRepr.exp_sign; cbn [String.append run chr];
      unfold chr; cbn [run].
    + change (Ascii.eqb "-" "-") with true. cbv iota. rewrite Hrun; [reflexivity | exact Hk].
    + change (Ascii.eqb "-" "+") with false. change (Ascii.eqb "+" "+") with true. cbv iota.
      rewrite Hrun; [reflexivity | exact Hk].
Qed.

Definition frac_stop (rest : string) : Prop :=
  match rest with
  | EmptyString => True
  | String c _ => Char.isdecimal c || Ascii.eqb c "." = false
  end.

Lemma frac_stop_digit rest : frac_stop rest -> digit_stop rest.
Proof.
  destruct rest as [|c rest]; [auto|]. cbn [frac_stop digit_stop].
  destruct (Char.isdecimal c); [discriminate | reflexivity].
Qed.

Lemma run_frac {A} fp rest (k : string -> string -> option A) a :
  Str.all Char.isdecimal fp = true -> frac_stop rest ->
  k (FloatRepr.fraction_text fp) rest = Some a ->
  run re_frac (FloatRepr.fraction_text fp +:+ rest) k = Some a.
Proof.
  intros Hd Hr Hk. unfold re_frac, opt, FloatRepr.fraction_text in *.
  destruct fp as [|c fp]; cbn [Str.is_empty] in *.
  - cbn [String.append run]. unfold chr. cbn [run].
    destruct rest as [|c rest]; [exact Hk|]. cbn [frac_stop] in Hr.
    replace (Ascii.eqb "." c) with false; [exact Hk|].
    symmetry. rewrite Ascii.eqb_sym. destruct (Ascii.eqb c "."); [|reflexivity].
    rewrite orb_true_r in Hr. discriminate.
  - cbn [run String.append]. unfold chr. cbn [run].
    change (Ascii.eqb "." ".") with true. cbv iota.
    rewrite (run_digits (String c fp) rest _ a); auto using frac_stop_digit; discriminate.
Qed.

Lemma digit_not_minus c : Char.isdecimal c = true -> Ascii.eqb "-" c = false.
Proof. destruct c as [[] [] [] [] [] [] [] []]; vm_compute; congruence. Qed.

Lemma nonzero_not_zero c : Char.between 49 57 c = true -> Ascii.eqb "0" c = false.
Proof. destruct c as [[] [] [] [] [] [] [] []]; vm_compute; congruence. Qed.

Lemma nonzero_digit c : Char.between 49 57 c = true -> Char.isdecimal c = true.
Proof. destruct c as [[] [] [] [] [] [] [] []]; vm_compute; congruence. Qed.

Lemma run_seq {A} r1 r2 s (k : string -> string -> option A) :
  run (Seq r1 r2) s k = run r1 s (fun m1 s1 => run r2 s1 (fun m2 s2 => k (m1 +:+ m2) s2)).
Proof. reflexivity. Qed.

Lemma run_alt {A} r1 r2 s (k : string -> string -> option A) :
  run (Alt r1 r2) s k = match run r1 s k with Some a => Some a | None => run r2 s k end.
Proof. reflexivity. Qed.

Lemma run_chr {A} c c' t (k : string -> string -> option A) :
  run (chr c) (String c' t) k = if Ascii.eqb c c' then k (String c' "") t else None.
Proof. reflexivity. Qed.

Lemma run_eps {A} s (k : string -> string -> option A) : run Eps s k = k "" s.
Proof. reflexivity. Qed.

Lemma run_integer {A} neg ip rest (k : string -> string -> option A) a :
  int_text ip -> digit_stop rest ->
  k (sign_text neg +:+ ip) rest = Some a ->
  run re_integer ((sign_text neg +:+ ip) +:+ rest) k = Some a.
Proof.
  intros Hip Hr Hk.
  set (body := Alt (chr "0") (Seq (Cls (Char.between 49 57)) (Star Char.isdecimal))).
  assert (Hbody : forall k', k' ip rest = Some a -> run body (ip +:+ rest) k' = Some a).
  { intros k' Hk'. subst body. destruct Hip as [-> | (c & r & -> & Hc & Hd)].
    - cbn [String.append]. rewrite run_alt, run_chr.
      change (Ascii.eqb "0" "0") with true. cbv iota. rewrite Hk'. reflexivity.
    - cbn [String.append]. rewrite run_alt, run_chr, (nonzero_not_zero c Hc).
      rewrite run_seq. cbn [run]. rewrite Hc.
      apply star_digits; assumption. }
  assert (Hhead : exists c r, ip = String c r /\ Char.isdecimal c = true).
  { destruct Hip as [-> | (c & r & -> & Hc & _)]; [exists "0"%char, ""; auto|].
    exists c, r. auto using nonzero_digit. }
  change re_integer with (Seq (Alt (chr "-") Eps) body).
  rewrite run_seq, run_alt. destruct neg; cbn [sign_text String.append] in *.
  - rewrite run_chr. change (Ascii.eqb "-" "-") with true. cbv iota.
    rewrite Hbody; [reflexivity | exact Hk].
  - destruct Hhead as (c & r & -> & Hc). cbn [String.append].
    rewrite run_chr, (digit_not_minus c Hc), run_eps.
    apply Hbody. exact Hk.
Qed.

(** A number text is matched whole, group by group. *)
Lemma match_number_text neg ip fp ex rest :
  int_text ip -> Str.all Char.isdecimal fp = true -> exp_text ex -> number_stop rest ->
  (fp = "" -> ex <> "") ->
  match_number ((sign_text neg +:+ ip) +:+ FloatRepr.fraction_text fp +:+ ex +:+ rest)
  = Some (sign_text neg +:+ ip, FloatRepr.fraction_text fp, ex, rest).
Proof.
  intros Hip Hfp Hex Hr Hne. unfold match_number.
  assert (Hex_stop : frac_stop (ex +:+ rest)).
  { destruct Hex as [-> | (eneg & ed & -> & _)].
    - cbn [String.append]. destruct rest as [|c rest]; [exact I|].
      cbn [number_stop frac_stop] in *.
      destruct (Char.isdecimal c); [discriminate|]. destruct (Ascii.eqb c "."); [discriminate|].
      reflexivity.
    - reflexivity. }
  assert (Hfrac_stop : digit_stop (FloatRepr.fraction_text fp +:+ ex +:+ rest)).
  { unfold FloatRepr.fraction_text. destruct fp as [|c fp]; cbn [Str.is_empty String.append].
    - apply frac_stop_digit, Hex_stop.
    - reflexivity. }
  apply run_integer; [exact Hip | exact Hfrac_stop |].
  apply run_frac; [exact Hfp | exact Hex_stop |].
  apply run_exp; [exact Hex | exact Hr | reflexivity].
Qed.

(** The text of a float has the parts of a number text. *)
Definition number_text (t : string) : Prop :=
  exists neg ip fp ex,
    t = (sign_text neg +:+ ip) +:+ FloatRepr.fraction_text fp +:+ ex
    /\ int_text ip /\ Str.all Char.isdecimal fp = true /\ exp_text ex
    /\ (fp = "" -> ex <> "").

Lemma int_text_digits ds k :
  (exists c rest, ds = String c rest /\ Char.between 49 57 c = true) ->
  Str.all Char.isdecimal ds = true ->
  int_text (ds +:+ FloatRepr.zeros k).
Proof.
  intros (c & rest & -> & Hc) Hd. right. exists c, (rest +:+ FloatRepr.zeros k).
  cbn [Str.all] in Hd. apply andb_true_iff in Hd as [_ Hd].
  repeat split; [exact Hc|]. rewrite all_app, Hd. apply all_zeros.
Qed.

Lemma int_text_take ds k :
  (0 < k)%nat ->
  (exists c rest, ds = String c rest /\ Char.between 49 57 c = true) ->
  Str.all Char.isdecimal ds = true ->
  int_text (FloatRepr.take k ds).
Proof.
  intros Hk (c & rest & -> & Hc) Hd. destruct k as [|k]; [lia|]. right.
  exists c, (FloatRepr.take k rest).
  cbn [Str.all] in Hd. apply andb_true_iff in Hd as [_ Hd].
  repeat split; [exact Hc|]. apply all_take, Hd.
Qed.

Lemma format_number_text neg D E : (0 < D)%Z -> number_text (FloatRepr.format neg D E).
Proof.
  intros HD.
  destruct (digits_spec D ltac:(lia)) as [Hd Hne Hv Hh]. specialize (Hh HD).
  unfold FloatRepr.format.
  set (ds := FloatRepr.digits D) in *. set (n := Z.of_nat (String.length ds)).
  change (if neg then "-" else "")%string with (sign_text neg).
  destruct ((n + E <=? -4) || (16 <? n + E))%Z eqn:Eexp; [|destruct (n + E <=? 0)%Z eqn:E0;
    [|destruct (n <=? n + E)%Z eqn:En]].
  - destruct (exponent_text_spec (n + E - 1)) as (ed & -> & Hed & Hedne & _).
    exists neg, (FloatRepr.take 1 ds), (FloatRepr.drop 1 ds),
      (String "e" (FloatRepr.exp_sign (n + E - 1 <? 0)%Z +:+ ed)).
    split; [rewrite app_assoc; reflexivity|].
    split; [apply int_text_take; [lia | exact Hh | exact Hd]|].
    split; [apply all_drop, Hd|].
    split; [right; eauto|]. discriminate.
  - exists neg, "0", (FloatRepr.zeros (Z.to_nat (- (n + E))) +:+ ds), "".
    assert (Hfp : Str.is_empty (FloatRepr.zeros (Z.to_nat (- (n + E))) +:+ ds) = false).
    { destruct (FloatRepr.zeros _); [|reflexivity]. cbn [String.append].
      destruct ds; [congruence | reflexivity]. }
    split.
    { unfold FloatRepr.fraction_text. rewrite Hfp, app_empty_r, app_assoc. reflexivity. }
    split; [left; reflexivity|].
    split; [rewrite all_app; change Char.isdecimal with Float.c_isdigit; rewrite all_zeros, Hd; reflexivity|].
    split; [left; reflexivity|].
    intros H. rewrite H in Hfp. discriminate.
  - exists neg, (ds +:+ FloatRepr.zeros (Z.to_nat (n + E - n))), "0", "".
    split.
    { change (FloatRepr.fraction_text "0") with ".0". rewrite !app_assoc. reflexivity. }
    split; [apply int_text_digits; [exact Hh | exact Hd]|].
    split; [reflexivity|]. split; [left; reflexivity | discriminate].
  - apply Z.leb_gt in En. apply Z.leb_gt in E0.
    exists neg, (FloatRepr.take (Z.to_nat (n + E)) ds), (FloatRepr.drop (Z.to_nat (n + E)) ds), "".
    assert (Hfp : Str.is_empty (FloatRepr.drop (Z.to_nat (n + E)) ds) = false).
    { rewrite is_empty_drop. apply Nat.leb_gt. subst n. lia. }
    split.
    { unfold FloatRepr.fraction_text. rewrite Hfp, app_empty_r, app_assoc. reflexivity. }
    split; [apply int_text_take; [lia | exact Hh | exact Hd]|].
    split; [apply all_drop, Hd|].
    split; [left; reflexivity|].
    intros H. rewrite H in Hfp. discriminate.
Qed.

Lemma repr_number_text x :
  valid_binary Float.prec Float.emax x = true ->
  match x with S754_nan | S754_infinity _ => True | _ => number_text (FloatRepr.repr x) end.
Proof.
  destruct x as [s|s| |s m e]; try exact (fun _ => I).
  - intros _. exists s, "0", "0", "". destruct s; repeat split; try reflexivity;
      try (left; reflexivity); discriminate.
  - intros Hb. cbn [valid_binary FloatRepr.repr] in *. unfold FloatRepr.shortest.
    pose proof (ReprFacts.search_settled 17 m e (FloatRepr.decpt_of (FloatRepr.ratio m e)) 1 Hb) as Hs.
    destruct (FloatRepr.search _ _ _ _ _ _) as [D E].
    apply format_number_text. exact (ReprFacts.settled_positive _ _ _ Hs).
Qed.

Definition number_head (h : ascii) : bool := Char.isdecimal h || Ascii.eqb h "-".

Lemma number_head_other h :
  number_head h = true ->
  Ascii.eqb h dq = false /\ Ascii.eqb h "{" = false /\ Ascii.eqb h "[" = false
  /\ Ascii.eqb "n" h = false /\ Ascii.eqb "t" h = false /\ Ascii.eqb "f" h = false.
Proof. destruct h as [[] [] [] [] [] [] [] []]; vm_compute; intros; repeat split; congruence. Qed.

Lemma number_text_head t rest :
  number_text t -> exists h t', t +:+ rest = String h t' /\ number_head h = true.
Proof.
  intros (neg & ip & fp & ex & -> & Hip & _).
  destruct neg.
  - eexists "-"%char, _. split; [|reflexivity]. cbn [sign_text String.append]. reflexivity.
  - destruct Hip as [-> | (c & r & -> & Hc & _)].
    + eexists "0"%char, _. split; [|reflexivity]. cbn [sign_text String.append]. reflexivity.
    + eexists c, _. split; [cbn [sign_text String.append]; reflexivity|].
      unfold number_head. rewrite (nonzero_digit c Hc). reflexivity.
Qed.

Lemma fraction_text_empty fp : Str.is_empty (FloatRepr.fraction_text fp) = Str.is_empty fp.
Proof. destruct fp; reflexivity. Qed.

(** A float written by the encoder is read back by the decoder. *)
Lemma scan_float f d x rest :
  valid_binary Float.prec Float.emax x = true -> number_stop rest ->
  scan (S f) d (floatstr x +:+ rest) = Ok (JFloat x, rest).
Proof.
  intros Hv Hr.
  pose proof (repr_number_text x Hv) as Hshape.
  pose proof (ReprFacts.repr_reads_back x Hv) as Hback.
  assert (Hnum : number_text (FloatRepr.repr x) -> floatstr x = FloatRepr.repr x ->
                 scan (S f) d (floatstr x +:+ rest) = Ok (JFloat x, rest)).
  { intros Ht ->.
    destruct (number_text_head _ rest Ht) as (h & t' & Heq & Hh).
    destruct (number_head_other h Hh) as (H1 & H2 & H3 & H4 & H5 & H6).
    rewrite Heq. cbn [scan Str.startswith]. rewrite H1, H2, H3, H4, H5, H6. cbn [andb].
    rewrite <- Heq.
    destruct Ht as (neg & ip & fp & ex & Htext & Hip & Hfp & Hex & Hne).
    rewrite Htext at 1.
    rewrite (app_assoc (sign_text neg +:+ ip)), (app_assoc (FloatRepr.fraction_text fp)).
    rewrite (match_number_text neg ip fp ex rest Hip Hfp Hex Hr Hne).
    unfold number. rewrite fraction_text_empty.
    assert (Hnot : Str.is_empty fp && Str.is_empty ex = false).
    { destruct fp; [|reflexivity]. destruct ex; [|reflexivity]. exfalso. exact (Hne eq_refl eq_refl). }
    rewrite Hnot, <- Htext, Hback. reflexivity. }
  destruct x as [s|s| |s m e].
  - apply Hnum; [exact Hshape | reflexivity].
  - destruct s; reflexivity.
  - reflexivity.
  - apply Hnum; [exact Hshape | reflexivity].
Qed.

End JsonFacts.

(** *** Records and lists of records *)

Module StoreFacts.
Import Json TextFacts JsonFacts.
#[local] Arguments String.append !s1 s2 : simpl nomatch.

Definition nl (level : nat) : string := newline_indent 4 level.

Definition member_text (k v : string) : string :=
  encode_string k +:+ ": " +:+ encode_string v.

(** The text of one record at nesting level 1. *)
Definition obj_text (f : flight) : string :=
  "{" +:+ nl 2 +:+ member_text "flight_id" (flight_id f)
  +:+ "," +:+ nl 2 +:+ member_text "origin" (origin f)
  +:+ "," +:+ nl 2 +:+ member_text "destination" (destination f)
  +:+ "," +:+ nl 2 +:+ member_text "departure_datetime" (departure_datetime f)
  +:+ "," +:+ nl 2 +:+ member_text "arrival_datetime" (arrival_datetime f)
  +:+ "," +:+ nl 2 +:+ encode_string "price" +:+ ": " +:+ floatstr (price f)
  +:+ nl 1 +:+ "}".

Fixpoint items_text (l : list flight) : string :=
  match l with
  | [] => ""
  | f :: l' => "," +:+ nl 1 +:+ obj_text f +:+ items_text l'
  end.

Lemma encode_flight f : encode 4 1 (flight_json f) = obj_text f.
Proof. unfold obj_text, member_text, nl. cbn [encode flight_json]. rewrite !app_assoc. reflexivity. Qed.

Lemma skip_ws_nl level c t : is_ws c = false -> skip_ws (nl level +:+ String c t) = String c t.
Proof. intros H. unfold nl. rewrite skip_ws_newline_indent. apply skip_ws_none, H. Qed.

Lemma scan_string f d v rest :
  scan (S f) d (encode_string v +:+ rest) = Ok (JStr v, rest).
Proof.
  rewrite encode_string_app. cbn [scan].
  change (Ascii.eqb dq dq) with true. cbv iota.
  rewrite scanstring_escape. reflexivity.
Qed.

(** One member with a text value, a comma and another member after it. *)
Lemma members_text f d k v k' t acc :
  members (S (S f)) d
    (encode_string k +:+ ": " +:+ encode_string v +:+ "," +:+ nl 2 +:+ encode_string k' +:+ t) acc
  = members (S f) d (encode_string k' +:+ t) (acc ++ [(k, JStr v)]).
Proof.
  rewrite (encode_string_app k).
  cbn [members]. change (Ascii.eqb dq dq) with true. cbv iota.
  rewrite scanstring_escape. cbn [mbind result_bind].
  change (skip_ws (": " +:+ ?x)) with (String ":" (String " " x)). cbv iota.
  change (skip_ws (String " " ?x)) with (skip_ws x).
  rewrite (encode_string_app v). rewrite (skip_ws_none dq) by reflexivity.
  rewrite <- encode_string_app, scan_string.
  cbn [mbind result_bind].
  change (skip_ws ("," +:+ ?x)) with (String "," x). cbv iota.
  rewrite (encode_string_app k'), skip_ws_nl by reflexivity. reflexivity.
Qed.

Lemma number_stop_nl level rest : number_stop (nl level +:+ rest).
Proof. reflexivity. Qed.

(** The last member, the price. *)
Lemma members_price f d k x rest acc :
  valid_binary Float.prec Float.emax x = true ->
  members (S (S f)) d (encode_string k +:+ ": " +:+ floatstr x +:+ nl 1 +:+ "}" +:+ rest) acc
  = Ok (acc ++ [(k, JFloat x)], rest).
Proof.
  intros Hv. rewrite encode_string_app.
  cbn [members]. change (Ascii.eqb dq dq) with true. cbv iota.
  rewrite scanstring_escape. cbn [mbind result_bind].
  change (skip_ws (": " +:+ ?x)) with (String ":" (String " " x)). cbv iota.
  change (skip_ws (String " " ?x)) with (skip_ws x).
  assert (Hhead : skip_ws (floatstr x +:+ nl 1 +:+ "}" +:+ rest)
                  = floatstr x +:+ nl 1 +:+ "}" +:+ rest).
  { destruct x as [s|s| |s m e]; try (destruct s; reflexivity); try reflexivity.
    destruct (number_text_head (FloatRepr.repr (S754_finite s m e)) (nl 1 +:+ "}" +:+ rest)
                (repr_number_text _ Hv)) as (h & t' & Heq & Hh).
    change (floatstr (S754_finite s m e)) with (FloatRepr.repr (S754_finite s m e)).
    rewrite Heq. apply skip_ws_none.
    revert Hh. clear. destruct h as [[] [] [] [] [] [] [] []]; vm_compute; congruence. }
  rewrite Hhead, (scan_float f d x _ Hv (number_stop_nl 1 _)).
  cbn [mbind result_bind].
  change ("}" +:+ rest) with (String "}" rest).
  rewrite skip_ws_nl by reflexivity. reflexivity.
Qed.

(** One record is read back. *)
Lemma scan_flight f d fl rest :
  valid_binary Float.prec Float.emax (price fl) = true ->
  scan (8 + f) (S d) (obj_text fl +:+ rest) = Ok (flight_json fl, rest).
Proof.
  intros Hv. unfold obj_text, member_text. rewrite !app_assoc.
  change ("{" +:+ ?x) with (String "{" x).
  change (8 + f)%nat with (S (S (S (5 + f)))). cbn [scan].
  change (Ascii.eqb "{" dq) with false. change (Ascii.eqb "{" "{") with true. cbv iota zeta.
  rewrite (encode_string_app "flight_id"), skip_ws_nl by reflexivity. cbv iota.
  rewrite <- encode_string_app.
  rewrite members_text.
  change (S (5 + f)) with (S (S (4 + f))). rewrite members_text.
  change (S (4 + f)) with (S (S (3 + f))). rewrite members_text.
  change (S (3 + f)) with (S (S (2 + f))). rewrite members_text.
  change (S (2 + f)) with (S (S (1 + f))). rewrite members_text.
  change (S (1 + f)) with (S (S f)). rewrite (members_price _ _ _ _ _ _ Hv).
  reflexivity.
Qed.

Lemma encode_flights fl fls :
  encode 4 0 (db_json (fl :: fls))
  = "[" +:+ nl 1 +:+ obj_text fl +:+ items_text fls +:+ nl 0 +:+ "]".
Proof.
  unfold db_json. cbn [map encode]. fold (nl 1). fold (nl 0). rewrite encode_flight.
  do 3 f_equal.
  induction fls as [|g gs IH]; [reflexivity|].
  cbn [map items_text]. rewrite !app_assoc, encode_flight, IH. reflexivity.
Qed.

Lemma skip_ws_record level g t :
  skip_ws (nl level +:+ obj_text g +:+ t) = obj_text g +:+ t.
Proof.
  unfold obj_text. rewrite !app_assoc.
  change ("{" +:+ ?x) with (String "{" x).
  apply skip_ws_nl. reflexivity.
Qed.

Lemma elements_eq f d s acc :
  elements (S f) d s acc
  = '(v, rest) ← scan f d s;
    match skip_ws rest with
    | String "," rest' => elements f d (skip_ws rest') (acc ++ [v])
    | String "]" rest' => Ok (acc ++ [v], rest')
    | _ => Raise (expecting "',' delimiter")
    end.
Proof. reflexivity. Qed.

Lemma bind_ok {A B} (a : A) (k : A -> result B) : (Ok a ≫= k) = k a.
Proof. reflexivity. Qed.

Lemma skip_ws_close level c rest :
  is_ws c = false -> skip_ws (nl level +:+ String c "" +:+ rest) = String c rest.
Proof. apply skip_ws_nl. Qed.

(** The last record of the list. *)
Lemma elements_last f d fl rest acc :
  valid_binary Float.prec Float.emax (price fl) = true ->
  elements (S (8 + f)) (S d) (obj_text fl +:+ nl 0 +:+ "]" +:+ rest) acc
  = Ok (acc ++ [flight_json fl], rest).
Proof.
  intros Hv. rewrite elements_eq, scan_flight, bind_ok by exact Hv.
  rewrite skip_ws_close by reflexivity. reflexivity.
Qed.

(** A record with another one after it. *)
Lemma elements_next f d fl g t acc :
  valid_binary Float.prec Float.emax (price fl) = true ->
  elements (S (8 + f)) (S d) (obj_text fl +:+ "," +:+ nl 1 +:+ obj_text g +:+ t) acc
  = elements (8 + f) (S d) (obj_text g +:+ t) (acc ++ [flight_json fl]).
Proof.
  intros Hv. rewrite elements_eq, scan_flight, bind_ok by exact Hv.
  replace (skip_ws ("," +:+ nl 1 +:+ obj_text g +:+ t))
    with (String "," (nl 1 +:+ obj_text g +:+ t)) by reflexivity.
  rewrite skip_ws_record. reflexivity.
Qed.

(** The records of the list are read back one after the other. *)
Lemma elements_flights d fls : forall fl f rest acc,
  Forall (fun g => valid_binary Float.prec Float.emax (price g) = true) (fl :: fls) ->
  elements (9 + length fls + f) (S d) (obj_text fl +:+ items_text fls +:+ nl 0 +:+ "]" +:+ rest) acc
  = Ok (acc ++ map flight_json (fl :: fls), rest).
Proof.
  induction fls as [|g gs IH]; intros fl f rest acc Hv.
  - apply elements_last. inversion Hv; assumption.
  - cbn [items_text]. rewrite !app_assoc.
    replace (9 + length (g :: gs) + f)%nat with (S (8 + (S (length gs + f)))) by reflexivity.
    rewrite elements_next by (inversion Hv; assumption).
    replace (8 + S (length gs + f))%nat with (9 + length gs + f)%nat by reflexivity.
    rewrite IH by (inversion Hv; assumption).
    rewrite <- List.app_assoc. reflexivity.
Qed.

Lemma length_record g : (10 <= String.length (obj_text g))%nat.
Proof.
  unfold obj_text, member_text, nl, newline_indent.
  rewrite !length_app. cbn [String.length spaces newline Nat.mul Nat.add]. lia.
Qed.

Lemma length_items fls : (length fls <= String.length (items_text fls))%nat.
Proof.
  induction fls as [|g gs IH]; [reflexivity|].
  cbn [items_text length]. rewrite !length_app. cbn [String.length]. lia.
Qed.

(** [json.loads] gives back the list [json.dumps] wrote. *)
Theorem loads_dumps flights :
  Forall (fun g => valid_binary Float.prec Float.emax (price g) = true) flights ->
  loads (dumps (db_json flights)) = Ok (db_json flights).
Proof.
  intros Hv. destruct flights as [|fl fls]; [reflexivity|].
  unfold dumps, loads. rewrite encode_flights.
  change max_depth with (S (S 498)).
  change (skip_ws ("[" +:+ ?x)) with (String "[" x).
  change (String.length ("[" +:+ ?x)) with (S (String.length x)).
  cbn [scan]. change (Ascii.eqb "[" dq) with false.
  change (Ascii.eqb "[" "{") with false. change (Ascii.eqb "[" "[") with true.
  cbv iota zeta. rewrite skip_ws_record.
  assert (Hfuel : exists f, S (String.length (nl 1 +:+ obj_text fl +:+ items_text fls +:+ nl 0 +:+ "]"))
                            = (9 + length fls + f)%nat).
  { pose proof (length_record fl). pose proof (length_items fls).
    exists (S (String.length (nl 1 +:+ obj_text fl +:+ items_text fls +:+ nl 0 +:+ "]"))
            - (9 + length fls))%nat.
    rewrite !length_app. lia. }
  destruct Hfuel as [f ->].
  pose proof (elements_flights 498 fls fl f "" [] Hv) as Hread.
  change ("]" +:+ "") with "]" in Hread.
  set (E := elements _ _ _ []) in *. rewrite Hread. clear E Hread.
  unfold obj_text. rewrite !app_assoc.
  change ("{" +:+ ?x) with (String "{" x). reflexivity.
Qed.

(** The list [json.dump] receives determines the records, field for
    field and in their order. *)
Lemma flight_json_inj f g : flight_json f = flight_json g -> f = g.
Proof.
  destruct f, g. unfold flight_json. cbn [flight_id origin destination departure_datetime
                                          arrival_datetime price].
  intros H. injection H as -> -> -> -> -> ->. reflexivity.
Qed.

Lemma db_json_inj flights : forall flights', db_json flights' = db_json flights -> flights' = flights.
Proof.
  unfold db_json. induction flights as [|f l IH]; intros [|g l'] H;
    try reflexivity; try discriminate H.
  cbn [map] in H.
  assert (Hf : flight_json g = flight_json f) by congruence.
  assert (Hl : JArr (map flight_json l') = JArr (map flight_json l)) by congruence.
  rewrite (flight_json_inj _ _ Hf), (IH l' Hl). reflexivity.
Qed.

End StoreFacts.

(** C7. Saving a sequence of records and loading the file written gives
    the sequence back: the value loaded is the list of the
    dictionaries of the records, which determines the records field
    for field and in their order. The price of a record is a [float],
    that is a binary64 value. *)
Theorem C7_save_load_round_trip (flights : list flight) (path : string) (d d' : disk) :
  Forall (fun f => valid_binary Float.prec Float.emax (price f) = true) flights ->
  save_db_json flights path d = Ok d' ->
  load_db_json path d' = Ok (db_json flights)
  /\ (forall flights', db_json flights' = db_json flights -> flights' = flights).
Proof.
  intros Hv Hsave. split; [|apply StoreFacts.db_json_inj].
  unfold load_db_json. unfold save_db_json in Hsave.
  assert (Hread : read_text path d' = Ok (Json.dumps (db_json flights))).
  { revert Hsave. unfold write_text, read_text.
    destruct (disk_refuses d path); [discriminate|].
    intros [= <-]. cbn [disk_texts disk_file]. rewrite lookup_insert_eq. reflexivity. }
  rewrite Hread. cbn [mbind result_bind]. apply StoreFacts.loads_dumps, Hv.
Qed.

Definition two_flights : list flight :=
  [mk_flight "AB12" "JFK" "LAX" "2024-01-01 08:00" "2024-01-01 10:00" Float.one;
   mk_flight "CD345" "LAX" "SFO" "2024-02-03 09:15" "2024-02-03 10:45"
     (S754_finite false 7036874417766400 (-46))].

Lemma C7_witness :
  load_db_json "db.json"
    (mk_disk {["db.json" := Json.dumps (db_json two_flights)]}
       (fun _ => false) (fun path => path))
  = Ok (db_json two_flights)
  /\ (forall flights', db_json flights' = db_json two_flights -> flights' = two_flights).
Proof.
  apply (C7_save_load_round_trip two_flights "db.json"
           (mk_disk ∅ (fun _ => false) (fun path => path))).
  - repeat constructor.
  - reflexivity.
Defined.



(** ** The validator: what decides its answer *)

Module AnswerFacts.

(** The answer as a function of the fields between the commas of the
    trimmed line, each one trimmed. *)
Definition answer (fields : list string) : option flight * option string :=
  match fields with
  | [a; b; c; d; e; f] =>
      match check_fields a b c d e f with
      | (Some p, []) => (Some (mk_flight a b c d e p), None)
      | (_, errors) => (None, Some (Str.join "; " errors))
      end
  | _ => (None, Some "missing required fields")
  end.

Lemma validate_answer line n : validate_flight_row line n = answer (trimmed_fields line).
Proof.
  destruct (Nat.eq_dec (length (Str.split "," line)) 6) as [Hlen|Hlen].
  - assert (Hf : exists a b c d e f, trimmed_fields line = [a; b; c; d; e; f]).
    { unfold trimmed_fields.
      destruct (Str.split "," line) as [|p1 [|p2 [|p3 [|p4 [|p5 [|p6 [|p7 l]]]]]]];
        try discriminate Hlen.
      simpl. eauto 10. }
    destruct Hf as (a & b & c & d & e & f & Hf).
    rewrite (RowFacts.validate_six _ _ _ _ _ _ _ _ Hf), Hf. reflexivity.
  - rewrite (RowFacts.validate_not_six _ _ Hlen).
    unfold trimmed_fields.
    destruct (Str.split "," line) as [|p1 [|p2 [|p3 [|p4 [|p5 [|p6 [|p7 l]]]]]]];
      try reflexivity.
    exfalso. apply Hlen. reflexivity.
Qed.

Lemma join_nonempty sep e es : e <> "" -> Str.join sep (e :: es) <> "".
Proof.
  intros He. destruct es as [|e' es]; simpl; [exact He|].
  destruct e; [congruence | discriminate].
Qed.

Lemma exn_str_price s ex : validate_price s = Raise ex -> exn_str ex <> "".
Proof.
  intros H. destruct (ReasonFacts.validate_price_raise _ _ H) as [-> | ->]; discriminate.
Qed.

(** No reason of the list is the empty text. *)
Lemma row_errors_nonempty a b c d e f r : In r (row_errors a b c d e f) -> r <> "".
Proof.
  intros H. apply ReasonFacts.in_row_errors in H.
  destruct H as [[_ ->]|[[_ ->]|[[_ ->]|[[_ ->]|[[_ ->]|[[_ ->]|H]]]]]]; try discriminate.
  destruct (validate_price f) as [p|ex] eqn:E; [destruct H|].
  subst r. exact (exn_str_price _ _ E).
Qed.

(** Either a record and no reason, or a reason that is not empty. *)
Lemma answer_shape fields :
  (exists r, answer fields = (Some r, None))
  \/ (exists reason, answer fields = (None, Some reason) /\ reason <> "").
Proof.
  unfold answer.
  destruct fields as [|a [|b [|c [|d [|e [|f [|g l]]]]]]];
    try (right; eexists; split; [reflexivity | discriminate]).
  pose proof (row_errors_nonempty a b c d e f) as Hne.
  pose proof (RowFacts.check_fields_price a b c d e f) as Hp.
  unfold row_errors in Hne.
  destruct (check_fields a b c d e f) as [[p|] [|r rs]]; cbn [fst snd] in *.
  - left. eexists. reflexivity.
  - right. eexists. split; [reflexivity|].
    apply join_nonempty, Hne. left. reflexivity.
  - destruct (validate_price f); [discriminate | destruct Hp as [_ Hp]; congruence].
  - right. eexists. split; [reflexivity|].
    apply join_nonempty, Hne. left. reflexivity.
Qed.

(** The price of a record is what [float] reads in the sixth field. *)
Lemma accepted_price line n r :
  validate_flight_row line n = (Some r, None) ->
  Float.of_str (Str.strip (nth 5 (Str.split "," line) "")) = Ok (price r).
Proof.
  intros H.
  destruct (validate_flight_row_sound _ _ _ _ H) as (_ & Hf & _).
  rewrite (RowFacts.validate_six _ _ _ _ _ _ _ _ Hf) in H.
  pose proof (RowFacts.check_fields_price (flight_id r) (origin r) (destination r)
                (departure_datetime r) (arrival_datetime r)
                (Str.strip (nth 5 (Str.split "," line) ""))) as Hprice.
  destruct (check_fields _ _ _ _ _ _) as [[p|] [|e0 es]]; try discriminate H.
  injection H as Hr. cbn [fst] in Hprice.
  unfold validate_price in Hprice.
  destruct (Float.of_str _) as [y|]; [|destruct Hprice; discriminate].
  destruct (SFleb y Float.zero); [destruct Hprice; discriminate|].
  injection Hprice as ->. rewrite <- Hr. reflexivity.
Qed.

End AnswerFacts.

(** X2. The validator answers by the trimmed fields alone: two lines
    whose comma-separated fields are equal once trimmed get the same
    answer, whatever the line numbers and the blanks around the fields
    and around the lines. *)
Theorem validate_by_trimmed_fields line1 line2 n1 n2 :
  trimmed_fields line1 = trimmed_fields line2 ->
  validate_flight_row line1 n1 = validate_flight_row line2 n2.
Proof.
  intros H. rewrite !AnswerFacts.validate_answer, H. reflexivity.
Qed.

Lemma validate_by_trimmed_fields_witness :
  validate_flight_row "  AB12 , JFK,LAX ,2024-01-01 08:00, 2024-01-01 10:00 ,100  " 1
  = validate_flight_row "AB12,JFK,LAX,2024-01-01 08:00,2024-01-01 10:00,100" 7.
Proof.
  apply (validate_by_trimmed_fields
           "  AB12 , JFK,LAX ,2024-01-01 08:00, 2024-01-01 10:00 ,100  "
           "AB12,JFK,LAX,2024-01-01 08:00,2024-01-01 10:00,100" 1 7).
  vm_compute. reflexivity.
Defined.

(** X3. The validator returns either a record and no reason, or no
    record and a reason that is not the empty text: the caller's test
    [if err] never takes a rejected line for an accepted one. *)
Theorem validate_record_or_reason line n :
  (exists r, validate_flight_row line n = (Some r, None))
  \/ (exists reason, validate_flight_row line n = (None, Some reason) /\ reason <> "").
Proof.
  rewrite AnswerFacts.validate_answer. apply AnswerFacts.answer_shape.
Qed.

(** A code as [is_airport_code] takes it: three letters, none of them
    lowercase or titlecase, one of them at least uppercase. *)
Fixpoint some_char (p : ascii -> bool) (s : string) : bool :=
  match s with
  | EmptyString => false
  | String c s' => p c || some_char p s'
  end.

Definition cased_code (s : string) : Prop :=
  String.length s = 3%nat
  /\ Str.all Char.isalpha s = true
  /\ Str.all (fun c => negb (Char.islower c || Char.istitle c)) s = true
  /\ some_char Char.isupper s = true.

Module CaseFacts.

Lemma isupper_scan_spec s : forall cased,
  Str.isupper_scan s cased = true
  <-> Str.all (fun c => negb (Char.islower c || Char.istitle c)) s = true
      /\ (cased = true \/ some_char Char.isupper s = true).
Proof.
  induction s as [|c s IH]; intros cased; cbn [Str.isupper_scan Str.all some_char].
  - split; [intros ->; auto | intros [_ [H|H]]; [exact H | discriminate H]].
  - destruct (Char.islower c || Char.istitle c); cbn [negb andb].
    + split; [discriminate | intros [H _]; discriminate H].
    + rewrite IH. rewrite !orb_true_iff. tauto.
Qed.

Lemma is_airport_code_cased s : is_airport_code s = true <-> cased_code s.
Proof.
  unfold is_airport_code, cased_code, Str.isupper, Str.isalpha.
  rewrite !andb_true_iff, Nat.eqb_eq, negb_true_iff, isupper_scan_spec.
  split.
  - intros [[Hlen [Hno [H|H]]] [_ Hal]]; [discriminate H | auto].
  - intros (Hlen & Hal & Hno & Hup). repeat split; auto.
    destruct s; [discriminate Hlen | reflexivity].
Qed.

End CaseFacts.

(** X4. The exact condition for a record: the line has six fields; once
    trimmed, the first is an alphanumeric text of 2 to 8 characters, the
    second and third are codes of three letters of which none is
    lowercase or titlecase and one at least is uppercase, the fourth
    and fifth are timestamps [strptime] accepts, the fifth strictly
    after the fourth, and [float] reads the sixth as a value that is
    above zero or is the NaN value. The record holds the trimmed texts
    and that value. *)
Theorem validate_accepts_iff line n r :
  validate_flight_row line n = (Some r, None) <->
  exists pr dep_dt arr_dt,
    trimmed_fields line
    = [flight_id r; origin r; destination r; departure_datetime r; arrival_datetime r; pr]
    /\ FieldFacts.alphanumeric_2_8 (flight_id r)
    /\ cased_code (origin r)
    /\ cased_code (destination r)
    /\ parse_datetime (departure_datetime r) = Ok dep_dt
    /\ parse_datetime (arrival_datetime r) = Ok arr_dt
    /\ Datetime.ltb dep_dt arr_dt = true
    /\ Float.of_str pr = Ok (price r)
    /\ (price r = S754_nan \/ SFltb Float.zero (price r) = true).
Proof.
  split.
  - intros H.
    destruct (validate_flight_row_sound _ _ _ _ H) as (_ & Hf & Hid & Ho & Hd & Ht & Hp).
    destruct Ht as (dep_dt & arr_dt & Hdep & Harr & Hlt).
    pose proof (AnswerFacts.accepted_price _ _ _ H) as Hpr.
    apply FieldFacts.is_airport_code_spec, CaseFacts.is_airport_code_cased in Ho, Hd.
    exists (Str.strip (nth 5 (Str.split "," line) "")), dep_dt, arr_dt.
    split; [exact Hf|]. split; [exact Hid|]. split; [exact Ho|]. split; [exact Hd|].
    split; [exact Hdep|]. split; [exact Harr|]. split; [exact Hlt|]. split; [exact Hpr|].
    exact (OrderFacts.not_le_zero_cases _ Hp).
  - intros (pr & dep_dt & arr_dt & Hf & Hid & Ho & Hd & Hdep & Harr & Hlt & Hpr & Hpos).
    rewrite (RowFacts.validate_six _ _ _ _ _ _ _ _ Hf).
    apply FieldFacts.is_alnum_len_spec in Hid.
    apply CaseFacts.is_airport_code_cased in Ho, Hd.
    unfold check_fields, try_datetime, try_price, validate_price, append_if.
    rewrite Hid, Ho, Hd, Hdep, Harr, Hpr. simpl.
    rewrite OrderFacts.leb_ltb, Hlt. simpl.
    assert (Hle : SFleb (price r) Float.zero = false).
    { destruct Hpos as [-> | Hpos]; [reflexivity | exact (OrderFacts.positive_not_le_zero _ Hpos)]. }
    rewrite Hle. destruct r; reflexivity.
Qed.

(** X5. [is_airport_code] accepts exactly the texts of three letters of
    which none is lowercase or titlecase and one at least is uppercase.
    So a code of three capitals passes, and a code with a digit, a
    blank or a lowercase letter does not. A letter that has no case,
    of which there is none below U+0100, passes beside a capital. *)
Theorem is_airport_code_cased_letters value :
  is_airport_code value = true
  <-> String.length value = 3%nat
      /\ Str.all Char.isalpha value = true
      /\ Str.all (fun c => negb (Char.islower c || Char.istitle c)) value = true
      /\ some_char Char.isupper value = true.
Proof. exact (CaseFacts.is_airport_code_cased value). Qed.

(** X6. [is_alnum_len] accepts exactly the texts whose length lies
    within the bounds, that are not empty, and whose characters are
    letters or digits: the ASCII ones, the Latin-1 letters, and the
    superscript digits and vulgar fractions of Latin-1, which [isalnum]
    counts as well. *)
Definition letter_or_digit (c : ascii) : bool :=
  Char.between 48 57 c || Char.between 65 90 c || Char.between 97 122 c
  || Char.at_code 170 c || Char.between 178 179 c || Char.at_code 181 c
  || Char.between 185 186 c || Char.between 188 190 c
  || Char.between 192 214 c || Char.between 216 246 c || Char.between 248 255 c.

Theorem is_alnum_len_letters_digits value min_len max_len :
  is_alnum_len value min_len max_len = true
  <-> value <> "" /\ Str.all letter_or_digit value = true
      /\ (min_len <= String.length value <= max_len)%nat.
Proof.
  assert (E : forall c, Char.isalnum c = letter_or_digit c)
    by (intros c; FieldFacts.by_cases_on_char c).
  assert (Eall : Str.all Char.isalnum value = Str.all letter_or_digit value).
  { induction value as [|c s IH]; [reflexivity|]. cbn [Str.all]. rewrite E, IH. reflexivity. }
  unfold is_alnum_len, Str.isalnum.
  rewrite !andb_true_iff, !Nat.leb_le, negb_true_iff, Eall.
  destruct value; cbn [Str.is_empty]; intuition congruence.
Qed.

(** ** Ingestion: what a source adds *)

(** The two lists of one run put behind those of another. *)
Definition ingest_app (a b : ingest) : ingest :=
  mk_ingest (valid_flights a ++ valid_flights b) (error_lines a ++ error_lines b).

Definition no_ingest : ingest := mk_ingest [] [].

(** What the loop body does with a line, by the tests of lines 90-94. *)
Definition skipped (line_number : Z) (line : string) : bool :=
  String.eqb (Str.strip line) ""
  || ((line_number =? 1)%Z && Str.contains (Str.strip line) "flight_id").

Fixpoint count_kept (line_number : Z) (lines : list string) : nat :=
  match lines with
  | [] => 0
  | line :: rest =>
      (if skipped line_number line then 0 else 1) + count_kept (line_number + 1) rest
  end.

Module AppendFacts.

Lemma ingest_app_empty_r a : ingest_app a no_ingest = a.
Proof. destruct a. unfold ingest_app. cbn. rewrite !app_nil_r. reflexivity. Qed.

Lemma ingest_app_empty_l a : ingest_app no_ingest a = a.
Proof. destruct a. reflexivity. Qed.

Lemma ingest_app_assoc a b c : ingest_app (ingest_app a b) c = ingest_app a (ingest_app b c).
Proof. unfold ingest_app. cbn. rewrite <- !app_assoc. reflexivity. Qed.

Lemma add_error_app e st : add_error e st = ingest_app st (add_error e no_ingest).
Proof. unfold add_error, ingest_app. cbn. rewrite app_nil_r. reflexivity. Qed.

Lemma add_flight_app f st : add_flight f st = ingest_app st (add_flight f no_ingest).
Proof. unfold add_flight, ingest_app. cbn. rewrite app_nil_r. reflexivity. Qed.

Lemma process_line_app n line st :
  process_line n line st = ingest_app st (process_line n line no_ingest).
Proof.
  unfold process_line.
  destruct (String.eqb _ _); [symmetry; apply ingest_app_empty_r|].
  destruct (_ && _); [symmetry; apply ingest_app_empty_r|].
  destruct (Str.startswith _ _); [apply add_error_app|].
  destruct (validate_flight_row line n) as [[f|] [err|]];
    try destruct (Str.is_empty err);
    first [apply add_error_app | apply add_flight_app | symmetry; apply ingest_app_empty_r].
Qed.

Lemma read_lines_app lines : forall n st,
  read_lines n lines st = ingest_app st (read_lines n lines no_ingest).
Proof.
  induction lines as [|line rest IH]; intros n st; cbn [read_lines].
  - symmetry. apply ingest_app_empty_r.
  - rewrite (IH _ (process_line n line st)), (IH _ (process_line n line no_ingest)).
    rewrite (process_line_app n line st). apply ingest_app_assoc.
Qed.

Lemma parse_csv_file_app fs path st :
  parse_csv_file fs path st = ingest_app st (parse_csv_file fs path no_ingest).
Proof.
  unfold parse_csv_file, csv_try.
  destruct (fs_open fs path) as [|lines broken]; cbn [fst].
  - symmetry. apply ingest_app_empty_r.
  - apply read_lines_app.
Qed.

Lemma parse_files_flat fs paths : forall st,
  parse_files fs paths st
  = ingest_app st
      (mk_ingest (flat_map (fun p => valid_flights (parse_csv_file fs p no_ingest)) paths)
                 (flat_map (fun p => error_lines (parse_csv_file fs p no_ingest)) paths)).
Proof.
  induction paths as [|p ps IH]; intros st.
  - symmetry. apply ingest_app_empty_r.
  - rewrite IngestFacts.parse_files_cons, IH, (parse_csv_file_app fs p st).
    cbn [flat_map]. rewrite ingest_app_assoc. reflexivity.
Qed.

(** One line: nothing when it is skipped, else one record or one entry. *)
Lemma process_line_one n line :
  length (valid_flights (process_line n line no_ingest))
  + length (error_lines (process_line n line no_ingest))
  = if skipped n line then 0%nat else 1%nat.
Proof.
  unfold process_line, skipped.
  destruct (String.eqb _ _); [reflexivity|].
  destruct (_ && _); [reflexivity|]. cbn [orb].
  destruct (Str.startswith _ _); [reflexivity|].
  rewrite AnswerFacts.validate_answer.
  destruct (AnswerFacts.answer_shape (trimmed_fields line)) as [[r ->] | (reason & -> & Hne)];
    [reflexivity|].
  destruct reason; [congruence | reflexivity].
Qed.

(** One line: where a record and where an entry come from. *)
Lemma process_line_record n line r :
  In r (valid_flights (process_line n line no_ingest)) ->
  validate_flight_row line n = (Some r, None).
Proof.
  unfold process_line.
  destruct (String.eqb _ _); [intros []|].
  destruct (_ && _); [intros []|].
  destruct (Str.startswith _ _); [intros []|].
  destruct (validate_flight_row line n) as [[f|] [err|]];
    try destruct (Str.is_empty err); cbn; intuition congruence.
Qed.

Lemma process_line_entry n line e :
  In e (error_lines (process_line n line no_ingest)) ->
  exists reason,
    e = error_entry n (Str.strip line) reason
    /\ (reason = "comment" \/ snd (validate_flight_row line n) = Some reason).
Proof.
  unfold process_line.
  destruct (String.eqb _ _); [intros []|].
  destruct (_ && _); [intros []|].
  destruct (Str.startswith _ _).
  - cbn. intros [<-|[]]. exists "comment". auto.
  - destruct (validate_flight_row line n) as [[f|] [err|]];
      try destruct (Str.is_empty err); cbn; try (intros []; fail);
      intros [<-|[]]; exists err; auto.
Qed.

End AppendFacts.

(** X7. Reading a source only appends: the records and the entries
    gathered before stay, in order, in front of those of the source,
    and what the source adds does not depend on them. *)
Theorem parse_csv_file_appends fs path st :
  valid_flights (parse_csv_file fs path st)
  = valid_flights st ++ valid_flights (parse_csv_file fs path no_ingest)
  /\ error_lines (parse_csv_file fs path st)
     = error_lines st ++ error_lines (parse_csv_file fs path no_ingest).
Proof. rewrite (AppendFacts.parse_csv_file_app fs path st). split; reflexivity. Qed.

(** X8. The result of [parse_input_sources] is, list by list, the
    concatenation of what each source gives by itself, the sources
    taken in processing order: the file given, then the [*.csv] files
    of the folder by name. *)
Theorem parse_input_sources_concat fs csv_file folder :
  valid_flights (parse_input_sources fs csv_file folder)
  = flat_map (fun p => valid_flights (parse_csv_file fs p no_ingest))
             (input_paths fs csv_file folder)
  /\ error_lines (parse_input_sources fs csv_file folder)
     = flat_map (fun p => error_lines (parse_csv_file fs p no_ingest))
                (input_paths fs csv_file folder).
Proof.
  unfold parse_input_sources. rewrite AppendFacts.parse_files_flat. split; reflexivity.
Qed.

(** X9. Every record of the result is one the validator returned for a
    line read from one of the sources: nothing enters the store
    unvalidated. *)
Theorem ingested_records_validated fs csv_file folder r :
  In r (valid_flights (parse_input_sources fs csv_file folder)) ->
  exists path line n,
    In path (input_paths fs csv_file folder)
    /\ In line (lines_read (fs_open fs path))
    /\ validate_flight_row line n = (Some r, None).
Proof.
  unfold parse_input_sources. rewrite AppendFacts.parse_files_flat.
  cbn [ingest_app valid_flights app]. rewrite in_flat_map. intros (path & Hpath & Hr).
  exists path. unfold parse_csv_file, csv_try in Hr.
  destruct (fs_open fs path) as [|lines broken]; cbn [fst lines_read] in *; [destruct Hr|].
  clear broken.
  assert (Hgen : forall n, In r (valid_flights (read_lines n lines no_ingest)) ->
            exists line m, In line lines /\ validate_flight_row line m = (Some r, None)).
  { clear Hr. induction lines as [|line rest IH]; intros n Hr; [destruct Hr|].
    cbn [read_lines] in Hr. rewrite AppendFacts.read_lines_app in Hr.
    cbn [ingest_app valid_flights] in Hr. apply in_app_iff in Hr as [Hr|Hr].
    - exists line, n. split; [left; reflexivity | exact (AppendFacts.process_line_record _ _ _ Hr)].
    - destruct (IH _ Hr) as (l & m & Hl & Hm). exists l, m. split; [right; exact Hl | exact Hm]. }
  destruct (Hgen 1%Z Hr) as (line & m & Hl & Hm).
  exists line, m. repeat split; assumption.
Qed.

Definition one_row_fs : filesystem :=
  {| fs_open := fun _ => Opened ["AB12,JFK,LAX,2024-01-01 08:00,2024-01-01 10:00,100"] false;
     fs_glob := fun _ => [] |}.

Lemma ingested_records_validated_witness :
  exists path line n,
    In path (input_paths one_row_fs (Some "a.csv") None)
    /\ In line (lines_read (fs_open one_row_fs path))
    /\ validate_flight_row line n
       = (Some (mk_flight "AB12" "JFK" "LAX" "2024-01-01 08:00" "2024-01-01 10:00"
                  (S754_finite false 7036874417766400 (-46))), None).
Proof.
  apply (ingested_records_validated one_row_fs (Some "a.csv") None).
  vm_compute. left. reflexivity.
Defined.

Module CountFacts.

Lemma read_lines_count lines : forall n,
  (length (valid_flights (read_lines n lines no_ingest))
   + length (error_lines (read_lines n lines no_ingest)))%nat
  = count_kept n lines.
Proof.
  induction lines as [|line rest IH]; intros n; [reflexivity|].
  cbn [read_lines count_kept]. rewrite AppendFacts.read_lines_app.
  cbn [ingest_app valid_flights error_lines]. rewrite !length_app.
  rewrite <- (IH (n + 1)%Z), <- (AppendFacts.process_line_one n line). lia.
Qed.

Lemma read_lines_entry lines : forall n e,
  In e (error_lines (read_lines n lines no_ingest)) ->
  exists i line reason,
    nth_error lines i = Some line
    /\ e = error_entry (n + Z.of_nat i) (Str.strip line) reason
    /\ (reason = "comment"
        \/ snd (validate_flight_row line (n + Z.of_nat i)) = Some reason).
Proof.
  induction lines as [|line rest IH]; intros n e He; [destruct He|].
  cbn [read_lines] in He. rewrite AppendFacts.read_lines_app in He.
  cbn [ingest_app error_lines] in He. apply in_app_iff in He as [He|He].
  - destruct (AppendFacts.process_line_entry _ _ _ He) as (reason & -> & Hr).
    exists 0%nat, line, reason. rewrite Z.add_0_r. auto.
  - destruct (IH _ _ He) as (i & l & reason & Hi & -> & Hr).
    exists (S i), l, reason.
    replace (n + Z.of_nat (S i))%Z with (n + 1 + Z.of_nat i)%Z by lia. auto.
Qed.

End CountFacts.

(** X10. Of the lines read from a source, each one that is neither
    blank nor the header (line 1 holding "flight_id") gives exactly one
    record or exactly one error entry, and the others give nothing: the
    records and entries of the source are as many as those lines. *)
Theorem source_lines_accounted fs path :
  (length (valid_flights (parse_csv_file fs path no_ingest))
   + length (error_lines (parse_csv_file fs path no_ingest)))%nat
  = count_kept 1 (lines_read (fs_open fs path)).
Proof.
  unfold parse_csv_file, csv_try.
  destruct (fs_open fs path) as [|lines broken]; cbn [fst lines_read]; [reflexivity|].
  apply CountFacts.read_lines_count.
Qed.

(** X11. Every error entry of a source reports one of its lines: it
    holds the position of the line in the file, counted from 1 with the
    blank and skipped lines included, the line trimmed, and either the
    word "comment" or the reason the validator gave for that line. *)
Theorem error_entry_reports_line fs path e :
  In e (error_lines (parse_csv_file fs path no_ingest)) ->
  exists i line reason,
    nth_error (lines_read (fs_open fs path)) i = Some line
    /\ e = error_entry (Z.of_nat i + 1) (Str.strip line) reason
    /\ (reason = "comment"
        \/ snd (validate_flight_row line (Z.of_nat i + 1)) = Some reason).
Proof.
  unfold parse_csv_file, csv_try.
  destruct (fs_open fs path) as [|lines broken]; cbn [fst lines_read]; [intros []|].
  intros He. destruct (CountFacts.read_lines_entry _ _ _ He) as (i & line & reason & Hi & -> & Hr).
  exists i, line, reason. rewrite (Z.add_comm (Z.of_nat i) 1). auto.
Qed.

Definition two_line_fs : filesystem :=
  {| fs_open := fun _ => Opened [""; "# note"] false; fs_glob := fun _ => [] |}.

Lemma error_entry_reports_line_witness :
  exists i line reason,
    nth_error (lines_read (fs_open two_line_fs "a.csv")) i = Some line
    /\ "Line 2: # note -> comment" = error_entry (Z.of_nat i + 1) (Str.strip line) reason
    /\ (reason = "comment"
        \/ snd (validate_flight_row line (Z.of_nat i + 1)) = Some reason).
Proof.
  apply (error_entry_reports_line two_line_fs "a.csv" "Line 2: # note -> comment").
  vm_compute. left. reflexivity.
Defined.

(** ** The order of the folder's files *)

Module SortFacts.

Lemma ascii_compare_refl a : Ascii.compare a a = Eq.
Proof. unfold Ascii.compare. apply N.compare_refl. Qed.

Lemma compare_refl s : String.compare s s = Eq.
Proof. induction s as [|a s IH]; cbn; [reflexivity|]. rewrite ascii_compare_refl. exact IH. Qed.

Lemma ascii_compare_trans (c : comparison) a b d :
  Ascii.compare a b = c -> Ascii.compare b d = c -> Ascii.compare a d = c.
Proof.
  unfold Ascii.compare. destruct c; intros H1 H2.
  - apply N.compare_eq_iff in H1, H2. apply N.compare_eq_iff. congruence.
  - apply N.compare_lt_iff in H1. apply N.compare_lt_iff in H2.
    apply N.compare_lt_iff. exact (N.lt_trans _ _ _ H1 H2).
  - apply N.compare_gt_iff in H1. apply N.compare_gt_iff in H2.
    apply N.compare_gt_iff. exact (N.lt_trans _ _ _ H2 H1).
Qed.

Lemma compare_trans_gen (c : comparison) : forall s1 s2 s3,
  c <> Eq -> String.compare s1 s2 = c -> String.compare s2 s3 = c -> String.compare s1 s3 = c.
Proof.
  induction s1 as [|a s1 IH]; intros [|b s2] [|d s3] Hc H12 H23; cbn in *;
    try congruence.
  destruct (Ascii.compare a b) eqn:Eab.
  - apply Ascii.compare_eq_iff in Eab. subst b.
    destruct (Ascii.compare a d); [eauto | exact H23 | exact H23].
  - destruct (Ascii.compare b d) eqn:Ebd.
    + apply Ascii.compare_eq_iff in Ebd. subst d. rewrite Eab. exact H12.
    + rewrite (ascii_compare_trans Lt _ _ _ Eab Ebd). exact H12.
    + congruence.
  - destruct (Ascii.compare b d) eqn:Ebd.
    + apply Ascii.compare_eq_iff in Ebd. subst d. rewrite Eab. exact H12.
    + congruence.
    + rewrite (ascii_compare_trans Gt _ _ _ Eab Ebd). exact H12.
Qed.

Lemma leb_trans s1 s2 s3 :
  String.leb s1 s2 = true -> String.leb s2 s3 = true -> String.leb s1 s3 = true.
Proof.
  unfold String.leb.
  destruct (String.compare s1 s2) eqn:E12; try discriminate;
    destruct (String.compare s2 s3) eqn:E23; try discriminate; intros _ _.
  - apply String.compare_eq_iff in E12, E23. subst.
    rewrite compare_refl. reflexivity.
  - apply String.compare_eq_iff in E12. subst. rewrite E23. reflexivity.
  - apply String.compare_eq_iff in E23. subst. rewrite E12. reflexivity.
  - assert (Hne : Lt <> Eq) by discriminate.
    rewrite (compare_trans_gen Lt _ _ _ Hne E12 E23). reflexivity.
Qed.

Definition le (a b : string) : Prop := String.leb a b = true.

Lemma insert_sorted_perm p l : Permutation (p :: l) (insert_sorted p l).
Proof.
  induction l as [|q l IH]; cbn; [reflexivity|].
  destruct (String.leb p q); [reflexivity|].
  rewrite perm_swap. constructor. exact IH.
Qed.

Lemma sorted_perm l : Permutation l (sorted l).
Proof.
  induction l as [|p l IH]; cbn; [constructor|].
  rewrite <- insert_sorted_perm. constructor. exact IH.
Qed.

Lemma insert_sorted_sorted p l : StronglySorted le l -> StronglySorted le (insert_sorted p l).
Proof.
  induction 1 as [|q l Hs IH Hall]; cbn; [repeat constructor|].
  destruct (String.leb p q) eqn:E.
  - constructor; [constructor; assumption|].
    constructor; [exact E|].
    eapply Forall_impl; [exact Hall|]. intros x Hx. exact (leb_trans _ _ _ E Hx).
  - constructor; [exact IH|].
    rewrite <- (insert_sorted_perm p l). constructor; [|exact Hall].
    destruct (String.leb_total p q) as [H|H]; [congruence | exact H].
Qed.

Lemma sorted_sorted l : StronglySorted le (sorted l).
Proof.
  induction l as [|p l IH]; cbn; [constructor | apply insert_sorted_sorted, IH].
Qed.

(** Two ordered lists with the same elements are the same list. *)
Lemma sorted_unique l1 : forall l2,
  StronglySorted le l1 -> StronglySorted le l2 -> Permutation l1 l2 -> l1 = l2.
Proof.
  induction l1 as [|a l1 IH]; intros l2 H1 H2 Hp.
  - apply Permutation_nil in Hp. congruence.
  - destruct l2 as [|b l2]; [apply Permutation_sym, Permutation_nil in Hp; discriminate|].
    inversion H1 as [|? ? Hs1 Ha]; inversion H2 as [|? ? Hs2 Hb]; subst.
    assert (Hab : a = b).
    { assert (In a (b :: l2)) as [->|Hin] by (rewrite <- Hp; left; reflexivity);
        [reflexivity|].
      assert (In b (a :: l1)) as [->|Hin'] by (rewrite Hp; left; reflexivity);
        [reflexivity|].
      rewrite List.Forall_forall in Ha, Hb.
      apply String.leb_antisym; [apply Ha, Hin' | apply Hb, Hin]. }
    subst b. f_equal. apply IH; try assumption.
    exact (Permutation_cons_inv Hp).
Qed.

Lemma sorted_permutation l1 l2 : Permutation l1 l2 -> sorted l1 = sorted l2.
Proof.
  intros H. apply sorted_unique; try apply sorted_sorted.
  rewrite <- !sorted_perm. exact H.
Qed.

Lemma parse_files_same_open fs1 fs2 paths : forall st,
  (forall path, fs_open fs1 path = fs_open fs2 path) ->
  parse_files fs1 paths st = parse_files fs2 paths st.
Proof.
  induction paths as [|p ps IH]; intros st Hopen; [reflexivity|].
  rewrite !IngestFacts.parse_files_cons.
  replace (parse_csv_file fs1 p st) with (parse_csv_file fs2 p st)
    by (unfold parse_csv_file; rewrite Hopen; reflexivity).
  apply IH, Hopen.
Qed.

End SortFacts.

(** X12. The order in which the operating system lists the folder does
    not matter: two file systems that open every path alike and list
    the same files for every pattern, in whatever order, give the same
    records and the same error entries, in the same order. *)
Theorem listing_order_irrelevant fs1 fs2 csv_file folder :
  (forall path, fs_open fs1 path = fs_open fs2 path) ->
  (forall pattern, Permutation (fs_glob fs1 pattern) (fs_glob fs2 pattern)) ->
  parse_input_sources fs1 csv_file folder = parse_input_sources fs2 csv_file folder.
Proof.
  intros Hopen Hglob. unfold parse_input_sources.
  assert (Hpaths : input_paths fs1 csv_file folder = input_paths fs2 csv_file folder).
  { unfold input_paths. f_equal. destruct (given folder); [|reflexivity].
    apply SortFacts.sorted_permutation, Hglob. }
  rewrite Hpaths. apply SortFacts.parse_files_same_open, Hopen.
Qed.

Definition listed_b_a : filesystem :=
  {| fs_open := fun path => Opened [path +:+ ",x"] false;
     fs_glob := fun _ => ["b.csv"; "a.csv"] |}.

Definition listed_a_b : filesystem :=
  {| fs_open := fun path => Opened [path +:+ ",x"] false;
     fs_glob := fun _ => ["a.csv"; "b.csv"] |}.

Lemma listing_order_irrelevant_witness :
  parse_input_sources listed_b_a None (Some "data")
  = parse_input_sources listed_a_b None (Some "data").
Proof.
  apply (listing_order_irrelevant listed_b_a listed_a_b None (Some "data")).
  - intros path. reflexivity.
  - intros pattern. apply perm_swap.
Defined.

Example listing_order_example :
  error_lines (parse_input_sources listed_b_a None (Some "data"))
  = ["Line 1: a.csv,x -> missing required fields";
     "Line 1: b.csv,x -> missing required fields"].
Proof. vm_compute. reflexivity. Qed.

(** ** Queries: keys, bounds and results *)

(** The keys [flight_matches_query] looks at. *)
Definition recognised_keys : list string :=
  ["flight_id"; "origin"; "destination"; "price"; "departure_datetime"; "arrival_datetime"].

Module BoundFacts.

Local Open Scope Z_scope.

Definition lex (c : comparison) (rest : comparison) : comparison :=
  match c with Eq => rest | _ => c end.

Lemma lex_lt c rest : lex c rest = Lt <-> c = Lt \/ (c = Eq /\ rest = Lt).
Proof. destruct c; cbn; intuition congruence. Qed.

Lemma compare_lex a b :
  Datetime.compare a b
  = lex (dt_year a ?= dt_year b) (lex (dt_month a ?= dt_month b) (lex (dt_day a ?= dt_day b)
      (lex (dt_hour a ?= dt_hour b) (dt_minute a ?= dt_minute b)))).
Proof.
  unfold Datetime.compare, lex.
  destruct (dt_year a ?= dt_year b), (dt_month a ?= dt_month b), (dt_day a ?= dt_day b),
    (dt_hour a ?= dt_hour b); reflexivity.
Qed.

Lemma lex_trans (x y z : Z) (c12 c23 c13 : comparison) :
  (c12 = Lt -> c23 = Lt -> c13 = Lt) ->
  lex (x ?= y) c12 = Lt -> lex (y ?= z) c23 = Lt -> lex (x ?= z) c13 = Lt.
Proof.
  rewrite !lex_lt, !Z.compare_lt_iff, !Z.compare_eq_iff. intuition lia.
Qed.

Lemma compare_lt_trans a b c :
  Datetime.compare a b = Lt -> Datetime.compare b c = Lt -> Datetime.compare a c = Lt.
Proof.
  rewrite !compare_lex.
  apply lex_trans, lex_trans, lex_trans, lex_trans.
  rewrite !Z.compare_lt_iff. lia.
Qed.

Lemma compare_eq a b : Datetime.compare a b = Eq -> a = b.
Proof.
  rewrite compare_lex. unfold lex.
  destruct (dt_year a ?= dt_year b) eqn:E1; try discriminate.
  destruct (dt_month a ?= dt_month b) eqn:E2; try discriminate.
  destruct (dt_day a ?= dt_day b) eqn:E3; try discriminate.
  destruct (dt_hour a ?= dt_hour b) eqn:E4; try discriminate.
  intros E5. apply Z.compare_eq_iff in E1, E2, E3, E4, E5.
  destruct a, b; cbn in *; congruence.
Qed.

(** [x < b] and [b <= a] give [x < a]. *)
Lemma ltb_leb_trans x b a :
  Datetime.ltb x b = true -> Datetime.leb b a = true -> Datetime.ltb x a = true.
Proof.
  unfold Datetime.ltb, Datetime.leb.
  destruct (Datetime.compare x b) eqn:E1; try discriminate.
  destruct (Datetime.compare b a) eqn:E2; try discriminate; intros _ _.
  - apply compare_eq in E2. subst. rewrite E1. reflexivity.
  - rewrite (compare_lt_trans _ _ _ E1 E2). reflexivity.
Qed.

Lemma leb_ltb_trans a b x :
  Datetime.leb a b = true -> Datetime.ltb b x = true -> Datetime.ltb a x = true.
Proof.
  unfold Datetime.ltb, Datetime.leb.
  destruct (Datetime.compare a b) eqn:E1; try discriminate;
    destruct (Datetime.compare b x) eqn:E2; try discriminate; intros _ _.
  - apply compare_eq in E1. subst. rewrite E2. reflexivity.
  - rewrite (compare_lt_trans _ _ _ E1 E2). reflexivity.
Qed.

Lemma rejects_replace q key v rejects :
  key_rejects (<[key := v]> q) key rejects = rejects v.
Proof. unfold key_rejects. rewrite lookup_insert_eq. reflexivity. Qed.

End BoundFacts.

(** X13. A key that is none of the six the matcher looks at changes
    nothing: with it or without it, whatever its value, the query
    matches the same records. *)
Theorem unrecognised_key_ignored f q k v :
  ~ In k recognised_keys ->
  flight_matches_query f (<[k := v]> q) = flight_matches_query f q.
Proof.
  intros Hk. unfold flight_matches_query.
  rewrite !QueryFacts.key_rejects_insert_ne; [reflexivity | ..];
    intros ->; apply Hk; cbn; auto 10.
Qed.

Lemma unrecognised_key_ignored_witness :
  flight_matches_query
    (mk_flight "AB12" "JFK" "LAX" "2024-01-01 08:00" "2024-01-01 10:00" Float.one)
    (<["airline" := JStr "XY"]> {["origin" := JStr "JFK"]})
  = flight_matches_query
      (mk_flight "AB12" "JFK" "LAX" "2024-01-01 08:00" "2024-01-01 10:00" Float.one)
      {["origin" := JStr "JFK"]}.
Proof.
  apply (unrecognised_key_ignored _ {["origin" := JStr "JFK"]} "airline" (JStr "XY")).
  cbn. intros H. repeat destruct H as [H|H]; try discriminate H. exact H.
Defined.

(** X14. A price bound never excludes a record whose price is the NaN
    value: when the query's price converts to a number, the record
    matches the query exactly when it matches the query without its
    price. *)
Theorem nan_price_passes_bound f q v bound :
  price f = S754_nan ->
  q !! "price" = Some v ->
  json_float v = Ok bound ->
  flight_matches_query f q = flight_matches_query f (delete "price" q).
Proof.
  intros Hnan Hq Hb. unfold flight_matches_query.
  assert (Hother : forall key r, key <> "price" ->
            key_rejects (delete "price" q) key r = key_rejects q key r).
  { intros key r Hne. unfold key_rejects. rewrite lookup_delete_ne; [reflexivity | congruence]. }
  rewrite (Hother "flight_id"), (Hother "origin"), (Hother "destination"),
    (Hother "departure_datetime"), (Hother "arrival_datetime") by discriminate.
  assert (Hp : key_rejects q "price" (price_rejects f) = false).
  { unfold key_rejects, price_rejects. rewrite Hq, Hb, Hnan.
    unfold SFltb. destruct bound as [s|s| |s m e]; try destruct s; reflexivity. }
  assert (Hd : key_rejects (delete "price" q) "price" (price_rejects f) = false).
  { unfold key_rejects. rewrite lookup_delete_eq. reflexivity. }
  rewrite Hp, Hd. reflexivity.
Qed.

Lemma nan_price_passes_bound_witness :
  flight_matches_query
    (mk_flight "AB12" "JFK" "LAX" "2024-01-01 08:00" "2024-01-01 10:00" S754_nan)
    {["price" := JInt 1]}
  = flight_matches_query
      (mk_flight "AB12" "JFK" "LAX" "2024-01-01 08:00" "2024-01-01 10:00" S754_nan)
      (delete "price" {["price" := JInt 1]}).
Proof.
  apply (nan_price_passes_bound _ {["price" := JInt 1]} (JInt 1) Float.one);
    reflexivity.
Defined.

(** X15. Moving a timestamp bound outwards keeps every match: a record
    that matches a query whose departure bound is [t] matches it with
    any earlier departure bound [t'], and a record that matches with
    the arrival bound [t] matches with any later arrival bound [t']. *)
Theorem relaxed_bound_keeps_match f q key t t' a b :
  flight_matches_query f (<[key := JStr t]> q) = true ->
  parse_datetime t = Ok a ->
  parse_datetime t' = Ok b ->
  (key = "departure_datetime" /\ Datetime.leb b a = true)
  \/ (key = "arrival_datetime" /\ Datetime.leb a b = true) ->
  flight_matches_query f (<[key := JStr t']> q) = true.
Proof.
  intros Hm Ha Hb Hkey. unfold flight_matches_query in *.
  destruct Hkey as [[-> Hle] | [-> Hle]].
  - repeat rewrite (QueryFacts.key_rejects_insert_ne _ "departure_datetime" _ "flight_id"),
      (QueryFacts.key_rejects_insert_ne _ "departure_datetime" _ "origin"),
      (QueryFacts.key_rejects_insert_ne _ "departure_datetime" _ "destination"),
      (QueryFacts.key_rejects_insert_ne _ "departure_datetime" _ "price"),
      (QueryFacts.key_rejects_insert_ne _ "departure_datetime" _ "arrival_datetime")
      in * by discriminate.
    rewrite BoundFacts.rejects_replace in *.
    destruct (key_rejects q "flight_id" _); [discriminate Hm|].
    destruct (key_rejects q "origin" _); [discriminate Hm|].
    destruct (key_rejects q "destination" _); [discriminate Hm|].
    destruct (key_rejects q "price" _); [discriminate Hm|].
    destruct (departure_rejects f (JStr t)) eqn:Et; [discriminate Hm|].
    assert (Hd : departure_rejects f (JStr t') = false).
    { revert Et. unfold departure_rejects, json_datetime. rewrite Ha, Hb.
      destruct (parse_datetime (departure_datetime f)) as [x|]; [|discriminate].
      destruct (Datetime.ltb x b) eqn:E; [|reflexivity].
      rewrite (BoundFacts.ltb_leb_trans _ _ _ E Hle). discriminate. }
    rewrite Hd. exact Hm.
  - repeat rewrite (QueryFacts.key_rejects_insert_ne _ "arrival_datetime" _ "flight_id"),
      (QueryFacts.key_rejects_insert_ne _ "arrival_datetime" _ "origin"),
      (QueryFacts.key_rejects_insert_ne _ "arrival_datetime" _ "destination"),
      (QueryFacts.key_rejects_insert_ne _ "arrival_datetime" _ "price"),
      (QueryFacts.key_rejects_insert_ne _ "arrival_datetime" _ "departure_datetime")
      in * by discriminate.
    rewrite BoundFacts.rejects_replace in *.
    destruct (key_rejects q "flight_id" _); [discriminate Hm|].
    destruct (key_rejects q "origin" _); [discriminate Hm|].
    destruct (key_rejects q "destination" _); [discriminate Hm|].
    destruct (key_rejects q "price" _); [discriminate Hm|].
    destruct (key_rejects q "departure_datetime" _); [discriminate Hm|].
    destruct (arrival_rejects f (JStr t)) eqn:Et; [discriminate Hm|].
    assert (Hd : arrival_rejects f (JStr t') = false).
    { revert Et. unfold arrival_rejects, json_datetime, Datetime.gtb. rewrite Ha, Hb.
      destruct (parse_datetime (arrival_datetime f)) as [x|]; [|discriminate].
      destruct (Datetime.ltb b x) eqn:E; [|reflexivity].
      rewrite (BoundFacts.leb_ltb_trans _ _ _ Hle E). discriminate. }
    rewrite Hd. reflexivity.
Qed.

Lemma relaxed_bound_keeps_match_witness :
  flight_matches_query
    (mk_flight "AB12" "JFK" "LAX" "2024-01-01 08:00" "2024-01-01 10:00" Float.one)
    (<["departure_datetime" := JStr "2024-01-01 07:00"]> ∅)
  = true.
Proof.
  apply (relaxed_bound_keeps_match _ ∅ "departure_datetime" "2024-01-01 08:00"
           "2024-01-01 07:00" (mk_datetime 2024 1 1 8 0) (mk_datetime 2024 1 1 7 0)).
  - reflexivity.
  - reflexivity.
  - reflexivity.
  - left. split; reflexivity.
Defined.

(** X16. The results of a run are one per query, in the order of the
    queries, and the matches of each are records of the store in store
    order; the empty query gives the whole store. *)
Theorem run_queries_results db queries :
  map fst (run_queries db queries) = queries
  /\ Forall (fun r => sublist (snd r) db) (run_queries db queries)
  /\ matches db ∅ = db.
Proof.
  unfold run_queries. split; [|split].
  - rewrite map_map. cbn. apply map_id.
  - apply List.Forall_forall. intros r Hr. apply in_map_iff in Hr as (q & <- & _).
    cbn. unfold matches. apply sublist_filter.
  - unfold matches. induction db as [|f db IH]; [reflexivity|].
    rewrite filter_cons. rewrite decide_True by reflexivity. f_equal. exact IH.
Qed.

(** ** Timestamps written in the fixed format *)

Module StampFacts.

Local Open Scope Z_scope.
#[local] Arguments String.append !s1 s2 : simpl nomatch.

Lemma digit_decimal a : 0 <= a < 10 -> Char.isdecimal (FloatRepr.digit_char a) = true.
Proof.
  intros H. assert (E : a = 0 \/ a = 1 \/ a = 2 \/ a = 3 \/ a = 4 \/ a = 5 \/ a = 6 \/ a = 7
                        \/ a = 8 \/ a = 9) by lia.
  repeat (destruct E as [-> | E]; [reflexivity|]). subst a. reflexivity.
Qed.

Lemma decimal_not_space c : Char.isdecimal c = true -> negb (Char.isspace c) = true.
Proof. FieldFacts.by_cases_on_char c. Qed.

Lemma strip_decimal s : Str.all Char.isdecimal s = true -> Str.strip s = s.
Proof.
  intros H. unfold Str.strip, Str.strip_of.
  assert (Hn : Str.all (fun c => negb (Char.isspace c)) s = true)
    by (revert H; apply TextFacts.all_mono, decimal_not_space).
  rewrite (TextFacts.lstrip_of_none _ _ Hn). apply TextFacts.rstrip_of_none, Hn.
Qed.

Lemma int_of_pad4 y : 0 <= y <= 9999 -> Datetime.int_of_group (pad4 y) = y.
Proof.
  intros H. unfold Datetime.int_of_group.
  assert (H1 : 0 <= y / 1000 < 10) by (split; [apply Z.div_pos | apply Z.div_lt_upper_bound]; lia).
  assert (H2 : 0 <= y / 100 mod 10 < 10) by (apply Z.mod_pos_bound; lia).
  assert (H3 : 0 <= y / 10 mod 10 < 10) by (apply Z.mod_pos_bound; lia).
  assert (H4 : 0 <= y mod 10 < 10) by (apply Z.mod_pos_bound; lia).
  rewrite strip_decimal
    by (unfold pad4; cbn [Str.all]; rewrite !digit_decimal by assumption; reflexivity).
  unfold pad4. cbn [Datetime.digits_value].
  rewrite !TextFacts.digit_char_value by assumption.
  assert (E1 : y / 10 / 10 = y / 100) by (rewrite Z.div_div by lia; reflexivity).
  assert (E2 : y / 100 / 10 = y / 1000) by (rewrite Z.div_div by lia; reflexivity).
  pose proof (Z.div_mod y 10 ltac:(lia)).
  pose proof (Z.div_mod (y / 10) 10 ltac:(lia)).
  pose proof (Z.div_mod (y / 100) 10 ltac:(lia)).
  lia.
Qed.

Lemma int_of_pad2 n : 0 <= n <= 99 -> Datetime.int_of_group (pad2 n) = n.
Proof.
  intros H. unfold Datetime.int_of_group.
  assert (H1 : 0 <= n / 10 < 10) by (split; [apply Z.div_pos | apply Z.div_lt_upper_bound]; lia).
  assert (H2 : 0 <= n mod 10 < 10) by (apply Z.mod_pos_bound; lia).
  rewrite strip_decimal
    by (unfold pad2; cbn [Str.all]; rewrite !digit_decimal by assumption; reflexivity).
  unfold pad2. cbn [Datetime.digits_value].
  rewrite !TextFacts.digit_char_value by assumption.
  pose proof (Z.div_mod n 10 ltac:(lia)). lia.
Qed.

(** The year: four digits, whatever follows. *)
Lemma run_year {A} y rest (k : string -> string -> option A) :
  0 <= y <= 9999 -> Re.run Re.re_Y (pad4 y +:+ rest) k = k (pad4 y) rest.
Proof.
  intros H.
  assert (H1 : 0 <= y / 1000 < 10) by (split; [apply Z.div_pos | apply Z.div_lt_upper_bound]; lia).
  assert (H2 : 0 <= y / 100 mod 10 < 10) by (apply Z.mod_pos_bound; lia).
  assert (H3 : 0 <= y / 10 mod 10 < 10) by (apply Z.mod_pos_bound; lia).
  assert (H4 : 0 <= y mod 10 < 10) by (apply Z.mod_pos_bound; lia).
  unfold pad4, Re.re_Y, Re.d. cbn [Re.run String.append].
  rewrite !digit_decimal by assumption. reflexivity.
Qed.

(** The other fields: the first alternative of the pattern that matches
    at all takes both digits. *)
Ltac by_value n lo tac :=
  let i := fresh "i" in
  let Ei := fresh "Ei" in
  let En := fresh "En" in
  remember (Z.to_nat (n - lo)) as i eqn:Ei;
  assert (En : n = lo + Z.of_nat i) by lia;
  subst n;
  repeat (destruct i as [|i]; [tac|]);
  exfalso; lia.

Ltac by_continuation Hk := cbv in Hk |- *; rewrite Hk; reflexivity.

Lemma run_month {A} m rest (k : string -> string -> option A) a :
  1 <= m <= 12 -> k (pad2 m) rest = Some a -> Re.run Re.re_m (pad2 m +:+ rest) k = Some a.
Proof. intros H Hk. by_value m 1 ltac:(clear H; by_continuation Hk). Qed.

Lemma run_day {A} d rest (k : string -> string -> option A) a :
  1 <= d <= 31 -> k (pad2 d) rest = Some a -> Re.run Re.re_d (pad2 d +:+ rest) k = Some a.
Proof. intros H Hk. by_value d 1 ltac:(clear H; by_continuation Hk). Qed.

(** The blank takes one character, the hour starting with a digit. *)
Lemma run_blank_hour {A} h rest (k : string -> string -> option A) a :
  0 <= h <= 23 -> k (pad2 h) rest = Some a ->
  Re.run Re.s_plus (" " +:+ pad2 h +:+ rest) (fun _ s => Re.run Re.re_H s k) = Some a.
Proof. intros H Hk. by_value h 0 ltac:(clear H; by_continuation Hk). Qed.

Lemma run_minute {A} mi (k : string -> string -> option A) a :
  0 <= mi <= 59 -> k (pad2 mi) "" = Some a -> Re.run Re.re_M (pad2 mi) k = Some a.
Proof. intros H Hk. by_value mi 0 ltac:(clear H; by_continuation Hk). Qed.

Lemma match_stamp y m d h mi :
  0 <= y <= 9999 -> 1 <= m <= 12 -> 1 <= d <= 31 -> 0 <= h <= 23 -> 0 <= mi <= 59 ->
  Re.match_format (stamp y m d h mi)
  = Some ({| Re.g_Y := pad4 y; Re.g_m := pad2 m; Re.g_d := pad2 d;
             Re.g_H := pad2 h; Re.g_M := pad2 mi |}, "").
Proof.
  intros Hy Hm Hd Hh Hmi. unfold Re.match_format, stamp.
  rewrite run_year by exact Hy.
  change (Re.run (Re.chr "-") ("-" +:+ ?s) ?k) with (k "-" s). cbv beta.
  apply run_month; [exact Hm|].
  change (Re.run (Re.chr "-") ("-" +:+ ?s) ?k) with (k "-" s). cbv beta.
  apply run_day; [exact Hd|].
  apply run_blank_hour; [exact Hh|].
  change (Re.run (Re.chr ":") (":" +:+ ?s) ?k) with (k ":" s). cbv beta.
  apply run_minute; [exact Hmi|]. reflexivity.
Qed.

Lemma days_in_month_le y m : Datetime.days_in_month y m <= 31.
Proof.
  unfold Datetime.days_in_month.
  destruct (m =? 2); [destruct (Datetime.is_leap y); lia|].
  destruct (_ || _); lia.
Qed.

End StampFacts.

(** X18. A timestamp written in the fixed format, that is a year of four
    digits from 0001 on, and a month, a day of that month, an hour and a
    minute of two digits each, is accepted by [parse_datetime], which
    returns that very instant. *)
Theorem parse_datetime_fixed_format (y m d h mi : Z) :
  (1 <= y <= 9999)%Z -> (1 <= m <= 12)%Z -> (1 <= d <= Datetime.days_in_month y m)%Z ->
  (0 <= h <= 23)%Z -> (0 <= mi <= 59)%Z ->
  parse_datetime (stamp y m d h mi) = Ok (mk_datetime y m d h mi).
Proof.
  intros Hy Hm Hd Hh Hmi.
  pose proof (StampFacts.days_in_month_le y m) as Hle.
  unfold parse_datetime, Datetime.strptime.
  rewrite StampFacts.match_stamp by lia.
  cbn [Str.is_empty negb Re.g_Y Re.g_m Re.g_d Re.g_H Re.g_M].
  rewrite StampFacts.int_of_pad4, !StampFacts.int_of_pad2 by lia.
  unfold Datetime.construct.
  rewrite (proj2 (Z.leb_le 1 y)), (proj2 (Z.leb_le y 9999)), (proj2 (Z.leb_le 1 m)),
    (proj2 (Z.leb_le m 12)), (proj2 (Z.leb_le 1 d)),
    (proj2 (Z.leb_le d (Datetime.days_in_month y m))), (proj2 (Z.leb_le 0 h)),
    (proj2 (Z.leb_le h 23)), (proj2 (Z.leb_le 0 mi)), (proj2 (Z.leb_le mi 59)) by lia.
  reflexivity.
Qed.

Lemma parse_datetime_fixed_format_witness :
  parse_datetime (stamp 2024 2 29 8 5) = Ok (mk_datetime 2024 2 29 8 5).
Proof.
  apply (parse_datetime_fixed_format 2024 2 29 8 5); vm_compute; split; congruence.
Defined.

Example stamp_example : stamp 2024 2 29 8 5 = "2024-02-29 08:05".
Proof. reflexivity. Qed.

(** X19. [parse_datetime] returns instants of the calendar only: a year
    from 1 to 9999, a month from 1 to 12, a day that the month has in
    that year, an hour below 24 and a minute below 60. *)
Theorem parse_datetime_calendar value dt :
  parse_datetime value = Ok dt ->
  (1 <= dt_year dt <= 9999)%Z /\ (1 <= dt_month dt <= 12)%Z
  /\ (1 <= dt_day dt <= Datetime.days_in_month (dt_year dt) (dt_month dt))%Z
  /\ (0 <= dt_hour dt <= 23)%Z /\ (0 <= dt_minute dt <= 59)%Z.
Proof.
  unfold parse_datetime, Datetime.strptime.
  destruct (Re.match_format value) as [[g rest]|]; [|discriminate].
  destruct (negb (Str.is_empty rest)); [discriminate|].
  unfold Datetime.construct.
  repeat match goal with
  | |- context [negb ((?a <=? ?b)%Z && (?c <=? ?d)%Z)] =>
      destruct (Z.leb_spec a b); destruct (Z.leb_spec c d); cbn [andb negb];
      try discriminate
  end.
  intros Hok. injection Hok as <-. cbn. lia.
Qed.

Lemma parse_datetime_calendar_witness :
  (1 <= 2024 <= 9999)%Z /\ (1 <= 2 <= 12)%Z
  /\ (1 <= 29 <= Datetime.days_in_month 2024 2)%Z
  /\ (0 <= 8 <= 23)%Z /\ (0 <= 5 <= 59)%Z.
Proof.
  apply (parse_datetime_calendar "2024-02-29 08:05" (mk_datetime 2024 2 29 8 5)).
  reflexivity.
Defined.

(** ** The error report *)

Definition line_feed : ascii := ascii_of_N 10.

Definition one_line (s : string) : bool :=
  Str.all (fun c => negb (Ascii.eqb c line_feed)) s.

Module ReportFacts.
#[local] Arguments String.append !s1 s2 : simpl nomatch.

Lemma split_line e t :
  one_line e = true ->
  Str.split line_feed (e +:+ String line_feed t) = e :: Str.split line_feed t.
Proof.
  unfold one_line. induction e as [|c e IH]; intros H.
  - cbn [String.append Str.split]. rewrite Ascii.eqb_refl. reflexivity.
  - cbn [Str.all] in H. apply andb_true_iff in H as [Hc He].
    apply negb_true_iff in Hc.
    cbn [String.append Str.split]. rewrite Hc, (IH He). reflexivity.
Qed.

Lemma split_errors_text entries :
  Forall (fun e => one_line e = true) entries ->
  Str.split line_feed (errors_text entries) = entries ++ [""].
Proof.
  induction 1 as [|e es He Hes IH]; [reflexivity|].
  cbn [errors_text app]. unfold Json.newline. fold line_feed.
  change (String line_feed "" +:+ errors_text es) with (String line_feed (errors_text es)).
  rewrite (split_line _ _ He), IH. reflexivity.
Qed.

End ReportFacts.

(** X17. The report [save_errors_txt] writes holds the entries one per
    line, in order: cut at the line feeds, the text read back from the
    path gives the entries and one empty piece after the last line
    feed, no entry holding a line feed itself. *)
Theorem saved_errors_lines entries path d d' :
  Forall (fun e => one_line e = true) entries ->
  save_errors_txt entries path d = Ok d' ->
  exists text,
    read_text path d' = Ok text /\ Str.split line_feed text = entries ++ [""].
Proof.
  intros Hone. unfold save_errors_txt, write_text, read_text.
  destruct (disk_refuses d path); [discriminate|].
  intros H. injection H as <-. cbn [disk_texts disk_file]. rewrite lookup_insert_eq.
  eexists. split; [reflexivity|]. apply ReportFacts.split_errors_text, Hone.
Qed.

Lemma saved_errors_lines_witness :
  exists text,
    read_text "errors.txt"
      (mk_disk {["errors.txt" := errors_text ["Line 2: # note -> comment"]]} (fun _ => false) (fun path => path))
    = Ok text
    /\ Str.split line_feed text = ["Line 2: # note -> comment"] ++ [""].
Proof.
  apply (saved_errors_lines ["Line 2: # note -> comment"] "errors.txt"
           (mk_disk ∅ (fun _ => false) (fun path => path))).
  - repeat constructor.
  - reflexivity.
Defined.

(** ** Every float the program computes is a binary64 value *)

Module ValidFacts.
Import RoundFacts.
Local Open Scope Z_scope.

Section Rounded.
Variables prec emax : Z.
Hypothesis Hprec : 0 < prec.

Lemma fexp_step x :
  fexp prec emax (x + 1) = fexp prec emax x \/ fexp prec emax (x + 1) = fexp prec emax x + 1.
Proof. unfold fexp. lia. Qed.

Lemma shr_1_half r : 0 <= shr_m r -> shr_m (shr_1 r) = shr_m r / 2.
Proof.
  destruct r as [m r s]. cbn [shr_m]. intros Hm.
  destruct m as [|p|p]; [reflexivity| |lia].
  destruct p as [p|p|]; cbn [shr_1 shr_m].
  - rewrite Pos2Z.inj_xI. apply Z.div_unique with (r := 1); lia.
  - rewrite Pos2Z.inj_xO. apply Z.div_unique with (r := 0); lia.
  - reflexivity.
Qed.

Lemma iter_shr_half (n : nat) r :
  0 <= shr_m r -> shr_m (Nat.iter n shr_1 r) = shr_m r / 2 ^ Z.of_nat n.
Proof.
  intros Hm. induction n as [|n IH].
  - cbn. rewrite Z.div_1_r. reflexivity.
  - rewrite Nat.iter_succ, shr_1_half, IH.
    + rewrite Nat2Z.inj_succ, Z.pow_succ_r, Z.mul_comm by lia.
      rewrite Z.div_div by (try apply Z.pow_pos_nonneg; lia). reflexivity.
    + rewrite IH. apply Z.div_pos; [exact Hm | apply Z.pow_pos_nonneg; lia].
Qed.

(** The digits of a shifted mantissa. *)
Lemma digits_shifted m n :
  0 < m -> 0 <= n -> n < Zdigits2 m ->
  0 < m / 2 ^ n /\ Zdigits2 (m / 2 ^ n) = Zdigits2 m - n.
Proof.
  intros Hm Hn Hlt. rewrite Zdigits2_log2 in Hlt by exact Hm.
  assert (Hpow : 2 ^ n <= m).
  { apply Z.le_trans with (2 ^ Z.log2 m).
    - apply Z.pow_le_mono_r; lia.
    - apply Z.log2_spec, Hm. }
  assert (Hpos : 0 < m / 2 ^ n).
  { apply Z.div_str_pos. split; [apply Z.pow_pos_nonneg; lia | exact Hpow]. }
  split; [exact Hpos|].
  rewrite !Zdigits2_log2 by assumption.
  rewrite <- Z.shiftr_div_pow2 by exact Hn.
  rewrite Z.log2_shiftr by exact Hm. lia.
Qed.

Lemma all_shifted m n : 0 < m -> Zdigits2 m <= n -> m / 2 ^ n = 0.
Proof.
  intros Hm Hn. rewrite Zdigits2_log2 in Hn by exact Hm.
  apply Z.div_small. split; [lia|].
  apply Z.lt_le_trans with (2 ^ (Z.log2 m + 1)).
  - replace (Z.log2 m + 1) with (Z.succ (Z.log2 m)) by lia. apply Z.log2_spec, Hm.
  - apply Z.pow_le_mono_r; lia.
Qed.

Lemma digits_succ m :
  0 < m -> Zdigits2 (m + 1) = Zdigits2 m \/ Zdigits2 (m + 1) = Zdigits2 m + 1.
Proof.
  intros Hm. rewrite !Zdigits2_log2 by lia.
  destruct (Z.log2_succ_or m) as [H|H]; unfold Z.succ in H; lia.
Qed.

(** The mantissa and exponent [binary_round] rounds: either nothing is
    left of the mantissa, at the least exponent, or the pair is
    canonical. *)
Definition aligned (m t : Z) : Prop :=
  0 <= m /\ fexp prec emax (Z.max 1 (Zdigits2 m) + t) = t.

Lemma settle_aligned M E :
  0 < M ->
  aligned (shr_m (settle M E (fexp prec emax (Zdigits2 M + E))))
          (fexp prec emax (Zdigits2 M + E)).
Proof.
  intros HM. set (t := fexp prec emax (Zdigits2 M + E)).
  assert (HD : 0 < Zdigits2 M) by (rewrite Zdigits2_log2 by exact HM; pose proof (Z.log2_nonneg M); lia).
  unfold settle, aligned.
  destruct (Z_le_gt_dec t E) as [Hle|Hgt].
  - replace (Z.to_nat (t - E)) with 0%nat by lia. cbn [Nat.iter nat_rect exact_record shr_m].
    rewrite Z.max_r by lia.
    assert (Hpos : 0 < M * 2 ^ (E - t))
      by (apply Z.mul_pos_pos; [exact HM | apply Z.pow_pos_nonneg; lia]).
    split; [lia|].
    rewrite Zdigits2_shift by lia. rewrite Z.max_r by lia.
    replace (Zdigits2 M + (E - t) + t) with (Zdigits2 M + E) by lia. reflexivity.
  - rewrite Z.max_l by lia. rewrite Z.mul_1_r.
    rewrite iter_shr_half by (cbn; lia). cbn [exact_record shr_m].
    rewrite Z2Nat.id by lia.
    destruct (Z_lt_le_dec (t - E) (Zdigits2 M)) as [Hin|Hout].
    + destruct (digits_shifted M (t - E) HM ltac:(lia) Hin) as [Hpos Hd].
      split; [lia|]. rewrite Hd, Z.max_r by lia.
      replace (Zdigits2 M - (t - E) + t) with (Zdigits2 M + E) by lia. reflexivity.
    + rewrite (all_shifted M (t - E) HM Hout). split; [lia|].
      cbn [Zdigits2]. rewrite Z.max_l by lia.
      unfold t, fexp in *. lia.
Qed.

Lemma round_nearest_even_step m l :
  round_nearest_even m l = m \/ round_nearest_even m l = m + 1.
Proof.
  unfold round_nearest_even. destruct l as [|[]]; auto. destruct (Z.even m); auto.
Qed.

Lemma finish_valid sx mrs t :
  aligned (shr_m mrs) t -> valid_binary prec emax (finish prec emax sx (mrs, t)) = true.
Proof.
  intros [Hm Ht]. unfold finish.
  set (m2 := round_nearest_even (shr_m mrs) (loc_of_shr_record mrs)).
  assert (Hm2 : 0 <= m2)
    by (unfold m2; destruct (round_nearest_even_step (shr_m mrs) (loc_of_shr_record mrs)); lia).
  unfold shr_fexp. rewrite shr_as_iter. cbn [shr_record_of_loc].
  set (n2 := fexp prec emax (Zdigits2 m2 + t) - t).
  rewrite (iter_shr_half _ (Build_shr_record m2 false false)) by exact Hm2.
  cbn [shr_m].
  destruct (Z.eq_dec m2 0) as [E0|Hne].
  - rewrite E0. rewrite Z.div_0_l by (apply Z.pow_nonzero; lia). reflexivity.
  - assert (Hpos : 0 < m2) by lia.
    assert (Hn2 : 0 <= n2 < Zdigits2 m2).
    { unfold n2, m2 in *.
      destruct (round_nearest_even_step (shr_m mrs) (loc_of_shr_record mrs)) as [E|E];
        rewrite E in *.
      - rewrite Z.max_r in Ht
          by (rewrite Zdigits2_log2 by lia; pose proof (Z.log2_nonneg (shr_m mrs)); lia).
        rewrite Ht. rewrite Zdigits2_log2 by lia. pose proof (Z.log2_nonneg (shr_m mrs)). lia.
      - destruct (Z.eq_dec (shr_m mrs) 0) as [Ez|Hnz].
        + rewrite Ez in *. change (Zdigits2 (0 + 1)) with 1.
          change (Z.max 1 (Zdigits2 0)) with 1 in Ht. rewrite Ht. lia.
        + assert (Hp1 : 0 < shr_m mrs) by lia.
          assert (Hd1 : 0 < Zdigits2 (shr_m mrs))
            by (rewrite Zdigits2_log2 by lia; pose proof (Z.log2_nonneg (shr_m mrs)); lia).
          rewrite Z.max_r in Ht by lia.
          destruct (digits_succ _ Hp1) as [Ed|Ed]; rewrite Ed.
          * rewrite Ht. lia.
          * replace (Zdigits2 (shr_m mrs) + 1 + t) with (Zdigits2 (shr_m mrs) + t + 1) by lia.
            destruct (fexp_step (Zdigits2 (shr_m mrs) + t)) as [Ef|Ef]; rewrite Ef, Ht; lia. }
    rewrite Z2Nat.id by lia.
    destruct (digits_shifted m2 n2 Hpos (proj1 Hn2) (proj2 Hn2)) as [Hp3 Hd3].
    destruct (m2 / 2 ^ n2) as [|p|p] eqn:E3; try lia.
    destruct (t + Z.max 0 n2 <=? emax - prec) eqn:Ele; [|reflexivity].
    cbn [valid_binary]. unfold bounded, canonical_mantissa. rewrite Ele, andb_true_r.
    apply Z.eqb_eq. change (Zpos (digits2_pos p)) with (Zdigits2 (Zpos p)).
    rewrite Hd3. unfold n2. rewrite Z.max_r by lia.
    replace (Zdigits2 m2 - (fexp prec emax (Zdigits2 m2 + t) - t)
             + (t + (fexp prec emax (Zdigits2 m2 + t) - t)))
      with (Zdigits2 m2 + t) by lia.
    lia.
Qed.

Lemma binary_round_valid sx mx ex :
  valid_binary prec emax (binary_round prec emax sx mx ex) = true.
Proof.
  rewrite binary_round_settle. apply finish_valid, settle_aligned. lia.
Qed.

Lemma binary_normalize_valid m e sz :
  valid_binary prec emax (binary_normalize prec emax m e sz) = true.
Proof.
  destruct m; cbn [binary_normalize]; [reflexivity | apply binary_round_valid ..].
Qed.

End Rounded.

Definition valid (x : spec_float) : Prop := valid_binary Float.prec Float.emax x = true.

Lemma round_valid neg m e : valid (Float.round neg m e).
Proof. apply binary_normalize_valid. reflexivity. Qed.

Lemma of_decimal_valid neg m e : valid (Float.of_decimal neg m e).
Proof.
  unfold Float.of_decimal, Float.round_ratio.
  destruct (m =? 0); [reflexivity|].
  destruct (0 <=? e); apply round_valid.
Qed.

Lemma of_str_valid s x : Float.of_str s = Ok x -> valid x.
Proof.
  unfold Float.of_str.
  destruct (Float.without_underscores _) as [t|]; [|discriminate].
  destruct (Float.split_sign _) as [neg body].
  destruct (Float.parse_decimal neg body) as [y|] eqn:Ed.
  - intros [= <-]. revert Ed. unfold Float.parse_decimal.
    destruct (Float.span_digits body) as [ip r1].
    destruct (match r1 with String "." r => Float.span_digits r | _ => ("", r1) end)
      as [fp r2].
    destruct (Str.is_empty ip && Str.is_empty fp); [discriminate|].
    destruct r2 as [|c r3]; [intros [= <-]; apply of_decimal_valid|].
    destruct (Ascii.eqb c "e" || Ascii.eqb c "E"); [|discriminate].
    destruct (Float.split_sign r3) as [eneg r4].
    destruct (Float.span_digits r4) as [ed r5].
    destruct (Str.is_empty ed || negb (Str.is_empty r5)); [discriminate|].
    intros [= <-]. apply of_decimal_valid.
  - unfold Float.parse_inf_or_nan.
    destruct (String.eqb _ "inf" || String.eqb _ "infinity"); [intros [= <-]; reflexivity|].
    destruct (String.eqb _ "nan"); [intros [= <-]; reflexivity | discriminate].
Qed.

Lemma validated_price_valid line n r reason :
  validate_flight_row line n = (Some r, reason) -> valid (price r).
Proof.
  intros H.
  destruct (validate_flight_row_sound _ _ _ _ H) as (-> & _).
  exact (of_str_valid _ _ (AnswerFacts.accepted_price _ _ _ H)).
Qed.

Lemma read_lines_valid lines : forall n r,
  In r (valid_flights (read_lines n lines no_ingest)) -> valid (price r).
Proof.
  induction lines as [|line rest IH]; intros n r Hr; [destruct Hr|].
  cbn [read_lines] in Hr. rewrite AppendFacts.read_lines_app in Hr.
  cbn [ingest_app valid_flights] in Hr. apply in_app_iff in Hr as [Hr|Hr].
  - exact (validated_price_valid _ _ _ _ (AppendFacts.process_line_record _ _ _ Hr)).
  - exact (IH _ _ Hr).
Qed.

Lemma ingested_valid fs csv_file folder :
  Forall (fun f => valid (price f)) (valid_flights (parse_input_sources fs csv_file folder)).
Proof.
  apply List.Forall_forall. intros r Hr.
  unfold parse_input_sources in Hr. rewrite AppendFacts.parse_files_flat in Hr.
  cbn [ingest_app valid_flights app] in Hr. apply in_flat_map in Hr as (path & _ & Hr).
  unfold parse_csv_file, csv_try in Hr.
  destruct (fs_open fs path) as [|lines broken]; cbn [fst] in Hr; [destruct Hr|].
  exact (read_lines_valid _ _ _ Hr).
Qed.

(** The text written at a path is the text read there. *)
Lemma read_written path text d d' :
  write_text path text d = Ok d' -> read_text path d' = Ok text.
Proof.
  unfold write_text, read_text. destruct (disk_refuses d path); [discriminate|].
  intros [= <-]. cbn [disk_texts disk_file]. rewrite lookup_insert_eq. reflexivity.
Qed.

Lemma read_other path path' text d d' :
  disk_file d path <> disk_file d path' ->
  write_text path text d = Ok d' -> read_text path' d' = read_text path' d.
Proof.
  intros Hne. unfold write_text, read_text. destruct (disk_refuses d path); [discriminate|].
  intros [= <-]. cbn [disk_texts disk_file]. rewrite lookup_insert_ne by exact Hne. reflexivity.
Qed.

(** Two paths to one file read the same text. *)
Lemma read_same_file path path' d :
  disk_file d path = disk_file d path' -> read_text path d = read_text path' d.
Proof. intros H. unfold read_text. rewrite H. reflexivity. Qed.

(** A write leaves the files of the paths as they are. *)
Lemma write_keeps_files path text d d' :
  write_text path text d = Ok d' -> disk_file d' = disk_file d.
Proof.
  unfold write_text. destruct (disk_refuses d path); [discriminate|].
  intros [= <-]. reflexivity.
Qed.

End ValidFacts.



(** ** The matcher on loaded values and the matcher on records *)

(** A query object as the finite map of its members. *)
Definition query_map (members : list (string * json)) : gmap string json :=
  list_to_map members.

Module DynFacts.

Lemma assoc_lookup members key : Py.assoc key members = query_map members !! key.
Proof.
  unfold query_map. induction members as [|[k v] rest IH]; [reflexivity|].
  cbn [Py.assoc list_to_map foldr uncurry]. cbn.
  destruct (String.eqb_spec key k) as [->|Hne].
  - rewrite lookup_insert_eq. reflexivity.
  - rewrite lookup_insert_ne by congruence. exact IH.
Qed.

Lemma text_rejects_record flight members key field :
  Py.assoc key flight = Some (JStr field) ->
  Dyn.text_rejects (JObj flight) (JObj members) key
  = Done (key_rejects (query_map members) key (str_ne field)).
Proof.
  intros Hf. unfold Dyn.text_rejects, key_rejects. cbn [Py.contains Py.subscript].
  rewrite <- assoc_lookup, Hf.
  destruct (Py.assoc key members) as [v|]; [|reflexivity].
  cbn [mbind run_bind]. f_equal. unfold Py.ne, str_ne.
  destruct v; reflexivity.
Qed.

Lemma bound_rejects_record {A} (convert : json -> result A) exceeds flight members key x :
  Py.assoc key flight = Some x ->
  Dyn.bound_rejects convert exceeds (JObj flight) (JObj members) key
  = Done (key_rejects (query_map members) key
            (fun v => match convert x, convert v with
                      | Ok a, Ok b => exceeds a b
                      | _, _ => true
                      end)).
Proof.
  intros Hf. unfold Dyn.bound_rejects, Dyn.guarded, key_rejects.
  cbn [Py.contains Py.subscript]. rewrite <- assoc_lookup, Hf.
  destruct (Py.assoc key members) as [v|]; reflexivity.
Qed.

Lemma matches_record f members :
  Dyn.flight_matches_query (flight_json f) (JObj members)
  = Done (flight_matches_query f (query_map members)).
Proof.
  unfold Dyn.flight_matches_query, flight_json.
  rewrite (text_rejects_record _ _ "flight_id" (flight_id f)) by reflexivity.
  rewrite (text_rejects_record _ _ "origin" (origin f)) by reflexivity.
  rewrite (text_rejects_record _ _ "destination" (destination f)) by reflexivity.
  rewrite (bound_rejects_record _ _ _ _ "price" (JFloat (price f))) by reflexivity.
  rewrite (bound_rejects_record _ _ _ _ "departure_datetime" (JStr (departure_datetime f)))
    by reflexivity.
  rewrite (bound_rejects_record _ _ _ _ "arrival_datetime" (JStr (arrival_datetime f)))
    by reflexivity.
  unfold flight_matches_query, Dyn.unless.
  change (fun v => match json_float (JFloat (price f)), json_float v with
                   | Ok a, Ok b => SFltb b a
                   | _, _ => true
                   end) with (price_rejects f).
  change (fun v => match json_datetime (JStr (departure_datetime f)), json_datetime v with
                   | Ok a, Ok b => Datetime.ltb a b
                   | _, _ => true
                   end) with (departure_rejects f).
  change (fun v => match json_datetime (JStr (arrival_datetime f)), json_datetime v with
                   | Ok a, Ok b => Datetime.gtb a b
                   | _, _ => true
                   end) with (arrival_rejects f).
  set (q := query_map members).
  destruct (key_rejects q "flight_id" _); [reflexivity|].
  destruct (key_rejects q "origin" _); [reflexivity|].
  destruct (key_rejects q "destination" _); [reflexivity|].
  destruct (key_rejects q "price" _); [reflexivity|].
  destruct (key_rejects q "departure_datetime" _); [reflexivity|].
  destruct (key_rejects q "arrival_datetime" _); reflexivity.
Qed.

Lemma select_records flights members :
  Dyn.select (map flight_json flights) (JObj members)
  = Done (map flight_json (matches flights (query_map members))).
Proof.
  unfold matches. induction flights as [|f fs IH]; [reflexivity|].
  cbn [map Dyn.select]. rewrite matches_record, IH. cbn [mbind run_bind].
  rewrite filter_cons.
  destruct (flight_matches_query f (query_map members)) eqn:E.
  - rewrite decide_True by reflexivity. reflexivity.
  - rewrite decide_False by discriminate. reflexivity.
Qed.

Lemma answer_records flights queries :
  Dyn.answer (db_json flights) (map JObj queries)
  = Done (map (fun members =>
                 Dyn.response (JObj members)
                   (map flight_json (matches flights (query_map members))))
              queries).
Proof.
  induction queries as [|q qs IH]; [reflexivity|].
  cbn [map Dyn.answer]. unfold Dyn.matches, db_json. cbn [Py.iterate mbind run_bind].
  rewrite select_records. cbn [mbind run_bind].
  unfold db_json in IH. rewrite IH. reflexivity.
Qed.

End DynFacts.

(** X20. On a store of records as the validator builds them and on
    queries that are objects, the run on loaded values does what the
    matcher on records says: it raises nothing, and the response holds,
    for each query in order, the query and the records that
    [flight_matches_query] accepts, in store order. *)
Theorem run_queries_records flights queries :
  Dyn.run_queries (db_json flights) (JArr (map JObj queries))
  = Done (JArr (map (fun members =>
                       Dyn.response (JObj members)
                         (map flight_json (matches flights (query_map members))))
                    queries)).
Proof.
  unfold Dyn.run_queries. cbn [Py.iterate mbind run_bind].
  rewrite DynFacts.answer_records. reflexivity.
Qed.

(** X21. A stored dictionary that holds the keys flight_id, origin and
    destination gets an answer from every query object, whatever else
    the dictionary and the query hold: a price or a timestamp that is
    missing or is no number or no timestamp makes a non-match, never an
    exception. *)
Theorem object_query_answers flight members :
  Py.assoc "flight_id" flight <> None ->
  Py.assoc "origin" flight <> None ->
  Py.assoc "destination" flight <> None ->
  exists answer, Dyn.flight_matches_query (JObj flight) (JObj members) = Done answer.
Proof.
  intros H1 H2 H3.
  assert (Htext : forall key, Py.assoc key flight <> None ->
            exists r, Dyn.text_rejects (JObj flight) (JObj members) key = Done r).
  { intros key Hk. unfold Dyn.text_rejects. cbn [Py.contains Py.subscript].
    destruct (Py.assoc key members) as [v|]; [|eauto].
    destruct (Py.assoc key flight) as [x|]; [|congruence].
    cbn [mbind run_bind]. eauto. }
  assert (Hbound : forall A (convert : json -> result A) exceeds key,
            exists r, Dyn.bound_rejects convert exceeds (JObj flight) (JObj members) key = Done r).
  { intros A convert exceeds key. unfold Dyn.bound_rejects. cbn [Py.contains].
    destruct (Py.assoc key members); eauto. }
  unfold Dyn.flight_matches_query, Dyn.unless.
  destruct (Htext _ H1) as [r1 ->]. destruct r1; [eauto|].
  destruct (Htext _ H2) as [r2 ->]. destruct r2; [eauto|].
  destruct (Htext _ H3) as [r3 ->]. destruct r3; [eauto|].
  destruct (Hbound _ json_float (fun x y => SFltb y x) "price") as [r4 ->].
  destruct r4; [eauto|].
  destruct (Hbound _ json_datetime Datetime.ltb "departure_datetime") as [r5 ->].
  destruct r5; [eauto|].
  destruct (Hbound _ json_datetime Datetime.gtb "arrival_datetime") as [r6 ->].
  destruct r6; eauto.
Qed.

Lemma object_query_answers_witness :
  exists answer,
    Dyn.flight_matches_query
      (JObj [("flight_id", JStr "AB12"); ("origin", JNull); ("destination", JInt 3)])
      (JObj [("price", JStr "cheap"); ("origin", JStr "JFK")])
    = Done answer.
Proof.
  apply (object_query_answers
           [("flight_id", JStr "AB12"); ("origin", JNull); ("destination", JInt 3)]
           [("price", JStr "cheap"); ("origin", JStr "JFK")]); discriminate.
Defined.

(** X22. A stored dictionary without the key a query compares as text
    ends the run: when the query holds flight_id and the dictionary does
    not, the matcher raises [KeyError], whereas a dictionary without a
    price is only a non-match for a query that holds a price. *)
Theorem missing_text_key_raises flight members v :
  Py.assoc "flight_id" flight = None ->
  Py.assoc "flight_id" members = Some v ->
  Dyn.flight_matches_query (JObj flight) (JObj members) = Stop (KeyError "flight_id").
Proof.
  intros Hf Hq. unfold Dyn.flight_matches_query, Dyn.unless, Dyn.text_rejects at 1.
  cbn [Py.contains Py.subscript]. rewrite Hq, Hf. reflexivity.
Qed.

Lemma missing_text_key_raises_witness :
  Dyn.flight_matches_query (JObj [("origin", JStr "JFK")]) (JObj [("flight_id", JStr "AB12")])
  = Stop (KeyError "flight_id").
Proof.
  apply (missing_text_key_raises [("origin", JStr "JFK")] [("flight_id", JStr "AB12")]
           (JStr "AB12")); reflexivity.
Defined.

(** ** The command *)

(** The path of the database in a run on CSV sources, and the
    arguments of that run without its query. *)
Definition out_json (args : namespace) : string :=
  match given (ns_output args) with
  | Some path => path
  | None => DEFAULT_DB_JSON
  end.

Definition without_query (args : namespace) : namespace :=
  mk_namespace (ns_input args) (ns_directory args) (ns_output args) (ns_json_db args) None.

Module MainFacts.

(** A run on CSV sources that is not ended while saving: the files it
    has written before the queries. *)
Lemma ingest_run args fs now w :
  given (ns_json_db args) = None ->
  snd (main (without_query args) fs now w) = None ->
  exists d1 d2,
    let st := parse_input_sources fs (ns_input args) (ns_directory args) in
    save_db_json (valid_flights st) (out_json args) (w_disk w) = Ok d1
    /\ save_errors_txt (error_lines st) DEFAULT_ERRORS_TXT d1 = Ok d2
    /\ main (without_query args) fs now w = (with_disk d2 w, None)
    /\ main args fs now w
       = queries_step args (db_json (valid_flights st)) true now (with_disk d2 w).
Proof.
  intros Hj. unfold main, without_query, out_json. cbn [ns_json_db ns_input ns_directory ns_output].
  rewrite Hj.
  destruct (given (ns_input args)) as [i|] eqn:Ei;
    destruct (given (ns_directory args)) as [dir|] eqn:Ed;
    try (cbn; discriminate).
  all: destruct (save_db_json _ _ (w_disk w)) as [d1|e1] eqn:E1; [|cbn; discriminate].
  all: destruct (save_errors_txt _ _ d1) as [d2|e2] eqn:E2; [|cbn; discriminate].
  all: intros _; exists d1, d2; cbn zeta; rewrite E2; repeat split; reflexivity.
Qed.

Lemma given_given arg path : given arg = Some path -> given (Some path) = Some path.
Proof.
  unfold given. destruct arg as [s|]; [|discriminate].
  destruct (Str.is_empty s) eqn:E; [discriminate|]. intros [= <-]. rewrite E. reflexivity.
Qed.

Lemma given_out_json args : given (Some (out_json args)) = Some (out_json args).
Proof.
  unfold out_json. destruct (given (ns_output args)) as [o|] eqn:E.
  - exact (given_given _ _ E).
  - reflexivity.
Qed.

End MainFacts.

(** X24. Without a database and without a source (each of -j, -i and
    -d absent or empty) the command prints one line and exits with
    status 1; it reads and writes no file, whatever -o and -q say. *)
Theorem main_without_source args fs now w :
  given (ns_json_db args) = None ->
  given (ns_input args) = None ->
  given (ns_directory args) = None ->
  main args fs now w = (print "ERROR: provide -i, -d, or -j" w, Some (SystemExit 1))
  /\ w_disk (fst (main args fs now w)) = w_disk w.
Proof.
  intros Hj Hi Hd. unfold main. rewrite Hj, Hi, Hd. split; reflexivity.
Qed.

Lemma main_without_source_witness :
  main (mk_namespace (Some "") None (Some "out.json") None (Some "q.json"))
       one_row_fs (mk_datetime 2024 1 1 8 0) (mk_world (mk_disk ∅ (fun _ => false) (fun path => path)) [])
  = (print "ERROR: provide -i, -d, or -j" (mk_world (mk_disk ∅ (fun _ => false) (fun path => path)) []),
     Some (SystemExit 1))
  /\ w_disk (fst (main (mk_namespace (Some "") None (Some "out.json") None (Some "q.json"))
                    one_row_fs (mk_datetime 2024 1 1 8 0)
                    (mk_world (mk_disk ∅ (fun _ => false) (fun path => path)) [])))
     = mk_disk ∅ (fun _ => false) (fun path => path).
Proof.
  apply (main_without_source
           (mk_namespace (Some "") None (Some "out.json") None (Some "q.json"))
           one_row_fs (mk_datetime 2024 1 1 8 0) (mk_world (mk_disk ∅ (fun _ => false) (fun path => path)) []));
    reflexivity.
Defined.

(** X25. After a run on CSV sources that saving has not ended, the file
    errors.txt holds the report of the error entries. The database
    path, when it leads to another file than errors.txt does, loads as
    the records ingested; when it leads to the same file, whether it is
    spelled errors.txt or otherwise, the report has replaced the
    database and is what the path reads. *)
Theorem main_saves_store args fs now w :
  given (ns_json_db args) = None ->
  snd (main (without_query args) fs now w) = None ->
  let st := parse_input_sources fs (ns_input args) (ns_directory args) in
  let d := w_disk (fst (main (without_query args) fs now w)) in
  read_text DEFAULT_ERRORS_TXT d = Ok (errors_text (error_lines st))
  /\ (disk_file (w_disk w) (out_json args) <> disk_file (w_disk w) DEFAULT_ERRORS_TXT ->
      load_db_json (out_json args) d = Ok (db_json (valid_flights st)))
  /\ (disk_file (w_disk w) (out_json args) = disk_file (w_disk w) DEFAULT_ERRORS_TXT ->
      read_text (out_json args) d = Ok (errors_text (error_lines st))).
Proof.
  intros Hj Hok.
  destruct (MainFacts.ingest_run args fs now w Hj Hok) as (d1 & d2 & Hdb & Herr & Hmain & _).
  cbn zeta in *. rewrite Hmain. cbn [fst with_disk w_disk].
  pose proof (ValidFacts.write_keeps_files _ _ _ _ Hdb) as Hf1.
  pose proof (ValidFacts.write_keeps_files _ _ _ _ Herr) as Hf2.
  split; [|split].
  - exact (ValidFacts.read_written _ _ _ _ Herr).
  - intros Hne. unfold load_db_json.
    rewrite (ValidFacts.read_other DEFAULT_ERRORS_TXT (out_json args) _ d1 d2
               ltac:(rewrite Hf1; exact (not_eq_sym Hne)) Herr).
    rewrite (ValidFacts.read_written _ _ _ _ Hdb). cbn [mbind result_bind].
    apply StoreFacts.loads_dumps, ValidFacts.ingested_valid.
  - intros Hsame.
    rewrite (ValidFacts.read_same_file (out_json args) DEFAULT_ERRORS_TXT d2)
      by (rewrite Hf2, Hf1; exact Hsame).
    exact (ValidFacts.read_written _ _ _ _ Herr).
Qed.

Definition one_source : namespace := mk_namespace (Some "a.csv") None None None None.

Definition empty_world : world := mk_world (mk_disk ∅ (fun _ => false) (fun path => path)) [].

Lemma main_saves_store_witness :
  read_text DEFAULT_ERRORS_TXT
    (w_disk (fst (main (without_query one_source) one_row_fs (mk_datetime 2024 1 1 8 0)
                    empty_world)))
  = Ok (errors_text (error_lines (parse_input_sources one_row_fs (Some "a.csv") None)))
  /\ (disk_file (w_disk empty_world) (out_json one_source)
      <> disk_file (w_disk empty_world) DEFAULT_ERRORS_TXT ->
      load_db_json (out_json one_source)
        (w_disk (fst (main (without_query one_source) one_row_fs (mk_datetime 2024 1 1 8 0)
                        empty_world)))
      = Ok (db_json (valid_flights (parse_input_sources one_row_fs (Some "a.csv") None))))
  /\ (disk_file (w_disk empty_world) (out_json one_source)
      = disk_file (w_disk empty_world) DEFAULT_ERRORS_TXT ->
      read_text (out_json one_source)
        (w_disk (fst (main (without_query one_source) one_row_fs (mk_datetime 2024 1 1 8 0)
                        empty_world)))
      = Ok (errors_text (error_lines (parse_input_sources one_row_fs (Some "a.csv") None)))).
Proof.
  apply (main_saves_store one_source one_row_fs (mk_datetime 2024 1 1 8 0) empty_world);
    reflexivity.
Defined.

(** X26. Querying in the run that ingests the CSV sources and querying
    the saved database in a later run are the same: when the run
    without its query saves both files, and the database path leads to
    another file than errors.txt does, the run on the database with the
    same query, at the same minute, ends as the single run does, with
    the same files and the same output, whatever its other arguments
    are. *)
Theorem main_query_later args fs now w input' directory' output' fs' now' query_path :
  given (ns_json_db args) = None ->
  given (ns_query args) = Some query_path ->
  snd (main (without_query args) fs now' w) = None ->
  disk_file (w_disk w) (out_json args) <> disk_file (w_disk w) DEFAULT_ERRORS_TXT ->
  main (mk_namespace input' directory' output' (Some (out_json args)) (ns_query args))
       fs' now (fst (main (without_query args) fs now' w))
  = main args fs now w.
Proof.
  intros Hj Hq Hok Hne.
  destruct (MainFacts.ingest_run args fs now' w Hj Hok) as (d1 & d2 & Hdb & Herr & Hmain & _).
  destruct (MainFacts.ingest_run args fs now w Hj) as (d1' & d2' & Hdb' & Herr' & _ & Hrun).
  { unfold main, without_query in *. cbn [ns_json_db ns_input ns_directory ns_output ns_query] in *.
    rewrite Hj in *.
    destruct (given (ns_input args)), (given (ns_directory args));
      try exact Hok;
      destruct (save_db_json _ _ (w_disk w)) as [x|]; try exact Hok;
      destruct (save_errors_txt _ _ x); exact Hok. }
  cbn zeta in *. rewrite Hdb in Hdb'. injection Hdb' as <-.
  rewrite Herr in Herr'. injection Herr' as <-.
  rewrite Hrun, Hmain. cbn [fst].
  unfold main at 1. cbn [ns_json_db]. rewrite MainFacts.given_out_json.
  cbn [with_disk w_disk].
  pose proof (ValidFacts.write_keeps_files _ _ _ _ Hdb) as Hf1.
  assert (Hload : load_db_json (out_json args) d2
                  = Ok (db_json (valid_flights
                                   (parse_input_sources fs (ns_input args) (ns_directory args))))).
  { unfold load_db_json.
    rewrite (ValidFacts.read_other DEFAULT_ERRORS_TXT (out_json args) _ d1 d2
               ltac:(rewrite Hf1; exact (not_eq_sym Hne)) Herr).
    rewrite (ValidFacts.read_written _ _ _ _ Hdb). cbn [mbind result_bind].
    apply StoreFacts.loads_dumps, ValidFacts.ingested_valid. }
  rewrite Hload. unfold queries_step. cbn [ns_query]. rewrite Hq. reflexivity.
Qed.

Definition source_and_query : namespace :=
  mk_namespace (Some "a.csv") None None None (Some "q.json").

Definition query_world : world :=
  mk_world (mk_disk {["q.json" := "{}"]} (fun _ => false) (fun path => path)) [].

Lemma main_query_later_witness :
  main (mk_namespace None None None (Some (out_json source_and_query))
          (ns_query source_and_query))
       one_row_fs (mk_datetime 2024 1 1 8 0)
       (fst (main (without_query source_and_query) one_row_fs (mk_datetime 2024 1 1 7 0)
               query_world))
  = main source_and_query one_row_fs (mk_datetime 2024 1 1 8 0) query_world.
Proof.
  apply (main_query_later source_and_query one_row_fs (mk_datetime 2024 1 1 8 0) query_world
           None None None one_row_fs (mk_datetime 2024 1 1 7 0) "q.json").
  - reflexivity.
  - reflexivity.
  - reflexivity.
  - discriminate.
Defined.

(** X27. The module calls [main] only under the name "_main_", which is
    not the name a script runs under: run as a script, that is under
    the name "__main__", or imported under any other name, the module
    reads nothing, writes nothing and prints nothing. *)
Theorem module_body_idle name args fs now w :
  name <> "_main_" -> module_body name args fs now w = (w, None).
Proof.
  intros Hne. unfold module_body.
  destruct (String.eqb_spec name "_main_"); [contradiction | reflexivity].
Qed.

Lemma module_body_idle_witness :
  module_body "__main__" (mk_namespace (Some "a.csv") None None None None)
    one_row_fs (mk_datetime 2024 1 1 8 0) (mk_world (mk_disk ∅ (fun _ => false) (fun path => path)) [])
  = (mk_world (mk_disk ∅ (fun _ => false) (fun path => path)) [], None).
Proof.
  apply (module_body_idle "__main__"). discriminate.
Defined.

(** ** Integers written and read *)

Module IntFacts.
Import DecimalFacts DecimalPos.
Import Json TextFacts JsonFacts.
#[local] Arguments String.append !s1 s2 : simpl nomatch.
Local Open Scope Z_scope.

(** The digits of a decimal numeral, as a text. *)
Lemma uint_decimal d : Str.all Char.isdecimal (NilEmpty.string_of_uint d) = true.
Proof. induction d; cbn [NilEmpty.string_of_uint Str.all]; try rewrite IHd; reflexivity. Qed.

Lemma uint_value_acc d : forall acc,
  Datetime.digits_value (NilEmpty.string_of_uint d) (Z.pos acc) = Z.pos (Pos.of_uint_acc d acc).
Proof.
  induction d; intros acc; cbn [NilEmpty.string_of_uint Datetime.digits_value Pos.of_uint_acc];
    [reflexivity| ..];
    match goal with
    | |- Datetime.digits_value _ ?z = Z.pos (Pos.of_uint_acc _ ?p) =>
        replace z with (Z.pos p) by (unfold Char.digit_value; cbn; lia)
    end; apply IHd.
Qed.

Lemma uint_value d :
  Datetime.digits_value (NilEmpty.string_of_uint d) 0 = Z.of_N (Pos.of_uint d).
Proof.
  induction d; cbn [NilEmpty.string_of_uint Datetime.digits_value Pos.of_uint];
    [reflexivity | exact IHd | ..];
    match goal with
    | |- Datetime.digits_value _ ?z = Z.of_N (N.pos (Pos.of_uint_acc _ ?p)) =>
        change z with (Z.pos p)
    end; apply uint_value_acc.
Qed.

(** The numeral of a positive number starts with a digit that is not
    zero. *)
Lemma to_uint_head p :
  exists c r, NilEmpty.string_of_uint (Pos.to_uint p) = String c r
              /\ Char.between 49 57 c = true.
Proof.
  pose proof (Unsigned.to_of (Pos.to_uint p)) as Hn.
  rewrite Unsigned.of_to in Hn. cbn [N.to_uint] in Hn.
  pose proof (Unsigned.to_uint_nonzero p) as Hz.
  destruct (Pos.to_uint p) as [|d|d|d|d|d|d|d|d|d|d] eqn:E;
    try (cbn [NilEmpty.string_of_uint]; eexists _, _; split; reflexivity).
  - exfalso. exact (Unsigned.to_uint_nonnil p E).
  - exfalso. rewrite unorm_D0 in Hn.
    assert (Hnil : d = Decimal.Nil \/ d <> Decimal.Nil)
      by (destruct d; [left; reflexivity | right; discriminate ..]).
    destruct Hnil as [->|Hd]; [apply Hz; reflexivity|].
    pose proof (nb_digits_unorm d Hd) as Hle. rewrite <- Hn in Hle. cbn in Hle. lia.
Qed.

Definition int_digits (n : Z) : string :=
  match n with
  | Z0 => "0"
  | Zpos p | Zneg p => NilEmpty.string_of_uint (Pos.to_uint p)
  end.

Lemma of_Z_text n : Str.of_Z n = sign_text (n <? 0) +:+ int_digits n.
Proof.
  unfold Str.of_Z, Z.to_int. destruct n as [|p|p]; cbn [NilZero.string_of_int int_digits].
  - reflexivity.
  - unfold NilZero.string_of_uint.
    destruct (Pos.to_uint p) eqn:E; try reflexivity.
    exfalso. exact (Unsigned.to_uint_nonnil p E).
  - unfold NilZero.string_of_uint.
    destruct (Pos.to_uint p) eqn:E; try reflexivity.
    exfalso. exact (Unsigned.to_uint_nonnil p E).
Qed.

Lemma int_digits_text n : int_text (int_digits n).
Proof.
  destruct n as [|p|p]; [left; reflexivity | ..]; right; cbn [int_digits];
    destruct (to_uint_head p) as (c & r & E & Hc); exists c, r; (split; [exact E|]);
    (split; [exact Hc|]); pose proof (uint_decimal (Pos.to_uint p)) as Hd;
    rewrite E in Hd; cbn [Str.all] in Hd; apply andb_true_iff in Hd; tauto.
Qed.

Lemma int_digits_decimal n : Str.all Char.isdecimal (int_digits n) = true.
Proof. destruct n; [reflexivity | apply uint_decimal ..]. Qed.

Lemma int_digits_value n : Float.digits_value (int_digits n) = Z.abs n.
Proof.
  unfold Float.digits_value.
  destruct n as [|p|p]; [reflexivity | ..]; cbn [int_digits Z.abs];
    rewrite uint_value, Unsigned.of_to; reflexivity.
Qed.

Lemma value_bounds s : forall acc,
  0 <= acc -> Str.all Char.isdecimal s = true ->
  acc * 10 ^ Z.of_nat (String.length s) <= Datetime.digits_value s acc
  /\ Datetime.digits_value s acc < (acc + 1) * 10 ^ Z.of_nat (String.length s).
Proof.
  induction s as [|c s IH]; intros acc Hacc Hd.
  - cbn. lia.
  - cbn [Str.all] in Hd. apply andb_true_iff in Hd as [Hc Hd].
    assert (Hv : 0 <= Char.digit_value c <= 9).
    { clear -Hc. revert Hc. FieldFacts.by_cases_on_char c; intros _; cbv; split; congruence. }
    cbn [Datetime.digits_value String.length].
    destruct (IH (10 * acc + Char.digit_value c) ltac:(lia) Hd) as [Hlo Hhi].
    rewrite Nat2Z.inj_succ, Z.pow_succ_r by lia.
    pose proof (Z.pow_pos_nonneg 10 (Z.of_nat (String.length s)) ltac:(lia) ltac:(lia)).
    split; nia.
Qed.

(** A number below [10^k] is written with at most [k] digits. *)
Lemma int_digits_length n k :
  (1 <= k)%nat -> Z.abs n < 10 ^ Z.of_nat k -> (String.length (int_digits n) <= k)%nat.
Proof.
  intros Hk Hn.
  destruct (int_digits_text n) as [E | (c & r & E & Hc & Hr)].
  - rewrite E. exact Hk.
  - pose proof (int_digits_value n) as Hv. unfold Float.digits_value in Hv.
    rewrite E in Hv |- *. cbn [Datetime.digits_value String.length] in *.
    assert (Hc1 : 1 <= Char.digit_value c).
    { clear -Hc. revert Hc. FieldFacts.by_cases_on_char c; intros _; cbv; congruence. }
    destruct (value_bounds r (10 * 0 + Char.digit_value c) ltac:(lia) Hr) as [Hlo _].
    rewrite Hv in Hlo.
    assert (Hpow : 10 ^ Z.of_nat (String.length r) < 10 ^ Z.of_nat k).
    { pose proof (Z.pow_pos_nonneg 10 (Z.of_nat (String.length r)) ltac:(lia) ltac:(lia)). nia. }
    apply Z.pow_lt_mono_r_iff in Hpow; lia.
Qed.

Lemma match_number_integer neg ip rest :
  int_text ip -> number_stop rest ->
  match_number ((sign_text neg +:+ ip) +:+ rest) = Some (sign_text neg +:+ ip, "", "", rest).
Proof.
  intros Hip Hr. unfold match_number.
  assert (Hfs : frac_stop rest).
  { destruct rest as [|c rest]; [exact I|]. cbn [number_stop frac_stop] in *.
    destruct (Char.isdecimal c); [discriminate|]. destruct (Ascii.eqb c "."); [discriminate|].
    reflexivity. }
  apply run_integer; [exact Hip | apply frac_stop_digit, Hfs |].
  apply (run_frac "" rest); [reflexivity | exact Hfs |].
  apply (run_exp "" rest); [left; reflexivity | exact Hr | reflexivity].
Qed.

Lemma not_minus {X} c t (a : string -> X) (b : X) :
  Ascii.eqb c "-" = false ->
  match String c t with String "-" ds => a ds | _ => b end = b.
Proof.
  destruct c as [b0 b1 b2 b3 b4 b5 b6 b7].
  destruct b0, b1, b2, b3, b4, b5, b6, b7; try reflexivity. discriminate.
Qed.

Lemma int_of_text_digits n :
  (String.length (int_digits n) <= 4300)%nat ->
  int_of_text (sign_text (n <? 0) +:+ int_digits n) = Ok n.
Proof.
  intros Hlen. unfold int_of_text.
  assert (Hlim : (4300 <? String.length (int_digits n))%nat = false)
    by (apply Nat.ltb_ge; exact Hlen).
  destruct (Z.ltb_spec n 0) as [Hneg|Hpos]; cbn [sign_text String.append].
  - rewrite Hlim, int_digits_value. f_equal. lia.
  - destruct (int_digits_text n) as [E | (c & r & E & Hc & _)].
    + rewrite E in *. rewrite <- (Z.abs_eq n Hpos), <- int_digits_value, E. reflexivity.
    + rewrite E in *.
      assert (Hm : Ascii.eqb c "-" = false)
        by (clear -Hc; revert Hc; FieldFacts.by_cases_on_char c).
      assert (Hsame : match String c r with
                      | String "-" ds => (true, ds)
                      | _ => (false, String c r)
                      end = (false, String c r))
        by exact (not_minus c r (fun ds => (true, ds)) _ Hm).
      rewrite Hsame, Hlim, <- E, int_digits_value. f_equal. lia.
Qed.

(** An integer is read back. *)
Lemma scan_int f d n rest :
  Z.abs n < 10 ^ 4300 -> number_stop rest ->
  scan (S f) d (Str.of_Z n +:+ rest) = Ok (JInt n, rest).
Proof.
  intros Hn Hr. rewrite of_Z_text.
  assert (Hlen : (String.length (int_digits n) <= 4300)%nat)
    by (apply int_digits_length; [lia | exact Hn]).
  assert (Hhead : exists h t', (sign_text (n <? 0) +:+ int_digits n) +:+ rest = String h t'
                               /\ number_head h = true).
  { destruct (n <? 0).
    - eexists "-"%char, _. split; reflexivity.
    - destruct (int_digits_text n) as [E | (c & r & E & Hc & _)]; rewrite E.
      + eexists "0"%char, _. split; reflexivity.
      + eexists c, _. split; [reflexivity|]. unfold number_head.
        rewrite (nonzero_digit c Hc). reflexivity. }
  destruct Hhead as (h & t' & Heq & Hh).
  destruct (number_head_other h Hh) as (H1 & H2 & H3 & H4 & H5 & H6).
  rewrite Heq. cbn [scan Str.startswith]. rewrite H1, H2, H3, H4, H5, H6. cbn [andb].
  rewrite <- Heq.
  rewrite (match_number_integer _ _ rest (int_digits_text n) Hr).
  unfold number. cbn [Str.is_empty andb].
  rewrite (int_of_text_digits n Hlen). reflexivity.
Qed.

End IntFacts.

(** ** Any value written by [json.dump] is read back by [json.load] *)

(** The values [json.load] can return: an integer has at most 4300
    digits, a float is a binary64 value, the keys of an object are
    distinct. *)
Fixpoint wf (v : json) : Prop :=
  match v with
  | JNull | JBool _ | JStr _ => True
  | JInt n => (Z.abs n < 10 ^ 4300)%Z
  | JFloat x => valid_binary Float.prec Float.emax x = true
  | JArr items =>
      (fix all (l : list json) : Prop :=
         match l with
         | [] => True
         | x :: l' => wf x /\ all l'
         end) items
  | JObj members =>
      NoDup (map fst members)
      /\ (fix all (l : list (string * json)) : Prop :=
            match l with
            | [] => True
            | kv :: l' => wf (snd kv) /\ all l'
            end) members
  end.

(** The values, elements and members of a value. *)
Fixpoint size (v : json) : nat :=
  match v with
  | JArr items =>
      S ((fix sum (l : list json) : nat :=
            match l with
            | [] => 0
            | x :: l' => S (size x) + sum l'
            end) items)
  | JObj members =>
      S ((fix sum (l : list (string * json)) : nat :=
            match l with
            | [] => 0
            | kv :: l' => S (size (snd kv)) + sum l'
            end) members)
  | _ => 1
  end.

(** The lists and dictionaries around the innermost item of a value. *)
Fixpoint depth (v : json) : nat :=
  match v with
  | JArr items =>
      S ((fix deepest (l : list json) : nat :=
            match l with
            | [] => 0
            | x :: l' => Nat.max (depth x) (deepest l')
            end) items)
  | JObj members =>
      S ((fix deepest (l : list (string * json)) : nat :=
            match l with
            | [] => 0
            | kv :: l' => Nat.max (depth (snd kv)) (deepest l')
            end) members)
  | _ => 0
  end.

Module TreeFacts.
Import Json TextFacts JsonFacts IntFacts.
#[local] Arguments String.append !s1 s2 : simpl nomatch.

Lemma json_induction (P : json -> Prop) :
  P JNull -> (forall b, P (JBool b)) -> (forall n, P (JInt n)) -> (forall x, P (JFloat x)) ->
  (forall s, P (JStr s)) ->
  (forall items, Forall P items -> P (JArr items)) ->
  (forall members, Forall (fun kv => P (snd kv)) members -> P (JObj members)) ->
  forall v, P v.
Proof.
  intros Hnull Hbool Hint Hfloat Hstr Harr Hobj.
  fix IH 1. intros [| b | n | x | s | items | members].
  - exact Hnull.
  - apply Hbool.
  - apply Hint.
  - apply Hfloat.
  - apply Hstr.
  - apply Harr. induction items as [|x l IHl]; constructor; [apply IH | exact IHl].
  - apply Hobj. induction members as [|[k x] l IHl]; constructor; [apply IH | exact IHl].
Qed.

Definition sum_sizes (l : list json) : nat :=
  fold_right (fun x n => S (size x) + n)%nat 0%nat l.

Definition sum_member_sizes (l : list (string * json)) : nat :=
  fold_right (fun kv n => S (size (snd kv)) + n)%nat 0%nat l.

Lemma wf_arr items : wf (JArr items) <-> Forall wf items.
Proof.
  cbn [wf]. induction items as [|x l IH].
  - split; constructor.
  - rewrite IH. split; [intros [H1 H2]; constructor; assumption | inversion 1; auto].
Qed.

Lemma wf_obj members :
  wf (JObj members) <-> NoDup (map fst members) /\ Forall (fun kv => wf (snd kv)) members.
Proof.
  cbn [wf]. apply and_iff_compat_l.
  induction members as [|kv l IH].
  - split; constructor.
  - rewrite IH. split; [intros [H1 H2]; constructor; assumption | inversion 1; auto].
Qed.

Lemma depth_arr items d :
  (depth (JArr items) <= S d)%nat <-> Forall (fun x => (depth x <= d)%nat) items.
Proof.
  cbn [depth]. rewrite <- Nat.succ_le_mono. induction items as [|x l IH].
  - split; [constructor | lia].
  - rewrite Nat.max_lub_iff, IH.
    split; [intros [H1 H2]; constructor; assumption | inversion 1; auto].
Qed.

Lemma depth_obj members d :
  (depth (JObj members) <= S d)%nat <-> Forall (fun kv => (depth (snd kv) <= d)%nat) members.
Proof.
  cbn [depth]. rewrite <- Nat.succ_le_mono. induction members as [|kv l IH].
  - split; [constructor | lia].
  - rewrite Nat.max_lub_iff, IH.
    split; [intros [H1 H2]; constructor; assumption | inversion 1; auto].
Qed.

Lemma depth_container_arr items : (1 <= depth (JArr items))%nat.
Proof. cbn [depth]. lia. Qed.

Lemma depth_container_obj members : (1 <= depth (JObj members))%nat.
Proof. cbn [depth]. lia. Qed.

Lemma size_arr items : size (JArr items) = S (sum_sizes items).
Proof. reflexivity. Qed.

Lemma size_obj members : size (JObj members) = S (sum_member_sizes members).
Proof. reflexivity. Qed.

(** *** The text of a list and of an object *)

Definition line_break (level : nat) : string := newline_indent 4 level.

Fixpoint items_tail (level : nat) (l : list json) : string :=
  match l with
  | [] => ""
  | x :: l' => "," +:+ line_break (S level) +:+ encode 4 (S level) x +:+ items_tail level l'
  end.

Fixpoint members_tail (level : nat) (l : list (string * json)) : string :=
  match l with
  | [] => ""
  | (k, x) :: l' =>
      "," +:+ line_break (S level) +:+ encode_string k +:+ ": " +:+ encode 4 (S level) x
      +:+ members_tail level l'
  end.

Lemma encode_arr level x l :
  encode 4 level (JArr (x :: l))
  = "[" +:+ line_break (S level) +:+ encode 4 (S level) x +:+ items_tail level l +:+ line_break level +:+ "]".
Proof.
  cbn [encode]. fold (line_break (S level)). fold (line_break level). do 3 f_equal.
  induction l as [|y l IH]; [reflexivity|].
  cbn [items_tail]. rewrite !app_assoc, IH. reflexivity.
Qed.

Lemma encode_obj level k x l :
  encode 4 level (JObj ((k, x) :: l))
  = "{" +:+ line_break (S level) +:+ encode_string k +:+ ": " +:+ encode 4 (S level) x
    +:+ members_tail level l +:+ line_break level +:+ "}".
Proof.
  cbn [encode]. fold (line_break (S level)). fold (line_break level). do 5 f_equal.
  induction l as [|[k' y] l IH]; [reflexivity|].
  cbn [members_tail]. rewrite !app_assoc, IH. reflexivity.
Qed.

(** *** The first character of a value *)

Definition value_head (c : ascii) : bool :=
  negb (is_ws c) && negb (Ascii.eqb c "]") && negb (Ascii.eqb c "}").

Lemma head_of_number h : number_head h = true -> value_head h = true.
Proof. FieldFacts.by_cases_on_char h. Qed.

Lemma encode_head v level rest :
  wf v -> exists c t, encode 4 level v +:+ rest = String c t /\ value_head c = true.
Proof.
  intros Hwf. destruct v as [| [] | n | x | s | [|y l] | [|[k y] l]];
    try (cbn [encode String.append]; eexists _, _; split; reflexivity).
  - cbn [encode]. rewrite of_Z_text.
    destruct (n <? 0)%Z.
    + eexists "-"%char, _. split; reflexivity.
    + destruct (int_digits_text n) as [E | (c & r & E & Hc & _)]; rewrite E.
      * eexists "0"%char, _. split; reflexivity.
      * eexists c, _. split; [reflexivity|]. apply head_of_number. unfold number_head.
        rewrite (nonzero_digit c Hc). reflexivity.
  - cbn [encode wf] in *. pose proof (repr_number_text x Hwf) as Hshape.
    destruct x as [s|s| |s m e]; try (destruct s; eexists _, _; split; reflexivity);
      try (eexists _, _; split; reflexivity).
    destruct (number_text_head _ rest Hshape) as (h & t' & Heq & Hh).
    exists h, t'. split; [exact Heq | apply head_of_number, Hh].
Qed.

Lemma skip_ws_head c t : value_head c = true -> skip_ws (String c t) = String c t.
Proof.
  intros H. apply skip_ws_none. unfold value_head in H.
  destruct (is_ws c); [discriminate | reflexivity].
Qed.

Lemma skip_ws_value v level rest :
  wf v -> skip_ws (encode 4 level v +:+ rest) = encode 4 level v +:+ rest.
Proof.
  intros Hwf. destruct (encode_head v level rest Hwf) as (c & t & -> & Hc).
  apply skip_ws_head, Hc.
Qed.

Lemma skip_ws_nl_value n v level rest :
  wf v -> skip_ws (line_break n +:+ encode 4 level v +:+ rest) = encode 4 level v +:+ rest.
Proof.
  intros Hwf. unfold line_break. rewrite skip_ws_newline_indent. apply skip_ws_value, Hwf.
Qed.

(** *** One step of the scanner *)

Lemma ok_bind {A B} (a : A) (k : A -> result B) : (Ok a ≫= k) = k a.
Proof. reflexivity. Qed.

Lemma not_bracket {X} c t (a : string -> X) (b : X) :
  Ascii.eqb c "]" = false ->
  match String c t with String "]" rest => a rest | _ => b end = b.
Proof.
  destruct c as [b0 b1 b2 b3 b4 b5 b6 b7].
  destruct b0, b1, b2, b3, b4, b5, b6, b7; try reflexivity. discriminate.
Qed.

Lemma not_brace {X} c t (a : string -> X) (b : X) :
  Ascii.eqb c "}" = false ->
  match String c t with String "}" rest => a rest | _ => b end = b.
Proof.
  destruct c as [b0 b1 b2 b3 b4 b5 b6 b7].
  destruct b0, b1, b2, b3, b4, b5, b6, b7; try reflexivity. discriminate.
Qed.

Lemma scan_list f d s c t :
  skip_ws s = String c t -> Ascii.eqb c "]" = false ->
  scan (S f) (S d) ("[" +:+ s)
  = '(items, rest) ← elements f d (String c t) []; Ok (JArr items, rest).
Proof.
  intros Hs Hc. cbn [scan String.append].
  change (Ascii.eqb "[" dq) with false. change (Ascii.eqb "[" "{") with false.
  change (Ascii.eqb "[" "[") with true. cbv iota zeta.
  rewrite Hs. exact (not_bracket c t (fun rest => Ok (JArr [], rest)) _ Hc).
Qed.

Lemma scan_object f d s c t :
  skip_ws s = String c t -> Ascii.eqb c "}" = false ->
  scan (S f) (S d) ("{" +:+ s)
  = '(pairs, rest) ← members f d (String c t) []; Ok (JObj (dict pairs), rest).
Proof.
  intros Hs Hc. cbn [scan String.append].
  change (Ascii.eqb "{" dq) with false. change (Ascii.eqb "{" "{") with true.
  cbv iota zeta.
  rewrite Hs. exact (not_brace c t (fun rest => Ok (JObj [], rest)) _ Hc).
Qed.

Lemma elements_comma f d s v rest r acc :
  scan f d s = Ok (v, rest) -> skip_ws rest = String "," r ->
  elements (S f) d s acc = elements f d (skip_ws r) (acc ++ [v]).
Proof. intros Hs Hr. cbn [elements]. rewrite Hs, ok_bind, Hr. reflexivity. Qed.

Lemma elements_close f d s v rest r acc :
  scan f d s = Ok (v, rest) -> skip_ws rest = String "]" r ->
  elements (S f) d s acc = Ok (acc ++ [v], r).
Proof. intros Hs Hr. cbn [elements]. rewrite Hs, ok_bind, Hr. reflexivity. Qed.

Lemma members_key f d k t acc :
  members (S f) d (encode_string k +:+ ": " +:+ t) acc
  = '(v, rest2) ← scan f d (skip_ws t);
    match skip_ws rest2 with
    | String "," rest3 => members f d (skip_ws rest3) (acc ++ [(k, v)])
    | String "}" rest3 => Ok (acc ++ [(k, v)], rest3)
    | _ => Raise (expecting "',' delimiter")
    end.
Proof.
  rewrite encode_string_app. cbn [members].
  change (Ascii.eqb dq dq) with true. cbv iota.
  rewrite scanstring_escape, ok_bind. reflexivity.
Qed.

Lemma members_comma f d k t v rest r acc :
  scan f d (skip_ws t) = Ok (v, rest) -> skip_ws rest = String "," r ->
  members (S f) d (encode_string k +:+ ": " +:+ t) acc
  = members f d (skip_ws r) (acc ++ [(k, v)]).
Proof. intros Hs Hr. rewrite members_key, Hs, ok_bind, Hr. reflexivity. Qed.

Lemma members_close f d k t v rest r acc :
  scan f d (skip_ws t) = Ok (v, rest) -> skip_ws rest = String "}" r ->
  members (S f) d (encode_string k +:+ ": " +:+ t) acc = Ok (acc ++ [(k, v)], r).
Proof. intros Hs Hr. rewrite members_key, Hs, ok_bind, Hr. reflexivity. Qed.

Lemma skip_ws_nl_char level c rest :
  is_ws c = false -> skip_ws (line_break level +:+ String c rest) = String c rest.
Proof. intros H. unfold line_break. rewrite skip_ws_newline_indent. apply skip_ws_none, H. Qed.

Lemma number_stop_break level rest : number_stop (line_break level +:+ rest).
Proof. reflexivity. Qed.

(** *** The keys of an object *)

Lemma dict_set_fresh k v d :
  ~ In k (map fst d) -> dict_set k v d = d ++ [(k, v)].
Proof.
  induction d as [|[k' v'] d IH]; intros Hk; [reflexivity|].
  cbn [dict_set]. destruct (String.eqb_spec k k') as [->|Hne].
  - exfalso. apply Hk. left. reflexivity.
  - cbn [app]. f_equal. apply IH. intros Hin. apply Hk. right. exact Hin.
Qed.

Lemma dict_distinct_acc pairs : forall acc,
  NoDup (map fst (acc ++ pairs)) ->
  fold_left (fun d kv => dict_set (fst kv) (snd kv) d) pairs acc = acc ++ pairs.
Proof.
  induction pairs as [|[k v] l IH]; intros acc Hnd; cbn [fold_left].
  - rewrite app_nil_r. reflexivity.
  - cbn [fst snd]. rewrite dict_set_fresh.
    + rewrite IH; rewrite <- List.app_assoc; [reflexivity | exact Hnd].
    + rewrite map_app in Hnd. cbn [map fst] in Hnd.
      apply NoDup_app in Hnd as (_ & Hdisj & _). intros Hin.
      apply (Hdisj k); [apply list_elem_of_In, Hin | left].
Qed.

Lemma dict_distinct pairs : NoDup (map fst pairs) -> dict pairs = pairs.
Proof. intros H. unfold dict. apply (dict_distinct_acc pairs []). exact H. Qed.

(** *** A value, its elements and its members are read back *)

Definition reads (v : json) : Prop :=
  forall level f d rest,
    wf v -> (size v <= f)%nat -> (depth v <= d)%nat -> number_stop rest ->
    scan f d (encode 4 level v +:+ rest) = Ok (v, rest).

Lemma skip_ws_comma r : skip_ws ("," +:+ r) = String "," r.
Proof. reflexivity. Qed.

Lemma number_stop_comma r : number_stop ("," +:+ r).
Proof. reflexivity. Qed.

Lemma skip_ws_close_bracket level rest : skip_ws (line_break level +:+ "]" +:+ rest) = String "]" rest.
Proof. apply (skip_ws_nl_char level "]" rest). reflexivity. Qed.

Lemma skip_ws_close_brace level rest : skip_ws (line_break level +:+ "}" +:+ rest) = String "}" rest.
Proof. apply (skip_ws_nl_char level "}" rest). reflexivity. Qed.

Lemma elements_items d l :
  Forall reads l ->
  forall x level f rest acc,
    reads x -> wf x -> Forall wf l -> (S (size x) + sum_sizes l <= f)%nat ->
    (depth x <= d)%nat -> Forall (fun y => (depth y <= d)%nat) l ->
    elements f d (encode 4 (S level) x +:+ items_tail level l +:+ line_break level +:+ "]" +:+ rest)
      acc
    = Ok (acc ++ x :: l, rest).
Proof.
  induction 1 as [|y l Hy Hl IH]; intros x level f rest acc Hx Hwx Hwl Hf Hdx Hdl.
  - destruct f as [|f]; [cbn in Hf; lia|].
    cbn [items_tail]. change ("" +:+ ?t) with t.
    apply (elements_close f d _ x (line_break level +:+ "]" +:+ rest) rest acc).
    + apply Hx; [exact Hwx | cbn in Hf; lia | exact Hdx | apply number_stop_break].
    + apply skip_ws_close_bracket.
  - destruct f as [|f]; [cbn in Hf; lia|].
    cbn [items_tail]. rewrite !app_assoc.
    inversion Hwl as [|? ? Hwy Hwl']; subst.
    inversion Hdl as [|? ? Hdy Hdl']; subst.
    cbn [sum_sizes fold_right] in Hf. fold (sum_sizes l) in Hf.
    rewrite (elements_comma f d _ x
               ("," +:+ line_break (S level) +:+ encode 4 (S level) y +:+ items_tail level l
                +:+ line_break level +:+ "]" +:+ rest)
               (line_break (S level) +:+ encode 4 (S level) y +:+ items_tail level l
                +:+ line_break level +:+ "]" +:+ rest) acc).
    + rewrite skip_ws_nl_value by exact Hwy.
      rewrite (IH y level f rest (acc ++ [x]) Hy Hwy Hwl' ltac:(lia) Hdy Hdl').
      rewrite <- List.app_assoc. reflexivity.
    + apply Hx; [exact Hwx | lia | exact Hdx | apply number_stop_comma].
    + apply skip_ws_comma.
Qed.

Lemma members_members d l :
  Forall (fun kv => reads (snd kv)) l ->
  forall k x level f rest acc,
    reads x -> wf x -> Forall (fun kv => wf (snd kv)) l ->
    (S (size x) + sum_member_sizes l <= f)%nat ->
    (depth x <= d)%nat -> Forall (fun kv => (depth (snd kv) <= d)%nat) l ->
    members f d (encode_string k +:+ ": " +:+ encode 4 (S level) x +:+ members_tail level l
                 +:+ line_break level +:+ "}" +:+ rest) acc
    = Ok (acc ++ (k, x) :: l, rest).
Proof.
  induction 1 as [|[k' y] l Hy Hl IH]; intros k x level f rest acc Hx Hwx Hwl Hf Hdx Hdl.
  - destruct f as [|f]; [cbn in Hf; lia|].
    cbn [members_tail]. change ("" +:+ ?t) with t.
    apply (members_close f d k _ x (line_break level +:+ "}" +:+ rest) rest acc).
    + rewrite skip_ws_value by exact Hwx.
      apply Hx; [exact Hwx | cbn in Hf; lia | exact Hdx | apply number_stop_break].
    + apply skip_ws_close_brace.
  - destruct f as [|f]; [cbn in Hf; lia|].
    cbn [members_tail]. rewrite !app_assoc.
    inversion Hwl as [|? ? Hwy Hwl']; subst. cbn [snd] in Hwy, Hy.
    inversion Hdl as [|? ? Hdy Hdl']; subst. cbn [snd] in Hdy.
    cbn [sum_member_sizes fold_right snd] in Hf. fold (sum_member_sizes l) in Hf.
    rewrite (members_comma f d k _ x
               ("," +:+ line_break (S level) +:+ encode_string k' +:+ ": " +:+ encode 4 (S level) y
                +:+ members_tail level l +:+ line_break level +:+ "}" +:+ rest)
               (line_break (S level) +:+ encode_string k' +:+ ": " +:+ encode 4 (S level) y
                +:+ members_tail level l +:+ line_break level +:+ "}" +:+ rest) acc).
    + unfold line_break at 1. rewrite skip_ws_newline_indent, (encode_string_app k').
      rewrite (skip_ws_none dq) by reflexivity. rewrite <- encode_string_app.
      rewrite (IH k' y level f rest (acc ++ [(k, x)]) Hy Hwy Hwl' ltac:(lia) Hdy Hdl').
      rewrite <- List.app_assoc. reflexivity.
    + rewrite skip_ws_value by exact Hwx.
      apply Hx; [exact Hwx | lia | exact Hdx | apply number_stop_comma].
    + apply skip_ws_comma.
Qed.

Lemma scan_encode v : reads v.
Proof.
  induction v as [| b | n | x | s | items IH | members IH] using json_induction;
    intros level f d rest Hwf Hf Hd Hr; (destruct f as [|f]; [cbn in Hf; lia|]).
  - reflexivity.
  - destruct b; reflexivity.
  - apply scan_int; assumption.
  - apply scan_float; assumption.
  - cbn [encode]. rewrite encode_string_app. cbn [scan].
    change (Ascii.eqb dq dq) with true. cbv iota.
    rewrite scanstring_escape. reflexivity.
  - destruct d as [|d]; [pose proof (depth_container_arr items); lia|].
    destruct items as [|x l]; [reflexivity|].
    apply wf_arr in Hwf. inversion Hwf as [|? ? Hwx Hwl]; subst.
    apply depth_arr in Hd. inversion Hd as [|? ? Hdx Hdl]; subst.
    inversion IH as [|? ? Hx Hl]; subst.
    rewrite size_arr in Hf. cbn [sum_sizes fold_right] in Hf. fold (sum_sizes l) in Hf.
    rewrite encode_arr, !app_assoc.
    destruct (encode_head x (S level) (items_tail level l +:+ line_break level +:+ "]" +:+ rest) Hwx)
      as (c & t & Heq & Hc).
    rewrite (scan_list f d _ c t).
    + rewrite <- Heq.
      rewrite (elements_items d l Hl x level f rest [] Hx Hwx Hwl ltac:(lia) Hdx Hdl).
      reflexivity.
    + rewrite skip_ws_nl_value by exact Hwx. exact Heq.
    + unfold value_head in Hc. destruct (Ascii.eqb c "]"); [|reflexivity].
      rewrite andb_false_r in Hc. discriminate.
  - destruct d as [|d]; [pose proof (depth_container_obj members); lia|].
    destruct members as [|[k x] l]; [reflexivity|].
    apply wf_obj in Hwf as [Hnd Hwf]. inversion Hwf as [|? ? Hwx Hwl]; subst.
    apply depth_obj in Hd. inversion Hd as [|? ? Hdx Hdl]; subst.
    inversion IH as [|? ? Hx Hl]; subst. cbn [snd] in *.
    rewrite size_obj in Hf. cbn [sum_member_sizes fold_right snd] in Hf.
    fold (sum_member_sizes l) in Hf.
    rewrite encode_obj, !app_assoc.
    rewrite (scan_object f d _ dq
               (escape k +:+ String dq (": " +:+ encode 4 (S level) x +:+ members_tail level l
                                        +:+ line_break level +:+ "}" +:+ rest))).
    + rewrite <- encode_string_app.
      rewrite (members_members d l Hl k x level f rest [] Hx Hwx Hwl ltac:(lia) Hdx Hdl).
      rewrite ok_bind. cbn [app]. rewrite (dict_distinct _ Hnd). reflexivity.
    + unfold line_break. rewrite skip_ws_newline_indent, encode_string_app.
      apply skip_ws_none. reflexivity.
    + reflexivity.
Qed.

(** *** The text is long enough for the values it holds *)

Lemma nl_length level : (1 <= String.length (line_break level))%nat.
Proof. unfold line_break, newline_indent. rewrite length_app. cbn. lia. Qed.

Lemma items_length level l :
  Forall (fun x => forall level, (size x <= S (String.length (encode 4 level x)))%nat) l ->
  (sum_sizes l <= String.length (items_tail level l))%nat.
Proof.
  induction 1 as [|x l Hx Hl IH]; [cbn; lia|].
  cbn [sum_sizes fold_right items_tail]. fold (sum_sizes l).
  rewrite !length_app. pose proof (nl_length (S level)). pose proof (Hx (S level)).
  cbn [String.length]. lia.
Qed.

Lemma members_length level l :
  Forall (fun kv => forall level,
            (size (snd kv) <= S (String.length (encode 4 level (snd kv))))%nat) l ->
  (sum_member_sizes l <= String.length (members_tail level l))%nat.
Proof.
  induction 1 as [|[k x] l Hx Hl IH]; [cbn; lia|].
  cbn [sum_member_sizes fold_right members_tail snd]. fold (sum_member_sizes l).
  rewrite !length_app. pose proof (nl_length (S level)). pose proof (Hx (S level)).
  cbn [snd] in *. cbn [String.length]. lia.
Qed.

Lemma size_length v : forall level, (size v <= S (String.length (encode 4 level v)))%nat.
Proof.
  induction v as [| b | n | x | s | items IH | members IH] using json_induction;
    intros level; try (cbn [size]; lia).
  - destruct items as [|x l]; [cbn; lia|].
    inversion IH as [|? ? Hx Hl]; subst.
    rewrite size_arr, encode_arr, !length_app.
    cbn [sum_sizes fold_right]. fold (sum_sizes l).
    pose proof (items_length level l Hl). pose proof (Hx (S level)).
    pose proof (nl_length (S level)). pose proof (nl_length level).
    cbn [String.length]. lia.
  - destruct members as [|[k x] l]; [cbn; lia|].
    inversion IH as [|? ? Hx Hl]; subst. cbn [snd] in Hx.
    rewrite size_obj, encode_obj, !length_app.
    cbn [sum_member_sizes fold_right snd]. fold (sum_member_sizes l).
    pose proof (members_length level l Hl). pose proof (Hx (S level)).
    pose proof (nl_length (S level)). pose proof (nl_length level).
    cbn [String.length]. lia.
Qed.

Lemma string_app_empty s : s +:+ "" = s.
Proof. induction s as [|c s IH]; [reflexivity|]. cbn. rewrite IH. reflexivity. Qed.

Lemma loads_encode v level :
  wf v -> (depth v <= max_depth)%nat -> loads (encode 4 level v) = Ok v.
Proof.
  intros Hwf Hd. unfold loads.
  rewrite <- (string_app_empty (encode 4 level v)) at 2.
  rewrite skip_ws_value by exact Hwf.
  rewrite (scan_encode v level _ max_depth "" Hwf).
  - reflexivity.
  - pose proof (size_length v level). lia.
  - exact Hd.
  - exact I.
Qed.

End TreeFacts.

(** ** What [json.load] returns *)

(** The texts a pattern of [NUMBER_RE] matches. *)
Fixpoint matched (r : Json.re) (m : string) : Prop :=
  match r with
  | Json.Eps => m = ""
  | Json.Cls p => exists c, m = String c "" /\ p c = true
  | Json.Seq r1 r2 => exists m1 m2, m = m1 +:+ m2 /\ matched r1 m1 /\ matched r2 m2
  | Json.Alt r1 r2 => matched r1 m \/ matched r2 m
  | Json.Star p => Str.all p m = true
  end.

Module LoadFacts.
Import Json TextFacts JsonFacts IntFacts TreeFacts.
#[local] Arguments String.append !s1 s2 : simpl nomatch.

Lemma star_matched {A} p s : forall (k : string -> string -> option A) a,
  star p s k = Some a -> exists m rest, Str.all p m = true /\ k m rest = Some a.
Proof.
  induction s as [|c s IH]; intros k a H; cbn [star] in H.
  - exists "", "". split; [reflexivity | exact H].
  - destruct (p c) eqn:Hc; [|exists "", (String c s); split; [reflexivity | exact H]].
    destruct (star p s (fun m rest => k (String c m) rest)) as [b|] eqn:Hs.
    + injection H as ->. destruct (IH _ _ Hs) as (m & rest & Hm & Hk).
      exists (String c m), rest. split; [cbn; rewrite Hc; exact Hm | exact Hk].
    + exists "", (String c s). split; [reflexivity | exact H].
Qed.

Lemma run_matched {A} r : forall s (k : string -> string -> option A) a,
  run r s k = Some a -> exists m rest, matched r m /\ k m rest = Some a.
Proof.
  induction r as [| p | r1 IH1 r2 IH2 | r1 IH1 r2 IH2 | p]; intros s k a H; cbn [run] in H.
  - exists "", s. split; [reflexivity | exact H].
  - destruct s as [|c s]; [discriminate|]. destruct (p c) eqn:Hc; [|discriminate].
    exists (String c ""), s. split; [exists c; auto | exact H].
  - destruct (IH1 _ _ _ H) as (m1 & s1 & H1 & Hk1).
    destruct (IH2 _ _ _ Hk1) as (m2 & s2 & H2 & Hk2).
    exists (m1 +:+ m2), s2. split; [exists m1, m2; auto | exact Hk2].
  - destruct (run r1 s k) as [b|] eqn:Hr.
    + injection H as ->. destruct (IH1 _ _ _ Hr) as (m & rest & Hm & Hk).
      exists m, rest. split; [left; exact Hm | exact Hk].
    + destruct (IH2 _ _ _ H) as (m & rest & Hm & Hk).
      exists m, rest. split; [right; exact Hm | exact Hk].
  - destruct (star_matched _ _ _ _ H) as (m & rest & Hm & Hk).
    exists m, rest. split; [exact Hm | exact Hk].
Qed.

Lemma match_number_matched s integer frac exp rest :
  match_number s = Some (integer, frac, exp, rest) -> matched re_integer integer.
Proof.
  unfold match_number. intros H.
  destruct (run_matched _ _ _ _ H) as (m1 & s1 & H1 & K1).
  destruct (run_matched _ _ _ _ K1) as (m2 & s2 & H2 & K2).
  destruct (run_matched _ _ _ _ K2) as (m3 & s3 & H3 & K3).
  injection K3 as -> _ _ _. exact H1.
Qed.

(** The integer group: an optional minus and decimal digits, the first
    of which is no minus. *)
Lemma integer_group integer :
  matched re_integer integer ->
  exists neg ds,
    integer = sign_text neg +:+ ds /\ Str.all Char.isdecimal ds = true
    /\ (forall t, ds <> String "-" t).
Proof.
  intros (m1 & m2 & -> & Hsign & Hbody).
  assert (Hs : exists neg, m1 = sign_text neg).
  { destruct Hsign as [(c & -> & Hc) | ->]; [|exists false; reflexivity].
    apply Ascii.eqb_eq in Hc. subst c. exists true. reflexivity. }
  destruct Hs as (neg & ->). exists neg, m2. split; [reflexivity|].
  destruct Hbody as [(c & -> & Hc) | (d & ds & -> & (c & -> & Hc) & Hds)].
  - apply Ascii.eqb_eq in Hc. subst c. split; [reflexivity | discriminate].
  - change (String c "" +:+ ds) with (String c ds). split.
    + cbn [Str.all]. rewrite Hds, andb_true_r.
      unfold Char.isdecimal, Char.between in *.
      apply andb_true_iff in Hc as [H1 H2]. apply andb_true_iff. split; [|exact H2].
      apply N.leb_le in H1. apply N.leb_le. lia.
    + intros t [= -> _]. discriminate.
Qed.

Lemma int_of_text_bound integer n :
  matched re_integer integer -> int_of_text integer = Ok n -> (Z.abs n < 10 ^ 4300)%Z.
Proof.
  intros Hm. destruct (integer_group _ Hm) as (neg & ds & -> & Hds & Hminus).
  assert (Hv : (String.length ds <= 4300)%nat -> (0 <= Float.digits_value ds < 10 ^ 4300)%Z).
  { intros Hlen. destruct (value_bounds ds 0%Z ltac:(lia) Hds) as [Hlo Hhi].
    unfold Float.digits_value. split; [lia|].
    eapply Z.lt_le_trans; [exact Hhi|].
    rewrite Z.mul_1_l. apply Z.pow_le_mono_r; [lia|].
    change 4300%Z with (Z.of_nat 4300). apply Nat2Z.inj_le. exact Hlen. }
  remember (10 ^ 4300)%Z as bound eqn:Hbound. clear Hbound.
  unfold int_of_text. destruct neg.
  - change (sign_text true +:+ ds) with (String "-" ds). cbv iota beta.
    destruct (4300 <? String.length ds)%nat eqn:Hlen; [discriminate|].
    apply Nat.ltb_ge in Hlen. intros [= <-]. specialize (Hv Hlen). lia.
  - change (sign_text false +:+ ds) with ds.
    assert (Hsame : match ds with String "-" t => (true, t) | _ => (false, ds) end = (false, ds)).
    { destruct ds as [|c t]; [reflexivity|].
      apply (not_minus c t (fun ds => (true, ds))).
      destruct (Ascii.eqb_spec c "-") as [->|]; [destruct (Hminus t eq_refl) | reflexivity]. }
    rewrite Hsame.
    destruct (4300 <? String.length ds)%nat eqn:Hlen; [discriminate|].
    apply Nat.ltb_ge in Hlen. intros [= <-]. specialize (Hv Hlen). lia.
Qed.

Lemma number_wf s integer frac exp rest v :
  match_number s = Some (integer, frac, exp, rest) ->
  number integer frac exp = Ok v -> wf v.
Proof.
  intros Hm. unfold number.
  destruct (Str.is_empty frac && Str.is_empty exp).
  - destruct (int_of_text integer) as [n|e] eqn:Hn; [|discriminate].
    intros [= <-]. cbn [wf].
    exact (int_of_text_bound _ _ (match_number_matched _ _ _ _ _ Hm) Hn).
  - destruct (Float.of_str _) as [x|e] eqn:Hx; [|discriminate].
    intros [= <-]. exact (ValidFacts.of_str_valid _ _ Hx).
Qed.

(** [dict(pairs)] has distinct keys and the values of the pairs. *)
Lemma dict_set_keys k v d :
  NoDup (map fst d) -> NoDup (map fst (dict_set k v d))
  /\ (forall k', k' ∈ map fst (dict_set k v d) -> k' = k \/ k' ∈ map fst d).
Proof.
  induction d as [|[k0 v0] d IH]; intros Hnd; cbn [dict_set map fst].
  - split; [repeat constructor; intros H; inversion H|].
    intros k' H. apply list_elem_of_singleton in H. auto.
  - apply NoDup_cons in Hnd as [Hk0 Hnd]. cbn [map fst] in *.
    destruct (String.eqb k k0) eqn:E.
    + apply String.eqb_eq in E. subst k0. cbn [map fst]. split.
      * apply NoDup_cons. auto.
      * intros k' H. right. exact H.
    + apply String.eqb_neq in E. destruct (IH Hnd) as [Hnd' Hin]. cbn [map fst]. split.
      * apply NoDup_cons. split; [|exact Hnd'].
        intros H. destruct (Hin _ H) as [->|H']; [apply E; reflexivity | exact (Hk0 H')].
      * intros k' H. apply elem_of_cons in H as [->|H].
        -- right. apply elem_of_cons. auto.
        -- destruct (Hin _ H) as [->|H']; [auto | right; apply elem_of_cons; auto].
Qed.

Lemma dict_set_values (P : json -> Prop) k v d :
  P v -> Forall (fun kv => P (snd kv)) d -> Forall (fun kv => P (snd kv)) (dict_set k v d).
Proof.
  intros Hv. induction 1 as [|[k0 v0] d H0 Hd IH]; cbn [dict_set].
  - repeat constructor. exact Hv.
  - destruct (String.eqb k k0); constructor; auto.
Qed.

Lemma dict_acc (P : json -> Prop) pairs : forall d,
  NoDup (map fst d) -> Forall (fun kv => P (snd kv)) d ->
  Forall (fun kv => P (snd kv)) pairs ->
  let d' := fold_left (fun d kv => dict_set (fst kv) (snd kv) d) pairs d in
  NoDup (map fst d') /\ Forall (fun kv => P (snd kv)) d'.
Proof.
  induction pairs as [|[k v] pairs IH]; intros d Hnd Hd Hp; cbn [fold_left fst snd].
  - auto.
  - inversion Hp as [|? ? Hv Hp']; subst. cbn [snd] in Hv.
    apply IH.
    + apply dict_set_keys. exact Hnd.
    + apply dict_set_values; assumption.
    + exact Hp'.
Qed.

Lemma dict_wf pairs :
  Forall (fun kv => wf (snd kv)) pairs -> wf (JObj (dict pairs)).
Proof.
  intros Hp. apply wf_obj. unfold dict.
  apply (dict_acc wf pairs []); [constructor | constructor | exact Hp].
Qed.

(** *** One step of the three readers *)

Lemma scan_eq f d s :
  scan (S f) d s
  = match s with
    | EmptyString => Raise (expecting "value")
    | String c s' =>
        if Ascii.eqb c dq then
          '(text, rest) ← scanstring s'; Ok (JStr text, rest)
        else if Ascii.eqb c "{" then
          match d with
          | O => Raise Beyond
          | S r =>
              let s1 := skip_ws s' in
              match s1 with
              | String "}" rest => Ok (JObj [], rest)
              | _ =>
                  '(pairs, rest) ← members f r s1 []; Ok (JObj (dict pairs), rest)
              end
          end
        else if Ascii.eqb c "[" then
          match d with
          | O => Raise Beyond
          | S r =>
              let s1 := skip_ws s' in
              match s1 with
              | String "]" rest => Ok (JArr [], rest)
              | _ => '(items, rest) ← elements f r s1 []; Ok (JArr items, rest)
              end
          end
        else if Str.startswith s "null" then Ok (JNull, FloatRepr.drop 4 s)
        else if Str.startswith s "true" then Ok (JBool true, FloatRepr.drop 4 s)
        else if Str.startswith s "false" then Ok (JBool false, FloatRepr.drop 5 s)
        else
          match match_number s with
          | Some (integer, frac, exp, rest) =>
              v ← number integer frac exp; Ok (v, rest)
          | None =>
              if Str.startswith s "NaN" then Ok (JFloat S754_nan, FloatRepr.drop 3 s)
              else if Str.startswith s "Infinity" then
                Ok (JFloat (S754_infinity false), FloatRepr.drop 8 s)
              else if Str.startswith s "-Infinity" then
                Ok (JFloat (S754_infinity true), FloatRepr.drop 9 s)
              else Raise (expecting "value")
          end
    end.
Proof. reflexivity. Qed.

Lemma elements_step f d s acc :
  elements (S f) d s acc
  = '(v, rest) ← scan f d s;
    match skip_ws rest with
    | String "," rest' => elements f d (skip_ws rest') (acc ++ [v])
    | String "]" rest' => Ok (acc ++ [v], rest')
    | _ => Raise (expecting "',' delimiter")
    end.
Proof. reflexivity. Qed.

Lemma members_eq f d s acc :
  members (S f) d s acc
  = match s with
    | String c s' =>
        if Ascii.eqb c dq then
          '(key, rest) ← scanstring s';
          match skip_ws rest with
          | String ":" rest1 =>
              '(v, rest2) ← scan f d (skip_ws rest1);
              match skip_ws rest2 with
              | String "," rest3 => members f d (skip_ws rest3) (acc ++ [(key, v)])
              | String "}" rest3 => Ok (acc ++ [(key, v)], rest3)
              | _ => Raise (expecting "',' delimiter")
              end
          | _ => Raise (expecting "':' delimiter")
          end
        else Raise (expecting "property name enclosed in double quotes")
    | EmptyString => Raise (expecting "property name enclosed in double quotes")
    end.
Proof. reflexivity. Qed.

(** A match on the next delimiter, as a test of the character. *)
Lemma comma_or_bracket {X} s (a b : string -> X) (c : X) :
  match s with String "," r => a r | String "]" r => b r | _ => c end
  = match s with
    | String ch r => if Ascii.eqb ch "," then a r else if Ascii.eqb ch "]" then b r else c
    | EmptyString => c
    end.
Proof.
  destruct s as [|ch r]; [reflexivity|].
  destruct ch as [[] [] [] [] [] [] [] []]; reflexivity.
Qed.

Lemma comma_or_brace {X} s (a b : string -> X) (c : X) :
  match s with String "," r => a r | String "}" r => b r | _ => c end
  = match s with
    | String ch r => if Ascii.eqb ch "," then a r else if Ascii.eqb ch "}" then b r else c
    | EmptyString => c
    end.
Proof.
  destruct s as [|ch r]; [reflexivity|].
  destruct ch as [[] [] [] [] [] [] [] []]; reflexivity.
Qed.

Lemma colon_next {X} s (a : string -> X) (c : X) :
  match s with String ":" r => a r | _ => c end
  = match s with
    | String ch r => if Ascii.eqb ch ":" then a r else c
    | EmptyString => c
    end.
Proof.
  destruct s as [|ch r]; [reflexivity|].
  destruct ch as [[] [] [] [] [] [] [] []]; reflexivity.
Qed.

Lemma brace_next {X} s (a : string -> X) (c : X) :
  match s with String "}" r => a r | _ => c end
  = match s with
    | String ch r => if Ascii.eqb ch "}" then a r else c
    | EmptyString => c
    end.
Proof.
  destruct s as [|ch r]; [reflexivity|].
  destruct ch as [[] [] [] [] [] [] [] []]; reflexivity.
Qed.

Lemma bracket_next {X} s (a : string -> X) (c : X) :
  match s with String "]" r => a r | _ => c end
  = match s with
    | String ch r => if Ascii.eqb ch "]" then a r else c
    | EmptyString => c
    end.
Proof.
  destruct s as [|ch r]; [reflexivity|].
  destruct ch as [[] [] [] [] [] [] [] []]; reflexivity.
Qed.

(** *** Every value read is well formed *)

Definition all_wf (l : list json) : Prop := Forall wf l.
Definition members_wf (l : list (string * json)) : Prop := Forall (fun kv => wf (snd kv)) l.

Lemma all_wf_snoc acc v : all_wf acc -> wf v -> all_wf (acc ++ [v]).
Proof. intros Ha Hv. apply Forall_app. split; [exact Ha | repeat constructor; exact Hv]. Qed.

Lemma members_wf_snoc acc k v : members_wf acc -> wf v -> members_wf (acc ++ [(k, v)]).
Proof. intros Ha Hv. apply Forall_app. split; [exact Ha | repeat constructor; exact Hv]. Qed.

Lemma scanned_wf f :
  (forall d s v rest, scan f d s = Ok (v, rest) -> wf v)
  /\ (forall d s acc l rest, elements f d s acc = Ok (l, rest) -> all_wf acc -> all_wf l)
  /\ (forall d s acc l rest, members f d s acc = Ok (l, rest) -> members_wf acc -> members_wf l).
Proof.
  induction f as [|f (IHs & IHe & IHm)].
  - repeat split; intros; discriminate.
  - split; [|split].
    + intros d s v rest. rewrite scan_eq.
      destruct s as [|c s']; [discriminate|].
      destruct (Ascii.eqb c dq).
      { destruct (scanstring s') as [[text r]|e]; [|discriminate].
        intros [= <- _]. exact I. }
      destruct (Ascii.eqb c "{").
      { destruct d as [|d]; [discriminate|].
        cbv zeta. rewrite brace_next.
        destruct (skip_ws s') as [|ch r] eqn:Hs.
        - destruct (members f d "" []) as [[pairs r']|e] eqn:Hm; [|discriminate].
          intros [= <- _]. apply dict_wf. exact (IHm _ _ _ _ _ Hm (List.Forall_nil _)).
        - destruct (Ascii.eqb ch "}").
          + intros [= <- _]. apply wf_obj. split; constructor.
          + destruct (members f d (String ch r) []) as [[pairs r']|e] eqn:Hm; [|discriminate].
            intros [= <- _]. apply dict_wf. exact (IHm _ _ _ _ _ Hm (List.Forall_nil _)). }
      destruct (Ascii.eqb c "[").
      { destruct d as [|d]; [discriminate|].
        cbv zeta. rewrite bracket_next.
        destruct (skip_ws s') as [|ch r] eqn:Hs.
        - destruct (elements f d "" []) as [[items r']|e] eqn:He; [|discriminate].
          intros [= <- _]. apply wf_arr. exact (IHe _ _ _ _ _ He (List.Forall_nil _)).
        - destruct (Ascii.eqb ch "]").
          + intros [= <- _]. apply wf_arr. constructor.
          + destruct (elements f d (String ch r) []) as [[items r']|e] eqn:He; [|discriminate].
            intros [= <- _]. apply wf_arr. exact (IHe _ _ _ _ _ He (List.Forall_nil _)). }
      destruct (Str.startswith (String c s') "null"); [intros [= <- _]; exact I|].
      destruct (Str.startswith (String c s') "true"); [intros [= <- _]; exact I|].
      destruct (Str.startswith (String c s') "false"); [intros [= <- _]; exact I|].
      destruct (match_number (String c s')) as [[[[integer frac] exp] r]|] eqn:Hm.
      { destruct (number integer frac exp) as [w|e] eqn:Hn; [|discriminate].
        intros [= <- _]. exact (number_wf _ _ _ _ _ _ Hm Hn). }
      destruct (Str.startswith (String c s') "NaN"); [intros [= <- _]; reflexivity|].
      destruct (Str.startswith (String c s') "Infinity"); [intros [= <- _]; reflexivity|].
      destruct (Str.startswith (String c s') "-Infinity"); [intros [= <- _]; reflexivity|].
      discriminate.
    + intros d s acc l rest. rewrite elements_step.
      destruct (scan f d s) as [[v r]|e] eqn:Hs; [|discriminate].
      rewrite ok_bind, comma_or_bracket.
      destruct (skip_ws r) as [|ch r']; [discriminate|].
      destruct (Ascii.eqb ch ",").
      { intros He Hacc. apply (IHe _ _ _ _ _ He).
        apply all_wf_snoc; [exact Hacc | exact (IHs _ _ _ _ Hs)]. }
      destruct (Ascii.eqb ch "]"); [|discriminate].
      intros [= <- _] Hacc. apply all_wf_snoc; [exact Hacc | exact (IHs _ _ _ _ Hs)].
    + intros d s acc l rest. rewrite members_eq.
      destruct s as [|c s']; [discriminate|].
      destruct (Ascii.eqb c dq); [|discriminate].
      destruct (scanstring s') as [[key r]|e]; [|discriminate].
      rewrite ok_bind, colon_next.
      destruct (skip_ws r) as [|ch r1]; [discriminate|].
      destruct (Ascii.eqb ch ":"); [|discriminate].
      destruct (scan f d (skip_ws r1)) as [[v r2]|e] eqn:Hs; [|discriminate].
      rewrite ok_bind, comma_or_brace.
      destruct (skip_ws r2) as [|ch' r3]; [discriminate|].
      destruct (Ascii.eqb ch' ",").
      { intros Hm Hacc. apply (IHm _ _ _ _ _ Hm).
        apply members_wf_snoc; [exact Hacc | exact (IHs _ _ _ _ Hs)]. }
      destruct (Ascii.eqb ch' "}"); [|discriminate].
      intros [= <- _] Hacc. apply members_wf_snoc; [exact Hacc | exact (IHs _ _ _ _ Hs)].
Qed.

Lemma loads_wf text v : loads text = Ok v -> wf v.
Proof.
  unfold loads.
  destruct (scan _ _) as [[w rest]|e] eqn:Hs; [|discriminate].
  rewrite ok_bind. destruct (Str.is_empty _); [|discriminate].
  intros [= <-]. exact (proj1 (scanned_wf _) _ _ _ _ Hs).
Qed.

End LoadFacts.

(** ** The response file *)

Module ResponseFacts.
Import Json TreeFacts LoadFacts.

Lemma characters_wf s : Forall wf (Py.characters s).
Proof. induction s as [|c s IH]; constructor; [exact I | exact IH]. Qed.

Lemma iterate_wf v items : wf v -> Py.iterate v = Done items -> Forall wf items.
Proof.
  destruct v as [| b | n | x | s | l | members]; try discriminate; intros Hwf [= <-].
  - apply characters_wf.
  - apply wf_arr. exact Hwf.
  - apply List.Forall_forall. intros x Hx. apply in_map_iff in Hx as (kv & <- & _). exact I.
Qed.

Lemma select_wf items q : forall ms,
  Forall wf items -> Dyn.select items q = Done ms -> Forall wf ms.
Proof.
  induction items as [|f items IH]; intros ms Hwf; cbn [Dyn.select].
  - intros [= <-]. constructor.
  - inversion Hwf as [|? ? Hf Hitems]; subst.
    destruct (Dyn.flight_matches_query f q) as [m|e]; [|discriminate].
    cbn [mbind run_bind].
    destruct (Dyn.select items q) as [ms'|e]; [|discriminate].
    cbn [mbind run_bind]. intros [= <-]. specialize (IH ms' Hitems eq_refl).
    destruct m; [constructor; assumption | exact IH].
Qed.

Lemma response_wf q ms : wf q -> Forall wf ms -> wf (Dyn.response q ms).
Proof.
  intros Hq Hms. apply wf_obj. split.
  - cbn [map fst]. apply NoDup_cons. split.
    + intros H. apply list_elem_of_singleton in H. discriminate.
    + apply NoDup_singleton.
  - repeat constructor; [exact Hq | apply wf_arr; exact Hms].
Qed.

Lemma answer_wf db qs : forall rs,
  wf db -> Forall wf qs -> Dyn.answer db qs = Done rs -> Forall wf rs.
Proof.
  induction qs as [|q qs IH]; intros rs Hdb Hqs; cbn [Dyn.answer].
  - intros [= <-]. constructor.
  - inversion Hqs as [|? ? Hq Hqs']; subst.
    destruct (Dyn.matches db q) as [ms|e] eqn:Hm; [|discriminate].
    cbn [mbind run_bind].
    destruct (Dyn.answer db qs) as [rs'|e]; [|discriminate].
    cbn [mbind run_bind]. intros [= <-]. constructor; [|exact (IH rs' Hdb Hqs' eq_refl)].
    apply response_wf; [exact Hq|].
    unfold Dyn.matches in Hm.
    destruct (Py.iterate db) as [items|e] eqn:Hi; [|discriminate].
    cbn [mbind run_bind] in Hm.
    exact (select_wf items q ms (iterate_wf db items Hdb Hi) Hm).
Qed.

Lemma run_queries_wf db queries results :
  wf db -> wf queries -> Dyn.run_queries db queries = Done results -> wf results.
Proof.
  intros Hdb Hq. unfold Dyn.run_queries.
  destruct (Py.iterate queries) as [qs|e] eqn:Hi; [|discriminate].
  cbn [mbind run_bind].
  destruct (Dyn.answer db qs) as [rs|e] eqn:Ha; [|discriminate].
  cbn [mbind run_bind]. intros [= <-]. apply wf_arr.
  exact (answer_wf db qs rs Hdb (iterate_wf queries qs Hq Hi) Ha).
Qed.

Lemma load_db_json_wf path d v : load_db_json path d = Ok v -> wf v.
Proof.
  unfold load_db_json. destruct (read_text path d) as [text|e]; [|discriminate].
  cbn [mbind result_bind]. apply loads_wf.
Qed.

Lemma load_queries_wf path d v : load_queries path d = Ok v -> wf v.
Proof.
  unfold load_queries. destruct (read_text path d) as [text|e]; [|discriminate].
  cbn [mbind result_bind].
  destruct (loads text) as [data|e] eqn:Hl; [|discriminate].
  cbn [mbind result_bind]. intros [= <-]. pose proof (loads_wf _ _ Hl) as Hwf.
  destruct data; try exact Hwf. apply wf_arr. constructor; [exact Hwf | constructor].
Qed.

Lemma written_value_loads v path d d' :
  wf v -> (depth v <= max_depth)%nat ->
  write_text path (dumps v) d = Ok d' -> load_db_json path d' = Ok v.
Proof.
  intros Hwf Hd Hw. unfold load_db_json.
  rewrite (ValidFacts.read_written _ _ _ _ Hw). cbn [mbind result_bind].
  apply loads_encode; assumption.
Qed.

Lemma records_wf flights :
  Forall (fun f => ValidFacts.valid (price f)) flights -> wf (db_json flights).
Proof.
  intros H. apply wf_arr. unfold db_json.
  induction H as [|f l Hf Hl IH]; cbn [map]; constructor; [|exact IH].
  apply wf_obj. split.
  - cbn [flight_json map fst]. apply NoDup_ListNoDup.
    repeat constructor; cbn [In]; intuition discriminate.
  - repeat constructor. exact Hf.
Qed.

(** What [run_queries_and_save] does when it ends normally. *)
Lemma run_saved db query_path out_path now d d' :
  run_queries_and_save db query_path out_path now d = Done d' ->
  exists queries results,
    load_queries query_path d = Ok queries
    /\ Dyn.run_queries db queries = Done results
    /\ write_text (match out_path with Some p => p | None => default_response_filename now end)
         (dumps results) d = Ok d'.
Proof.
  unfold run_queries_and_save.
  destruct (load_queries query_path d) as [queries|e] eqn:Hq; [|discriminate].
  cbn [lift mbind run_bind].
  destruct (Dyn.run_queries db queries) as [results|e] eqn:Hr; [|discriminate].
  cbn [mbind run_bind].
  destruct (write_text _ _ d) as [d1|e] eqn:Hw; [|discriminate].
  intros [= <-]. exists queries, results. split; [reflexivity|]. split; [exact Hr | exact Hw].
Qed.

(** A run on CSV sources that ends normally has saved both files. *)
Lemma ingest_saved args fs now w :
  given (ns_json_db args) = None ->
  snd (main args fs now w) = None ->
  snd (main (without_query args) fs now w) = None.
Proof.
  intros Hj. unfold main, without_query. cbn [ns_json_db ns_input ns_directory ns_output].
  rewrite Hj.
  destruct (given (ns_input args)), (given (ns_directory args));
    try (cbn; discriminate);
    (destruct (save_db_json _ _ (w_disk w)) as [d1|e1]; [|cbn; discriminate]);
    (destruct (save_errors_txt _ _ d1) as [d2|e2]; [|cbn; discriminate]);
    reflexivity.
Qed.

End ResponseFacts.

(** X28. The response file holds the responses. When
    [run_queries_and_save] ends normally on a database that is a value
    of [json.load], the queries of the query file were read and
    [run_queries] has answered them; and the file it has written, read
    with [json.load], gives these responses, provided they nest no
    deeper than the embedding reads. *)
Theorem response_file_reloads db query_path out_path now d d' :
  wf db ->
  run_queries_and_save db query_path out_path now d = Done d' ->
  exists queries results,
    load_queries query_path d = Ok queries
    /\ Dyn.run_queries db queries = Done results
    /\ ((depth results <= Json.max_depth)%nat ->
        load_db_json (match out_path with Some p => p | None => default_response_filename now end)
          d'
        = Ok results).
Proof.
  intros Hdb Hrun.
  destruct (ResponseFacts.run_saved _ _ _ _ _ _ Hrun) as (queries & results & Hq & Hr & Hw).
  exists queries, results. split; [exact Hq|]. split; [exact Hr|].
  intros Hd. apply (ResponseFacts.written_value_loads _ _ d); [|exact Hd|exact Hw].
  exact (ResponseFacts.run_queries_wf _ _ _ Hdb (ResponseFacts.load_queries_wf _ _ _ Hq) Hr).
Qed.

Definition query_disk : disk :=
  mk_disk {["q.json" := "{}"]} (fun _ => false) (fun path => path).

Definition answered_disk : disk :=
  match run_queries_and_save (db_json [example_flight]) "q.json" (Some "r.json")
          (mk_datetime 2024 1 1 8 0) query_disk with
  | Done d => d
  | Stop _ => query_disk
  end.

Lemma response_file_reloads_witness :
  exists queries results,
    load_queries "q.json" query_disk = Ok queries
    /\ Dyn.run_queries (db_json [example_flight]) queries = Done results
    /\ (depth results <= Json.max_depth)%nat
    /\ load_db_json "r.json" answered_disk = Ok results.
Proof.
  destruct (response_file_reloads (db_json [example_flight]) "q.json" (Some "r.json")
              (mk_datetime 2024 1 1 8 0) query_disk answered_disk)
    as (queries & results & Hq & Hr & Hload).
  - apply ResponseFacts.records_wf. repeat constructor.
  - reflexivity.
  - vm_compute in Hq. injection Hq as <-.
    vm_compute in Hr. injection Hr as <-.
    eexists. eexists. split; [reflexivity|]. split; [reflexivity|].
    assert (Hd : (depth (JArr [Dyn.response (JObj []) [flight_json example_flight]])
                  <= Json.max_depth)%nat) by (apply Nat.leb_le; reflexivity).
    split; [exact Hd | exact (Hload Hd)].
Defined.

(** X29. A run on a saved database with a query file, when it stays
    within the embedding and nothing ends it early, has loaded the
    database, read the queries and answered them with [run_queries]; it
    prints nothing, and it leaves a response file that [json.load]
    reads back as these responses, provided they nest no deeper than
    the embedding reads. *)
Theorem main_response_reloads args fs now w path query_path :
  given (ns_json_db args) = Some path ->
  given (ns_query args) = Some query_path ->
  snd (main args fs now w) = None ->
  exists db queries results,
    load_db_json path (w_disk w) = Ok db
    /\ load_queries query_path (w_disk w) = Ok queries
    /\ Dyn.run_queries db queries = Done results
    /\ ((depth results <= Json.max_depth)%nat ->
        load_db_json (default_response_filename now) (w_disk (fst (main args fs now w)))
        = Ok results)
    /\ w_stdout (fst (main args fs now w)) = w_stdout w.
Proof.
  intros Hj Hq. unfold main. rewrite Hj.
  destruct (load_db_json path (w_disk w)) as [db|e] eqn:Hdb; [|discriminate].
  unfold queries_step. rewrite Hq.
  destruct (run_queries_and_save db query_path None now (w_disk w)) as [d'|f] eqn:Hrun;
    [|discriminate].
  intros _. cbn [fst with_disk w_disk w_stdout].
  destruct (ResponseFacts.run_saved _ _ _ _ _ _ Hrun) as (queries & results & Hqs & Hr & Hw).
  exists db, queries, results.
  split; [reflexivity|]. split; [exact Hqs|]. split; [exact Hr|]. split; [|reflexivity].
  intros Hd. apply (ResponseFacts.written_value_loads _ _ (w_disk w)); [|exact Hd|exact Hw].
  exact (ResponseFacts.run_queries_wf _ _ _ (ResponseFacts.load_db_json_wf _ _ _ Hdb)
           (ResponseFacts.load_queries_wf _ _ _ Hqs) Hr).
Qed.

Definition saved_and_query : namespace :=
  mk_namespace None None None (Some "db.json") (Some "q.json").

Definition saved_world : world :=
  mk_world (mk_disk {["db.json" := Json.dumps (db_json [example_flight]);
                      "q.json" := quoted "[{'origin': 'JFK'}, {'price': 50}]"]}
              (fun _ => false) (fun path => path)) [].

Lemma main_response_reloads_witness :
  exists db queries results,
    load_db_json "db.json" (w_disk saved_world) = Ok db
    /\ load_queries "q.json" (w_disk saved_world) = Ok queries
    /\ Dyn.run_queries db queries = Done results
    /\ (depth results <= Json.max_depth)%nat
    /\ load_db_json (default_response_filename (mk_datetime 2024 1 1 8 0))
         (w_disk (fst (main saved_and_query one_row_fs (mk_datetime 2024 1 1 8 0) saved_world)))
       = Ok results
    /\ w_stdout (fst (main saved_and_query one_row_fs (mk_datetime 2024 1 1 8 0) saved_world))
       = w_stdout saved_world.
Proof.
  destruct (main_response_reloads saved_and_query one_row_fs (mk_datetime 2024 1 1 8 0)
              saved_world "db.json" "q.json")
    as (db & queries & results & Hdb & Hq & Hr & Hload & Hout);
    [reflexivity | reflexivity | reflexivity |].
  exists db, queries, results.
  split; [exact Hdb|]. split; [exact Hq|]. split; [exact Hr|].
  assert (Hd : (depth results <= Json.max_depth)%nat).
  { vm_compute in Hdb. injection Hdb as <-.
    vm_compute in Hq. injection Hq as <-.
    vm_compute in Hr. injection Hr as <-.
    apply Nat.leb_le. reflexivity. }
  split; [exact Hd|]. split; [exact (Hload Hd) | exact Hout].
Defined.

(** X30. In a run on CSV sources with a query file that stays within
    the embedding and that nothing ends early, the queries are read
    once the database and the error report are written, and they are
    answered from the records ingested; the run prints nothing, and the
    response file reads back with [json.load] as the responses
    computed, provided they nest no deeper than the embedding reads. *)
Theorem main_ingest_response_reloads args fs now w query_path :
  given (ns_json_db args) = None ->
  given (ns_query args) = Some query_path ->
  snd (main args fs now w) = None ->
  let st := parse_input_sources fs (ns_input args) (ns_directory args) in
  let saved := w_disk (fst (main (without_query args) fs now w)) in
  exists queries results,
    load_queries query_path saved = Ok queries
    /\ Dyn.run_queries (db_json (valid_flights st)) queries = Done results
    /\ ((depth results <= Json.max_depth)%nat ->
        load_db_json (default_response_filename now) (w_disk (fst (main args fs now w)))
        = Ok results)
    /\ w_stdout (fst (main args fs now w)) = w_stdout w.
Proof.
  intros Hj Hq Hok.
  pose proof (ResponseFacts.ingest_saved args fs now w Hj Hok) as Hsaved.
  destruct (MainFacts.ingest_run args fs now w Hj Hsaved) as (d1 & d2 & _ & _ & Hmain & Hrun).
  cbn zeta in *. rewrite Hmain. cbn [fst with_disk w_disk].
  rewrite Hrun in Hok |- *. unfold queries_step in *. rewrite Hq in *.
  cbn [with_disk w_disk] in *.
  destruct (run_queries_and_save _ query_path None now d2) as [d'|f] eqn:Hsave;
    [|discriminate].
  cbn [fst with_disk w_disk w_stdout].
  destruct (ResponseFacts.run_saved _ _ _ _ _ _ Hsave) as (queries & results & Hqs & Hr & Hw).
  exists queries, results.
  split; [exact Hqs|]. split; [exact Hr|]. split; [|reflexivity].
  intros Hd. apply (ResponseFacts.written_value_loads _ _ d2); [|exact Hd|exact Hw].
  exact (ResponseFacts.run_queries_wf _ _ _
           (ResponseFacts.records_wf _ (ValidFacts.ingested_valid _ _ _))
           (ResponseFacts.load_queries_wf _ _ _ Hqs) Hr).
Qed.

Lemma main_ingest_response_reloads_witness :
  exists queries results,
    load_queries "q.json"
      (w_disk (fst (main (without_query source_and_query) one_row_fs
                      (mk_datetime 2024 1 1 8 0) query_world)))
    = Ok queries
    /\ Dyn.run_queries
         (db_json (valid_flights (parse_input_sources one_row_fs (Some "a.csv") None))) queries
       = Done results
    /\ (depth results <= Json.max_depth)%nat
    /\ load_db_json (default_response_filename (mk_datetime 2024 1 1 8 0))
         (w_disk (fst (main source_and_query one_row_fs (mk_datetime 2024 1 1 8 0) query_world)))
       = Ok results
    /\ w_stdout (fst (main source_and_query one_row_fs (mk_datetime 2024 1 1 8 0) query_world))
       = w_stdout query_world.
Proof.
  destruct (main_ingest_response_reloads source_and_query one_row_fs (mk_datetime 2024 1 1 8 0)
              query_world "q.json")
    as (queries & results & Hq & Hr & Hload & Hout);
    [reflexivity | reflexivity | reflexivity |].
  exists queries, results.
  split; [exact Hq|]. split; [exact Hr|].
  assert (Hd : (depth results <= Json.max_depth)%nat).
  { vm_compute in Hq. injection Hq as <-.
    vm_compute in Hr. injection Hr as <-.
    apply Nat.leb_le. reflexivity. }
  split; [exact Hd|]. split; [exact (Hload Hd) | exact Hout].
Defined.
